(** * rook-s3-nano: the ObjectStore reconciler and its resource-spec builder

    A shallow embedding of [controllers/spec.go] and
    [controllers/objectstore_controller.go], together with the parts of the
    Go standard library, of apimachinery and of controller-runtime that these
    two files call.  Go strings are byte sequences: they are [string]s whose
    [ascii] characters are the bytes. *)

From Stdlib Require Import ZArith Ascii String List Lia Bool.
From stdpp Require Import base decidable option list strings gmap.
Import ListNotations.

Local Open Scope string_scope.
Local Open Scope list_scope.
Local Open Scope Z_scope.

(** ** The Go standard library, as far as the controller uses it *)

Module GoStrings.

(** [strings.Replace(s, old, new, -1)] where [old] and [new] are one-byte
    strings, the only way the package calls it: every occurrence of the
    byte is replaced. *)
Fixpoint Replace (s : string) (old new : ascii) : string :=
  match s with
  | EmptyString => EmptyString
  | String c r =>
      String (if Ascii.eqb c old then new else c) (Replace r old new)
  end.

Definition byteOf (c : ascii) : Z := Z.of_N (N_of_ascii c).

(** [c >= utf8.RuneSelf] fails for every byte of the string. *)
Fixpoint isASCII (s : string) : bool :=
  match s with
  | EmptyString => true
  | String c r => (byteOf c <? 128) && isASCII r
  end.

Definition lowerByte (c : ascii) : ascii :=
  if (byteOf "A"%char <=? byteOf c) && (byteOf c <=? byteOf "Z"%char)
  then ascii_of_N (N_of_ascii c + 32)
  else c.

Fixpoint lowerASCII (s : string) : string :=
  match s with
  | EmptyString => EmptyString
  | String c r => String (lowerByte c) (lowerASCII r)
  end.

(** [strings.ToLower]: the ASCII path is the library's own loop; on any
    other string the library maps [unicode.ToLower] over the runes, which
    is the argument [mapUnicodeLower]. *)
Definition ToLower (mapUnicodeLower : string -> string) (s : string) : string :=
  if isASCII s then lowerASCII s else mapUnicodeLower s.

(** [[]byte(s)] *)
Definition bytes (s : string) : list Z := map byteOf (list_ascii_of_string s).

(** [strings.Join] *)
Fixpoint Join (elems : list string) (sep : string) : string :=
  match elems with
  | [] => ""
  | [e] => e
  | e :: r => e +:+ sep +:+ Join r sep
  end.

End GoStrings.

(** [crypto/sha256], the generic block function. Words are [uint32] held in
    [Z], every addition wrapped. *)
Module Sha256.

Definition u32 (x : Z) : Z := x mod 2 ^ 32.
Definition add32 (x y : Z) : Z := u32 (x + y).

(** [bits.RotateLeft32(x, -n)] *)
Definition rotr (x n : Z) : Z :=
  u32 (Z.lor (Z.shiftr x n) (Z.shiftl x (32 - n))).

(** Floor of the [k]-th root of [n], found bit by bit from bit [b] down. *)
Fixpoint iroot (k : nat) (n : Z) (b : nat) (acc : Z) : Z :=
  let try := acc + 2 ^ Z.of_nat b in
  let acc' := if try ^ Z.of_nat k <=? n then try else acc in
  match b with
  | O => acc'
  | S b' => iroot k n b' acc'
  end.

(** The first 32 bits of the fractional part of the [k]-th root of [p]. *)
Definition fracRoot (k : nat) (p : Z) : Z :=
  u32 (iroot k (p * 2 ^ (32 * Z.of_nat k)) 40 0).

Definition isPrime (n : Z) : bool :=
  forallb (fun d => negb (n mod Z.of_nat d =? 0)) (seq 2 (Z.to_nat n - 2)).

(** The primes up to 311, sixty-four of them. *)
Definition primes : list Z :=
  List.filter isPrime (map Z.of_nat (seq 2 310)).

(** The round constants. The library holds them as a table of literals; they
    are, and are here computed as, the fractional bits of the cube roots of
    the first sixty-four primes. *)
Definition _K : list Z := map (fracRoot 3) primes.

Record digest := mkDigest
  { h0 : Z; h1 : Z; h2 : Z; h3 : Z; h4 : Z; h5 : Z; h6 : Z; h7 : Z }.

(** The initial hash value, in the library eight literals: the fractional
    bits of the square roots of the first eight primes. *)
Definition init : digest :=
  match map (fracRoot 2) (firstn 8 primes) with
  | [ a; b; c; d; e; f; g; h ] => mkDigest a b c d e f g h
  | _ => mkDigest 0 0 0 0 0 0 0 0
  end.

(** [w[i] = uint32(p[j])<<24 | uint32(p[j+1])<<16 | uint32(p[j+2])<<8 | uint32(p[j+3])] *)
Fixpoint words (p : list Z) (n : nat) : list Z :=
  match n, p with
  | S n', b0 :: b1 :: b2 :: b3 :: r =>
      Z.lor (Z.lor (Z.lor (Z.shiftl b0 24) (Z.shiftl b1 16)) (Z.shiftl b2 8)) b3
      :: words r n'
  | _, _ => []
  end.

Definition at_ (w : list Z) (i : nat) : Z := nth i w 0.

(** The message schedule for [i] from the current length up. *)
Fixpoint schedule (n : nat) (w : list Z) : list Z :=
  match n with
  | O => w
  | S n' =>
      let i := length w in
      let v1 := at_ w (i - 2) in
      let t1 := Z.lxor (Z.lxor (rotr v1 17) (rotr v1 19)) (Z.shiftr v1 10) in
      let v2 := at_ w (i - 15) in
      let t2 := Z.lxor (Z.lxor (rotr v2 7) (rotr v2 18)) (Z.shiftr v2 3) in
      schedule n'
        (w ++ [add32 (add32 (add32 t1 (at_ w (i - 7))) t2) (at_ w (i - 16))])
  end.

(** [^e & g] on 32 bits *)
Definition andnot (e g : Z) : Z := Z.land (Z.lxor e 0xffffffff) g.

Definition round (d : digest) (kw : Z * Z) : digest :=
  let '(k, w) := kw in
  let '(mkDigest a b c d' e f g h) := d in
  let t1 :=
    add32 (add32 (add32 (add32 h
      (Z.lxor (Z.lxor (rotr e 6) (rotr e 11)) (rotr e 25)))
      (Z.lxor (Z.land e f) (andnot e g))) k) w in
  let t2 :=
    add32 (Z.lxor (Z.lxor (rotr a 2) (rotr a 13)) (rotr a 22))
          (Z.lxor (Z.lxor (Z.land a b) (Z.land a c)) (Z.land b c)) in
  mkDigest (add32 t1 t2) a b c (add32 d' t1) e f g.

(** One 64-byte chunk. *)
Definition block (dig : digest) (p : list Z) : digest :=
  let w := schedule 48 (words p 16) in
  let r := fold_left round (combine _K w) dig in
  mkDigest (add32 (h0 dig) (h0 r)) (add32 (h1 dig) (h1 r))
           (add32 (h2 dig) (h2 r)) (add32 (h3 dig) (h3 r))
           (add32 (h4 dig) (h4 r)) (add32 (h5 dig) (h5 r))
           (add32 (h6 dig) (h6 r)) (add32 (h7 dig) (h7 r)).

(** [for len(p) >= chunk { ...; p = p[chunk:] }], the fuel bounding the
    number of chunks. *)
Fixpoint blockGeneric (fuel : nat) (dig : digest) (p : list Z) : digest :=
  match fuel with
  | O => dig
  | S f =>
      if (64 <=? length p)%nat
      then blockGeneric f (block dig (firstn 64 p)) (skipn 64 p)
      else dig
  end.

(** Big-endian bytes of a word of [n] bytes. *)
Fixpoint bigEndian (n : nat) (x : Z) : list Z :=
  match n with
  | O => []
  | S n' => Z.land (Z.shiftr x (8 * Z.of_nat n')) 0xff :: bigEndian n' x
  end.

(** [checkSum]: a 0x80 byte, zeros up to 56 modulo 64, the length in bits. *)
Definition padding (len : nat) : list Z :=
  let t := if (len mod 64 <? 56)%nat
           then (56 - len mod 64)%nat else (64 + 56 - len mod 64)%nat in
  (0x80 :: repeat 0 (t - 1)) ++ bigEndian 8 (Z.shiftl (Z.of_nat len) 3).

Definition Sum256 (data : list Z) : list Z :=
  let p := data ++ padding (length data) in
  let d := blockGeneric (length p) init p in
  bigEndian 4 (h0 d) ++ bigEndian 4 (h1 d) ++ bigEndian 4 (h2 d) ++
  bigEndian 4 (h3 d) ++ bigEndian 4 (h4 d) ++ bigEndian 4 (h5 d) ++
  bigEndian 4 (h6 d) ++ bigEndian 4 (h7 d).

End Sha256.

(** [encoding/hex] *)
Module Hex.

Definition hextable : string := "0123456789abcdef".

Definition digit (v : Z) : ascii :=
  match String.get (Z.to_nat v) hextable with
  | Some c => c
  | None => "0"%char
  end.

Fixpoint EncodeToString (src : list Z) : string :=
  match src with
  | [] => ""
  | v :: r =>
      String (digit (Z.shiftr v 4))
        (String (digit (Z.land v 0x0f)) (EncodeToString r))
  end.

End Hex.

(** ** The Kubernetes API objects the controller reads and builds

    Each record keeps the fields of the Go struct that the package sets,
    reads or passes through; a field name carries its struct's name where two
    structs share it.  A Go pointer field is an [option], a slice a [list], a
    [map[string]string] a [gmap string string]. *)

(** [metav1.Time] as an instant counted from the zero time. *)
Definition Time : Type := Z.

Record TypeMeta := mkTypeMeta
  { Kind : string; APIVersion : string }.

Record OwnerReference := mkOwnerReference
  { Owner_APIVersion : string;
    Owner_Kind : string;
    Owner_Name : string;
    Owner_UID : string;
    Owner_Controller : option bool;
    Owner_BlockOwnerDeletion : option bool }.

Record ObjectMeta := mkObjectMeta
  { Name : string;
    Namespace : string;
    UID : string;
    Labels : gmap string string;
    OwnerReferences : list OwnerReference;
    Finalizers : list string;
    DeletionTimestamp : option Time }.

(** [intstr.IntOrString]; [IntOrString_Type] is 0 for [Int], 1 for [String]. *)
Record IntOrString := mkIntOrString
  { IntOrString_Type : Z; IntVal : Z; StrVal : string }.

Record LabelSelector := mkLabelSelector
  { MatchLabels : gmap string string }.

(** *** core/v1: claims *)

Definition PersistentVolumeAccessMode : Type := string.
Definition ReadWriteOnce : PersistentVolumeAccessMode := "ReadWriteOnce".
Definition ReadOnlyMany : PersistentVolumeAccessMode := "ReadOnlyMany".
Definition ReadWriteMany : PersistentVolumeAccessMode := "ReadWriteMany".

Definition PersistentVolumeMode : Type := string.
Definition PersistentVolumeBlock : PersistentVolumeMode := "Block".
Definition PersistentVolumeFilesystem : PersistentVolumeMode := "Filesystem".

(** [v1.ResourceRequirements]; a [resource.Quantity] is kept as its text. *)
Record ResourceRequirements := mkResourceRequirements
  { Limits : gmap string string; Requests : gmap string string }.

Record TypedLocalObjectReference := mkTypedLocalObjectReference
  { Ref_APIGroup : option string; Ref_Kind : string; Ref_Name : string }.

Record PersistentVolumeClaimSpec := mkPersistentVolumeClaimSpec
  { AccessModes : list PersistentVolumeAccessMode;
    PVC_Selector : option LabelSelector;
    Resources : ResourceRequirements;
    VolumeName : string;
    StorageClassName : option string;
    VolumeMode : option PersistentVolumeMode;
    DataSource : option TypedLocalObjectReference }.

Record PersistentVolumeClaim := mkPersistentVolumeClaim
  { PVC_TypeMeta : TypeMeta;
    PVC_ObjectMeta : ObjectMeta;
    PVC_Spec : PersistentVolumeClaimSpec }.

(** *** core/v1: services *)

Definition ProtocolTCP : string := "TCP".

Record ServicePort := mkServicePort
  { ServicePort_Name : string;
    Protocol : string;
    Port : Z;
    TargetPort : IntOrString;
    NodePort : Z }.

Record ServiceSpec := mkServiceSpec
  { Ports : list ServicePort;
    Service_Selector : gmap string string;
    ClusterIP : string;
    ServiceSpec_Type : string }.

Record Service := mkService
  { Service_TypeMeta : TypeMeta;
    Service_ObjectMeta : ObjectMeta;
    Service_Spec : ServiceSpec }.

(** *** core/v1: pods *)

Record ObjectFieldSelector := mkObjectFieldSelector
  { FieldPath : string }.

Record EnvVarSource := mkEnvVarSource
  { FieldRef : option ObjectFieldSelector }.

Record EnvVar := mkEnvVar
  { EnvVar_Name : string; Value : string; ValueFrom : option EnvVarSource }.

Record VolumeMount := mkVolumeMount
  { VolumeMount_Name : string; MountPath : string }.

Record SecurityContext := mkSecurityContext
  { Privileged : option bool; SecurityContext_RunAsUser : option Z }.

Record Container := mkContainer
  { Container_Name : string;
    Image : string;
    Command : list string;
    Args : list string;
    Env : list EnvVar;
    VolumeMounts : list VolumeMount;
    Container_SecurityContext : option SecurityContext }.

Record PersistentVolumeClaimVolumeSource := mkPersistentVolumeClaimVolumeSource
  { ClaimName : string }.

Record VolumeSource := mkVolumeSource
  { VolumeSource_PersistentVolumeClaim : option PersistentVolumeClaimVolumeSource }.

Record Volume := mkVolume
  { Volume_Name : string; Volume_VolumeSource : VolumeSource }.

Record PodSecurityContext := mkPodSecurityContext
  { RunAsUser : option Z; RunAsGroup : option Z; FSGroup : option Z }.

Definition RestartPolicyAlways : string := "Always".

Record PodSpec := mkPodSpec
  { InitContainers : list Container;
    Containers : list Container;
    RestartPolicy : string;
    Pod_SecurityContext : option PodSecurityContext;
    Volumes : list Volume }.

Record PodTemplateSpec := mkPodTemplateSpec
  { Template_ObjectMeta : ObjectMeta; Template_Spec : PodSpec }.

(** *** apps/v1: deployments *)

Definition RollingUpdateDeploymentStrategyType : string := "RollingUpdate".

Record RollingUpdateDeployment := mkRollingUpdateDeployment
  { MaxUnavailable : option IntOrString; MaxSurge : option IntOrString }.

Record DeploymentStrategy := mkDeploymentStrategy
  { Strategy_Type : string; RollingUpdate : option RollingUpdateDeployment }.

Record DeploymentSpec := mkDeploymentSpec
  { Replicas : option Z;
    Deployment_Selector : option LabelSelector;
    Template : PodTemplateSpec;
    Strategy : DeploymentStrategy }.

Record Deployment := mkDeployment
  { Deployment_TypeMeta : TypeMeta;
    Deployment_ObjectMeta : ObjectMeta;
    Deployment_Spec : DeploymentSpec }.

(** *** api/v1alpha1: the ObjectStore custom resource *)

Record GatewaySpec := mkGatewaySpec
  { Gateway_Port : Z }.

Record ObjectStoreSpec := mkObjectStoreSpec
  { ObjectStore_Image : string;
    Gateway : GatewaySpec;
    VolumeClaimTemplate : option PersistentVolumeClaim }.

Record ObjectStoreStatus := mkObjectStoreStatus
  { Phase : string }.

Record ObjectStore := mkObjectStore
  { ObjectStore_TypeMeta : TypeMeta;
    ObjectStore_ObjectMeta : ObjectMeta;
    Spec : ObjectStoreSpec;
    Status : ObjectStoreStatus }.

(** The zero values [T{}] of Go. *)
Definition zeroTypeMeta : TypeMeta := mkTypeMeta "" "".
Definition zeroObjectMeta : ObjectMeta := mkObjectMeta "" "" "" ∅ [] [] None.
Definition zeroContainer : Container := mkContainer "" "" [] [] [] [] None.
Definition zeroPodSpec : PodSpec := mkPodSpec [] [] "" None [].
Definition zeroPodTemplateSpec : PodTemplateSpec :=
  mkPodTemplateSpec zeroObjectMeta zeroPodSpec.
Definition zeroServiceSpec : ServiceSpec := mkServiceSpec [] ∅ "" "".
Definition zeroDeploymentSpec : DeploymentSpec :=
  mkDeploymentSpec None None zeroPodTemplateSpec (mkDeploymentStrategy "" None).

(** Structural equality is decidable on every object: it stands for
    [reflect.DeepEqual] and [equality.Semantic.DeepEqual]. *)
#[global] Instance TypeMeta_eq_dec : EqDecision TypeMeta.
Proof. solve_decision. Defined.
#[global] Instance OwnerReference_eq_dec : EqDecision OwnerReference.
Proof. solve_decision. Defined.
#[global] Instance ObjectMeta_eq_dec : EqDecision ObjectMeta.
Proof. solve_decision. Defined.
#[global] Instance IntOrString_eq_dec : EqDecision IntOrString.
Proof. solve_decision. Defined.
#[global] Instance LabelSelector_eq_dec : EqDecision LabelSelector.
Proof. solve_decision. Defined.
#[global] Instance ResourceRequirements_eq_dec : EqDecision ResourceRequirements.
Proof. solve_decision. Defined.
#[global] Instance TypedLocalObjectReference_eq_dec :
  EqDecision TypedLocalObjectReference.
Proof. solve_decision. Defined.
#[global] Instance PersistentVolumeClaimSpec_eq_dec :
  EqDecision PersistentVolumeClaimSpec.
Proof. unfold PersistentVolumeAccessMode, PersistentVolumeMode. solve_decision. Defined.
#[global] Instance PersistentVolumeClaim_eq_dec : EqDecision PersistentVolumeClaim.
Proof. solve_decision. Defined.
#[global] Instance ServicePort_eq_dec : EqDecision ServicePort.
Proof. solve_decision. Defined.
#[global] Instance ServiceSpec_eq_dec : EqDecision ServiceSpec.
Proof. solve_decision. Defined.
#[global] Instance Service_eq_dec : EqDecision Service.
Proof. solve_decision. Defined.
#[global] Instance ObjectFieldSelector_eq_dec : EqDecision ObjectFieldSelector.
Proof. solve_decision. Defined.
#[global] Instance EnvVarSource_eq_dec : EqDecision EnvVarSource.
Proof. solve_decision. Defined.
#[global] Instance EnvVar_eq_dec : EqDecision EnvVar.
Proof. solve_decision. Defined.
#[global] Instance VolumeMount_eq_dec : EqDecision VolumeMount.
Proof. solve_decision. Defined.
#[global] Instance SecurityContext_eq_dec : EqDecision SecurityContext.
Proof. solve_decision. Defined.
#[global] Instance Container_eq_dec : EqDecision Container.
Proof. solve_decision. Defined.
#[global] Instance PersistentVolumeClaimVolumeSource_eq_dec :
  EqDecision PersistentVolumeClaimVolumeSource.
Proof. solve_decision. Defined.
#[global] Instance VolumeSource_eq_dec : EqDecision VolumeSource.
Proof. solve_decision. Defined.
#[global] Instance Volume_eq_dec : EqDecision Volume.
Proof. solve_decision. Defined.
#[global] Instance PodSecurityContext_eq_dec : EqDecision PodSecurityContext.
Proof. solve_decision. Defined.
#[global] Instance PodSpec_eq_dec : EqDecision PodSpec.
Proof. solve_decision. Defined.
#[global] Instance PodTemplateSpec_eq_dec : EqDecision PodTemplateSpec.
Proof. solve_decision. Defined.
#[global] Instance RollingUpdateDeployment_eq_dec : EqDecision RollingUpdateDeployment.
Proof. solve_decision. Defined.
#[global] Instance DeploymentStrategy_eq_dec : EqDecision DeploymentStrategy.
Proof. solve_decision. Defined.
#[global] Instance DeploymentSpec_eq_dec : EqDecision DeploymentSpec.
Proof. solve_decision. Defined.
#[global] Instance Deployment_eq_dec : EqDecision Deployment.
Proof. solve_decision. Defined.
#[global] Instance GatewaySpec_eq_dec : EqDecision GatewaySpec.
Proof. solve_decision. Defined.
#[global] Instance ObjectStoreSpec_eq_dec : EqDecision ObjectStoreSpec.
Proof. solve_decision. Defined.
#[global] Instance ObjectStoreStatus_eq_dec : EqDecision ObjectStoreStatus.
Proof. solve_decision. Defined.
#[global] Instance ObjectStore_eq_dec : EqDecision ObjectStore.
Proof. solve_decision. Defined.

(** ** Errors

    A Go [error] is an API status error with its reason, a plain message, or
    an error wrapped by [fmt.Errorf] with [%w]; the wrapping keeps the format
    and its other arguments as they are passed. *)
Inductive error : Type :=
| StatusError (reason : string) (message : string)
| errorString (s : string)
| wrapError (format : string) (args : list string) (err : error).

Definition StatusReasonUnknown : string := "".
Definition StatusReasonNotFound : string := "NotFound".
Definition StatusReasonAlreadyExists : string := "AlreadyExists".

(** [kerrors.ReasonForError]: the reason of the first status error on the
    chain of wrapped errors. *)
Fixpoint ReasonForError (err : error) : string :=
  match err with
  | StatusError reason _ => reason
  | errorString _ => StatusReasonUnknown
  | wrapError _ _ inner => ReasonForError inner
  end.

Definition IsNotFound (err : error) : bool :=
  bool_decide (ReasonForError err = StatusReasonNotFound).

Definition IsAlreadyExists (err : error) : bool :=
  bool_decide (ReasonForError err = StatusReasonAlreadyExists).

(** A Go result pair [(T, error)] of a call that yields a value or fails. *)
Inductive result (A : Type) : Type :=
| Ok (a : A)
| Err (e : error).
Arguments Ok {A} a.
Arguments Err {A} e.

(** ** [schema.GroupVersion] and the group-version of the API package *)

Record SchemaGroupVersion := mkGroupVersion
  { Group : string; Version : string }.

Record GroupVersionKind := mkGroupVersionKind
  { GVK_Group : string; GVK_Version : string; GVK_Kind : string }.

(** [func (gv GroupVersion) String() string] *)
Definition GroupVersion_String (gv : SchemaGroupVersion) : string :=
  if (0 <? Z.of_nat (String.length (Group gv)))
  then Group gv +:+ "/" +:+ Version gv
  else Version gv.

(** Modelled from the spec: [v1alpha1.GroupVersion], declared in the API
    package's group-version file, which is not among the sources. The spec
    gives the group [object.<product>] and the version [v1alpha1]; the CRD
    manifest names the group [object.rook-s3-nano]. *)
Definition GroupVersion : SchemaGroupVersion :=
  mkGroupVersion "object.rook-s3-nano" "v1alpha1".

(** ** controllers/spec.go: the resource-spec builder *)

Definition rgwBeastFrontendName : string := "beast".
Definition rgwPortInternalPort : Z := 7480.
Definition appName : string := "rgw".
Definition podNameEnvVar : string := "POD_NAME".
Definition objectStoreDataDirectory : string := "/var/lib/ceph/radosgw/data".
Definition cephGID : Z := 167.
Definition CephUID : Z := 167.

Definition normalizeKey (key : string) : string :=
  GoStrings.Replace (GoStrings.Replace key " " "_") "-" "_".

Definition ContainerEnvVarReference (envVarName : string) : string :=
  "$(" +:+ envVarName +:+ ")".

Definition defaultDaemonFlag : list string :=
  [ "-d"; "--no-mon-config"; "--nolockdep " ].

Definition instanceName (name namespace : string) : string :=
  appName +:+ "-" +:+ name +:+ "-" +:+ namespace.

Definition NewFlag (key value : string) : string :=
  let n := normalizeKey key in
  let f := GoStrings.Replace n "_" "-" in
  "--" +:+ f +:+ "=" +:+ value.

Definition buildFinalizerName (mapUnicodeLower : string -> string)
    (kind : string) : string :=
  GoStrings.ToLower mapUnicodeLower kind +:+ "." +:+ GroupVersion_String GroupVersion.

Definition DaemonEnvVars (image : string) : list EnvVar :=
  [ mkEnvVar "CONTAINER_IMAGE" image None;
    mkEnvVar "POD_NAME" ""
      (Some (mkEnvVarSource (Some (mkObjectFieldSelector "metadata.name"))));
    mkEnvVar "POD_NAMESPACE" ""
      (Some (mkEnvVarSource (Some (mkObjectFieldSelector "metadata.namespace"))));
    mkEnvVar "NODE_NAME" ""
      (Some (mkEnvVarSource (Some (mkObjectFieldSelector "spec.nodeName"))));
    mkEnvVar "CEPH_LIB" "/usr/lib64/rados-classes" None ].

Definition DaemonVolumesDataPVC (pvcName : string) : Volume :=
  mkVolume "ceph-daemon-data"
    (mkVolumeSource (Some (mkPersistentVolumeClaimVolumeSource pvcName))).

Definition daemonVolumeMountPVC : VolumeMount :=
  mkVolumeMount "ceph-daemon-data" objectStoreDataDirectory.

Definition hash (s : string) : string :=
  let h := Sha256.Sum256 (GoStrings.bytes s) in
  Hex.EncodeToString (firstn 16 h).

Definition getLabels (name namespace : string) (includeNewLabels : bool)
    : gmap string string :=
  {[ "object_store" := name ]}.

Definition chownCephDataDirsInitContainer (containerImage : string)
    (volumeMounts : list VolumeMount) (securityContext : option SecurityContext)
    : Container :=
  let args := [] ++ [ "--verbose"; "--recursive"; "ceph:ceph";
                      objectStoreDataDirectory ] in
  {| Container_Name := "chown-container-data-dir";
     Image := containerImage;
     Command := [ "chown" ];
     Args := args;
     Env := [];
     VolumeMounts := volumeMounts;
     Container_SecurityContext := securityContext |}.

Definition podSecurityContext : option SecurityContext :=
  let root := 0 in
  let privileged := true in
  Some (mkSecurityContext (Some privileged) (Some root)).

Definition makeDaemonContainer (objectStore : ObjectStore) : Container :=
  {| Container_Name := "rgw";
     Image := ObjectStore_Image (Spec objectStore);
     Command := [ "radosgw-sqlite" ];
     Args := defaultDaemonFlag ++
       [ NewFlag "id" (hash (ContainerEnvVarReference podNameEnvVar));
         NewFlag "host" (ContainerEnvVarReference podNameEnvVar);
         NewFlag "librados sqlite data dir" objectStoreDataDirectory;
         NewFlag "debug rgw" "15" ];
     Env := DaemonEnvVars (ObjectStore_Image (Spec objectStore));
     VolumeMounts := [ daemonVolumeMountPVC ];
     Container_SecurityContext := None |}.

Definition makeRGWPodSpec (objectStore : ObjectStore) : result PodTemplateSpec :=
  let rgwDaemonContainer := makeDaemonContainer objectStore in
  if bool_decide (rgwDaemonContainer = zeroContainer)
  then Err (errorString "got empty container for RGW daemon")
  else
    let name := Name (ObjectStore_ObjectMeta objectStore) in
    let namespace := Namespace (ObjectStore_ObjectMeta objectStore) in
    let podSpec :=
      {| InitContainers :=
           [ chownCephDataDirsInitContainer (ObjectStore_Image (Spec objectStore))
               [ daemonVolumeMountPVC ] podSecurityContext ];
         Containers := [ rgwDaemonContainer ];
         RestartPolicy := RestartPolicyAlways;
         Pod_SecurityContext :=
           Some (mkPodSecurityContext (Some CephUID) (Some cephGID) (Some CephUID));
         Volumes := [ DaemonVolumesDataPVC (instanceName name namespace) ] |} in
    Ok {| Template_ObjectMeta :=
            {| Name := instanceName name namespace;
               Namespace := "";
               UID := "";
               Labels := getLabels name namespace true;
               OwnerReferences := [];
               Finalizers := [];
               DeletionTimestamp := None |};
          Template_Spec := podSpec |}.

Definition generateService (objectStore : ObjectStore) : Service :=
  let name := Name (ObjectStore_ObjectMeta objectStore) in
  let namespace := Namespace (ObjectStore_ObjectMeta objectStore) in
  {| Service_TypeMeta := zeroTypeMeta;
     Service_ObjectMeta :=
       {| Name := instanceName name namespace;
          Namespace := namespace;
          UID := "";
          Labels := getLabels name namespace true;
          OwnerReferences := [];
          Finalizers := [];
          DeletionTimestamp := None |};
     Service_Spec := zeroServiceSpec |}.

(** [intstr.FromInt] *)
Definition FromInt (val : Z) : IntOrString := mkIntOrString 0 val "".

(** [addPort] mutates the service it is given; the model returns it. *)
Definition addPort (service : Service) (name : string) (port destPort : Z)
    : Service :=
  if (port =? 0) || (destPort =? 0) then service
  else
    let spec := Service_Spec service in
    {| Service_TypeMeta := Service_TypeMeta service;
       Service_ObjectMeta := Service_ObjectMeta service;
       Service_Spec :=
         {| Ports := Ports spec ++
              [ {| ServicePort_Name := name;
                   Protocol := ProtocolTCP;
                   Port := port;
                   TargetPort := FromInt destPort;
                   NodePort := 0 |} ];
            Service_Selector := Service_Selector spec;
            ClusterIP := ClusterIP spec;
            ServiceSpec_Type := ServiceSpec_Type spec |} |}.

(** The [mutateFunc] closure of [reconcileService], acting on the service
    object that the closure and [CreateOrUpdate] share. *)
Definition reconcileService_mutateFunc (objectStore : ObjectStore)
    (service : Service) : Service * option error :=
  let name := Name (ObjectStore_ObjectMeta objectStore) in
  let namespace := Namespace (ObjectStore_ObjectMeta objectStore) in
  let service :=
    {| Service_TypeMeta := Service_TypeMeta service;
       Service_ObjectMeta := Service_ObjectMeta service;
       Service_Spec :=
         {| Ports := [];
            Service_Selector := getLabels name namespace false;
            ClusterIP := "";
            ServiceSpec_Type := "" |} |} in
  (addPort service "http" 8080 rgwPortInternalPort, None).

(** The [mutateFunc] closure of [createOrUpdateDeployment], acting on the
    shared deployment object. *)
Definition createOrUpdateDeployment_mutateFunc (objectStore : ObjectStore)
    (deploy : Deployment) : Deployment * option error :=
  match makeRGWPodSpec objectStore with
  | Err err => (deploy, Some err)
  | Ok pod =>
      let name := Name (ObjectStore_ObjectMeta objectStore) in
      let namespace := Namespace (ObjectStore_ObjectMeta objectStore) in
      let replicas := 1 in
      let strategy :=
        {| Strategy_Type := RollingUpdateDeploymentStrategyType;
           RollingUpdate :=
             Some {| MaxUnavailable := Some (mkIntOrString 0 1 "");
                     MaxSurge := Some (mkIntOrString 0 0 "") |} |} in
      ({| Deployment_TypeMeta := Deployment_TypeMeta deploy;
          Deployment_ObjectMeta := Deployment_ObjectMeta deploy;
          Deployment_Spec :=
            {| Replicas := Some replicas;
               Deployment_Selector :=
                 Some (mkLabelSelector (getLabels name namespace false));
               Template := pod;
               Strategy := strategy |} |}, None)
  end.

(** ** The cluster API client

    [client.Client] is an interface; the engine reaches the store only
    through it.  A store state has type [W]; [Get] reads it, the other calls
    may change it and hand back the object as the store returned it. *)

Inductive ResourceKind : Type :=
| KObjectStore | KPersistentVolumeClaim | KService | KDeployment.

Definition objType (k : ResourceKind) : Type :=
  match k with
  | KObjectStore => ObjectStore
  | KPersistentVolumeClaim => PersistentVolumeClaim
  | KService => Service
  | KDeployment => Deployment
  end.

Inductive Object : Type :=
| ObjObjectStore (o : ObjectStore)
| ObjPersistentVolumeClaim (o : PersistentVolumeClaim)
| ObjService (o : Service)
| ObjDeployment (o : Deployment).

Definition toObject (k : ResourceKind) : objType k -> Object :=
  match k with
  | KObjectStore => ObjObjectStore
  | KPersistentVolumeClaim => ObjPersistentVolumeClaim
  | KService => ObjService
  | KDeployment => ObjDeployment
  end.

Definition metaOf (k : ResourceKind) : objType k -> ObjectMeta :=
  match k with
  | KObjectStore => ObjectStore_ObjectMeta
  | KPersistentVolumeClaim => PVC_ObjectMeta
  | KService => Service_ObjectMeta
  | KDeployment => Deployment_ObjectMeta
  end.

#[global] Instance objType_eq_dec (k : ResourceKind) : EqDecision (objType k).
Proof. destruct k; simpl; apply _. Defined.

Record NamespacedName := mkNamespacedName
  { Key_Namespace : string; Key_Name : string }.

#[global] Instance NamespacedName_eq_dec : EqDecision NamespacedName.
Proof. solve_decision. Defined.

(** [client.ObjectKeyFromObject] *)
Definition ObjectKeyFromObject (k : ResourceKind) (obj : objType k) : NamespacedName :=
  mkNamespacedName (Namespace (metaOf k obj)) (Name (metaOf k obj)).

Class Client (W : Type) : Type := mkClient
  { clientGet : forall k : ResourceKind, NamespacedName -> W -> result (objType k);
    clientCreate : forall k : ResourceKind, objType k -> W -> result (objType k) * W;
    clientUpdate : forall k : ResourceKind, objType k -> W -> result (objType k) * W;
    clientDelete : forall k : ResourceKind, objType k -> W -> option error * W }.

(** The calls an invocation makes on the client, in order. *)
Inductive Call : Type :=
| CallGet (k : ResourceKind) (key : NamespacedName)
| CallCreate (obj : Object)
| CallUpdate (obj : Object)
| CallDelete (obj : Object).

Definition isMutation (c : Call) : bool :=
  match c with
  | CallGet _ _ => false
  | CallCreate _ | CallUpdate _ | CallDelete _ => true
  end.

Definition isDelete (c : Call) : bool :=
  match c with
  | CallDelete _ => true
  | _ => false
  end.

(** ** The engine's effects: the store, the calls made so far, and panics *)

Record State (W : Type) := mkState
  { world : W; calls : list Call }.
Arguments mkState {W} world calls.
Arguments world {W} s.
Arguments calls {W} s.

Inductive Outcome (W A : Type) : Type :=
| Returns (a : A) (s : State W)
| Panics (msg : string) (s : State W).
Arguments Returns {W A} a s.
Arguments Panics {W A} msg s.

Definition M (W A : Type) : Type := State W -> Outcome W A.

Definition ret {W A} (a : A) : M W A := fun s => Returns a s.

Definition bind {W A B} (m : M W A) (f : A -> M W B) : M W B :=
  fun s =>
    match m s with
    | Returns a s' => f a s'
    | Panics msg s' => Panics msg s'
    end.

Definition panic {W A} (msg : string) : M W A := fun s => Panics msg s.

Notation "x <- m ;; k" := (bind m (fun x => k))
  (at level 100, m at next level, right associativity).

Section Engine.

Context {W : Type} `{client : Client W}.

Definition Get (k : ResourceKind) (key : NamespacedName) : M W (result (objType k)) :=
  fun s =>
    Returns (clientGet k key (world s))
            (mkState (world s) (calls s ++ [CallGet k key])).

Definition Create (k : ResourceKind) (obj : objType k) : M W (result (objType k)) :=
  fun s =>
    let '(r, w) := clientCreate k obj (world s) in
    Returns r (mkState w (calls s ++ [CallCreate (toObject k obj)])).

Definition Update (k : ResourceKind) (obj : objType k) : M W (result (objType k)) :=
  fun s =>
    let '(r, w) := clientUpdate k obj (world s) in
    Returns r (mkState w (calls s ++ [CallUpdate (toObject k obj)])).

(** *** controllerutil.CreateOrUpdate *)

Definition OperationResult : Type := string.
Definition OperationResultNone : OperationResult := "unchanged".
Definition OperationResultCreated : OperationResult := "created".
Definition OperationResultUpdated : OperationResult := "updated".

Definition mutate (k : ResourceKind) (f : objType k -> objType k * option error)
    (key : NamespacedName) (obj : objType k) : objType k * option error :=
  match f obj with
  | (obj', Some err) => (obj', Some err)
  | (obj', None) =>
      if bool_decide (key <> ObjectKeyFromObject k obj')
      then (obj', Some (errorString
             "MutateFn cannot mutate object name and/or object namespace"))
      else (obj', None)
  end.

(** The third component is the object behind the pointer when the call
    returns. *)
Definition CreateOrUpdate (k : ResourceKind) (obj : objType k)
    (f : objType k -> objType k * option error)
    : M W (OperationResult * option error * objType k) :=
  let key := ObjectKeyFromObject k obj in
  got <- Get k key ;;
  match got with
  | Err err =>
      if negb (IsNotFound err) then ret (OperationResultNone, Some err, obj)
      else
        match mutate k f key obj with
        | (obj', Some err) => ret (OperationResultNone, Some err, obj')
        | (obj', None) =>
            created <- Create k obj' ;;
            match created with
            | Err err => ret (OperationResultNone, Some err, obj')
            | Ok obj'' => ret (OperationResultCreated, None, obj'')
            end
        end
  | Ok existing =>
      match mutate k f key existing with
      | (obj', Some err) => ret (OperationResultNone, Some err, obj')
      | (obj', None) =>
          if bool_decide (existing = obj') then ret (OperationResultNone, None, obj')
          else
            updated <- Update k obj' ;;
            match updated with
            | Err err => ret (OperationResultNone, Some err, obj')
            | Ok obj'' => ret (OperationResultUpdated, None, obj'')
            end
      end
  end.

End Engine.

(** ** controllerutil: owner references and finalizers *)

Definition setMeta (k : ResourceKind) (m : ObjectMeta) : objType k -> objType k :=
  match k with
  | KObjectStore => fun o =>
      mkObjectStore (ObjectStore_TypeMeta o) m (Spec o) (Status o)
  | KPersistentVolumeClaim => fun o =>
      mkPersistentVolumeClaim (PVC_TypeMeta o) m (PVC_Spec o)
  | KService => fun o => mkService (Service_TypeMeta o) m (Service_Spec o)
  | KDeployment => fun o =>
      mkDeployment (Deployment_TypeMeta o) m (Deployment_Spec o)
  end.

Definition setFinalizers (m : ObjectMeta) (f : list string) : ObjectMeta :=
  mkObjectMeta (Name m) (Namespace m) (UID m) (Labels m) (OwnerReferences m)
               f (DeletionTimestamp m).

Definition setOwnerReferences (m : ObjectMeta) (owners : list OwnerReference)
    : ObjectMeta :=
  mkObjectMeta (Name m) (Namespace m) (UID m) (Labels m) owners
               (Finalizers m) (DeletionTimestamp m).

Definition ContainsFinalizer (o : ObjectStore) (finalizer : string) : bool :=
  existsb (fun f => bool_decide (f = finalizer))
          (Finalizers (ObjectStore_ObjectMeta o)).

Definition AddFinalizer (o : ObjectStore) (finalizer : string) : ObjectStore :=
  let f := Finalizers (ObjectStore_ObjectMeta o) in
  if existsb (fun e => bool_decide (e = finalizer)) f then o
  else setMeta KObjectStore
         (setFinalizers (ObjectStore_ObjectMeta o) (f ++ [finalizer])) o.

Definition RemoveFinalizer (o : ObjectStore) (finalizer : string) : ObjectStore :=
  let f := Finalizers (ObjectStore_ObjectMeta o) in
  setMeta KObjectStore
    (setFinalizers (ObjectStore_ObjectMeta o)
       (List.filter (fun e => negb (bool_decide (e = finalizer))) f)) o.

(** [IsZero] of a pointer to a [metav1.Time]: nil and the zero time. *)
Definition IsZero (t : option Time) : bool :=
  match t with
  | None => true
  | Some t => t =? 0
  end.

(** The scheme, as far as the engine asks it: the group-version-kinds
    registered for the ObjectStore type. *)
Record Scheme := mkScheme
  { ObjectStoreKinds : list GroupVersionKind }.

(** [apiutil.GVKForObject] at the ObjectStore type *)
Definition GVKForObject (scheme : Scheme) : result GroupVersionKind :=
  match ObjectStoreKinds scheme with
  | [] => Err (errorString "no kind is registered for the type v1alpha1.ObjectStore")
  | [gvk] => Ok gvk
  | _ => Err (errorString
      "multiple group-version-kinds associated with type *v1alpha1.ObjectStore, refusing to guess at one")
  end.

Definition validateOwner (owner object : ObjectMeta) : option error :=
  let ownerNs := Namespace owner in
  if negb (bool_decide (ownerNs = "")) then
    let objNs := Namespace object in
    if bool_decide (objNs = "") then
      Some (errorString
        "cluster-scoped resource must not have a namespace-scoped owner")
    else if negb (bool_decide (ownerNs = objNs)) then
      Some (errorString "cross-namespace owner references are disallowed")
    else None
  else None.

(** The group of [schema.ParseGroupVersion]: the text before the only
    slash; [None] when the text has more than one. *)
Fixpoint beforeSlash (s : string) : option string :=
  match s with
  | EmptyString => None
  | String c r =>
      if Ascii.eqb c "/" then Some ""
      else option_map (String c) (beforeSlash r)
  end.

Fixpoint countSlash (s : string) : nat :=
  match s with
  | EmptyString => O
  | String c r => ((if Ascii.eqb c "/" then 1 else 0) + countSlash r)%nat
  end.

Definition parseGroup (gv : string) : option string :=
  if bool_decide (gv = "") || bool_decide (gv = "/") then Some ""
  else
    match countSlash gv with
    | O => Some ""
    | S O => beforeSlash gv
    | _ => None
    end.

Definition referSameObject (a b : OwnerReference) : bool :=
  match parseGroup (Owner_APIVersion a), parseGroup (Owner_APIVersion b) with
  | Some aG, Some bG =>
      bool_decide (aG = bG) && bool_decide (Owner_Kind a = Owner_Kind b)
      && bool_decide (Owner_Name a = Owner_Name b)
  | _, _ => false
  end.

(** [metav1.GetControllerOf] *)
Definition GetControllerOf (m : ObjectMeta) : option OwnerReference :=
  List.find (fun ref => match Owner_Controller ref with
                        | Some b => b
                        | None => false
                        end) (OwnerReferences m).

Fixpoint upsert (ref : OwnerReference) (owners : list OwnerReference)
    : list OwnerReference :=
  match owners with
  | [] => [ref]
  | o :: rest =>
      if referSameObject o ref then ref :: rest else o :: upsert ref rest
  end.

Definition upsertOwnerRef (ref : OwnerReference) (m : ObjectMeta) : ObjectMeta :=
  setOwnerReferences m (upsert ref (OwnerReferences m)).

(** [controllerutil.SetControllerReference] with an ObjectStore as owner;
    the controlled object is returned as the call leaves it. *)
Definition SetControllerReference (owner : ObjectStore) (k : ResourceKind)
    (controlled : objType k) (scheme : Scheme) : objType k * option error :=
  match validateOwner (ObjectStore_ObjectMeta owner) (metaOf k controlled) with
  | Some err => (controlled, Some err)
  | None =>
      match GVKForObject scheme with
      | Err err => (controlled, Some err)
      | Ok gvk =>
          let ref :=
            {| Owner_APIVersion :=
                 GroupVersion_String (mkGroupVersion (GVK_Group gvk) (GVK_Version gvk));
               Owner_Kind := GVK_Kind gvk;
               Owner_Name := Name (ObjectStore_ObjectMeta owner);
               Owner_UID := UID (ObjectStore_ObjectMeta owner);
               Owner_Controller := Some true;
               Owner_BlockOwnerDeletion := Some true |} in
          match GetControllerOf (metaOf k controlled) with
          | Some existing =>
              if negb (referSameObject existing ref)
              then (controlled, Some (errorString "object is already owned by another controller"))
              else (setMeta k (upsertOwnerRef ref (metaOf k controlled)) controlled, None)
          | None =>
              (setMeta k (upsertOwnerRef ref (metaOf k controlled)) controlled, None)
          end
      end
  end.

(** ** controllers/objectstore_controller.go: the reconciliation engine *)

(** [ctrl.Result] and [ctrl.Request] *)
Record Result := mkResult
  { Requeue : bool; RequeueAfter : Z }.

Record Request := mkRequest
  { Request_NamespacedName : NamespacedName }.

Definition zeroResult : Result := mkResult false 0.

Definition zeroObjectStore : ObjectStore :=
  mkObjectStore zeroTypeMeta zeroObjectMeta
    (mkObjectStoreSpec "" (mkGatewaySpec 0) None) (mkObjectStoreStatus "").

(** The reconciler's own fields; its client is the [Client] instance. The
    logger only writes log lines and is left out. *)
Record ObjectStoreReconciler := mkObjectStoreReconciler
  { Reconciler_Scheme : Scheme }.

Section Reconciler.

Context {W : Type} `{client : Client W}.
Variable mapUnicodeLower : string -> string.
Variable r : ObjectStoreReconciler.

Definition createPVC (objectStore : ObjectStore) : M W (option error) :=
  let volumeMode := PersistentVolumeFilesystem in
  let name := Name (ObjectStore_ObjectMeta objectStore) in
  let namespace := Namespace (ObjectStore_ObjectMeta objectStore) in
  match VolumeClaimTemplate (Spec objectStore) with
  | None => panic "invalid memory address or nil pointer dereference"
  | Some template =>
      let pvc :=
        {| PVC_TypeMeta := zeroTypeMeta;
           PVC_ObjectMeta :=
             {| Name := instanceName name namespace;
                Namespace := namespace;
                UID := "";
                Labels := ∅;
                OwnerReferences := [];
                Finalizers := [];
                DeletionTimestamp := None |};
           PVC_Spec := PVC_Spec template |} in
      let spec := PVC_Spec pvc in
      let pvc :=
        {| PVC_TypeMeta := PVC_TypeMeta pvc;
           PVC_ObjectMeta := PVC_ObjectMeta pvc;
           PVC_Spec :=
             {| AccessModes := [ ReadWriteOnce ];
                PVC_Selector := PVC_Selector spec;
                Resources := Resources spec;
                VolumeName := VolumeName spec;
                StorageClassName := StorageClassName spec;
                VolumeMode := Some volumeMode;
                DataSource := DataSource spec |} |} in
      created <- Create KPersistentVolumeClaim pvc ;;
      match created with
      | Err err =>
          if IsAlreadyExists err then ret None
          else ret (Some (wrapError "failed to create PVC %q: %w"
                            [ Name (PVC_ObjectMeta pvc) ] err))
      | Ok _ => ret None
      end
  end.

Definition reconcileService (objectStore : ObjectStore)
    : M W (string * option error) :=
  let service := generateService objectStore in
  match SetControllerReference objectStore KService service
          (Reconciler_Scheme r) with
  | (service, Some err) =>
      ret ("", Some (wrapError "failed to set owner reference to service %q: %w"
                       [ Name (Service_ObjectMeta service) ] err))
  | (service, None) =>
      done <- CreateOrUpdate KService service
                (reconcileService_mutateFunc objectStore) ;;
      match done with
      | (opResult, Some err, _) =>
          ret ("", Some (wrapError
                 "failed to create or update object store %q service %q: %w"
                 [ Name (ObjectStore_ObjectMeta objectStore); opResult ] err))
      | (_, None, service) => ret (ClusterIP (Service_Spec service), None)
      end
  end.

Definition createOrUpdateDeployment (objectStore : ObjectStore)
    : M W (OperationResult * option error) :=
  let name := Name (ObjectStore_ObjectMeta objectStore) in
  let namespace := Namespace (ObjectStore_ObjectMeta objectStore) in
  let deploy :=
    {| Deployment_TypeMeta := zeroTypeMeta;
       Deployment_ObjectMeta :=
         {| Name := instanceName name namespace;
            Namespace := namespace;
            UID := "";
            Labels := getLabels name namespace true;
            OwnerReferences := [];
            Finalizers := [];
            DeletionTimestamp := None |};
       Deployment_Spec := zeroDeploymentSpec |} in
  match SetControllerReference objectStore KDeployment deploy
          (Reconciler_Scheme r) with
  | (deploy, Some err) =>
      ret ("", Some (wrapError "failed to set owner reference to deployment %q: %w"
                       [ Name (Deployment_ObjectMeta deploy) ] err))
  | (deploy, None) =>
      done <- CreateOrUpdate KDeployment deploy
                (createOrUpdateDeployment_mutateFunc objectStore) ;;
      let '(opResult, err, _) := done in
      ret (opResult, err)
  end.

(** [Reconcile] returns the pair Go returns and, with it, the value of
    its local [objectStore] when it returns: the finalizer helpers change
    that object, and nothing else of the invocation keeps it. *)
Definition Reconcile (req : Request) : M W (Result * option error * ObjectStore) :=
  let objectStore := zeroObjectStore in
  got <- Get KObjectStore (Request_NamespacedName req) ;;
  match got with
  | Err err =>
      if IsNotFound err then ret (zeroResult, None, objectStore)
      else ret (zeroResult,
                Some (wrapError "failed to get ObjectStore: %w" [] err),
                objectStore)
  | Ok objectStore =>
      let finalizerName :=
        buildFinalizerName mapUnicodeLower
          (Kind (ObjectStore_TypeMeta objectStore)) in
      if negb (IsZero (DeletionTimestamp (ObjectStore_ObjectMeta objectStore)))
      then
        let objectStore := RemoveFinalizer objectStore finalizerName in
        ret (zeroResult, None, objectStore)
      else
        let objectStore :=
          if negb (ContainsFinalizer objectStore finalizerName)
          then AddFinalizer objectStore finalizerName
          else objectStore in
        err <- createPVC objectStore ;;
        match err with
        | Some err =>
            ret (zeroResult, Some (wrapError "failed to create PVC: %w" [] err),
                 objectStore)
        | None =>
            svc <- reconcileService objectStore ;;
            match snd svc with
            | Some err =>
                ret (zeroResult,
                     Some (wrapError "failed to reconcile Service: %w" [] err),
                     objectStore)
            | None =>
                dep <- createOrUpdateDeployment objectStore ;;
                match snd dep with
                | Some err =>
                    ret (zeroResult,
                         Some (wrapError
                           "failed to create or update deployment: %w" [] err),
                         objectStore)
                | None => ret (zeroResult, None, objectStore)
                end
            end
        end
  end.

End Reconciler.

(** ** An in-memory store

    A client over four lists of objects, in the manner of controller-runtime's
    fake client: [Get] of an absent key is a not-found status error, [Create]
    of a present key an already-exists one. It runs the engine on concrete
    objects. *)

Record Store := mkStore
  { objectStores : list ObjectStore;
    claims : list PersistentVolumeClaim;
    services : list Service;
    deployments : list Deployment }.

Definition emptyStore : Store := mkStore [] [] [] [].

Definition bucket (k : ResourceKind) (w : Store) : list (objType k) :=
  match k with
  | KObjectStore => objectStores w
  | KPersistentVolumeClaim => claims w
  | KService => services w
  | KDeployment => deployments w
  end.

Definition setBucket (k : ResourceKind) : list (objType k) -> Store -> Store :=
  match k with
  | KObjectStore => fun l w => mkStore l (claims w) (services w) (deployments w)
  | KPersistentVolumeClaim => fun l w =>
      mkStore (objectStores w) l (services w) (deployments w)
  | KService => fun l w => mkStore (objectStores w) (claims w) l (deployments w)
  | KDeployment => fun l w => mkStore (objectStores w) (claims w) (services w) l
  end.

Definition hasKey (k : ResourceKind) (key : NamespacedName) (o : objType k) : bool :=
  bool_decide (ObjectKeyFromObject k o = key).

Definition fakeGet (k : ResourceKind) (key : NamespacedName) (w : Store)
    : result (objType k) :=
  match List.find (hasKey k key) (bucket k w) with
  | Some o => Ok o
  | None => Err (StatusError StatusReasonNotFound "not found")
  end.

Definition fakeCreate (k : ResourceKind) (obj : objType k) (w : Store)
    : result (objType k) * Store :=
  match List.find (hasKey k (ObjectKeyFromObject k obj)) (bucket k w) with
  | Some _ => (Err (StatusError StatusReasonAlreadyExists "already exists"), w)
  | None => (Ok obj, setBucket k (bucket k w ++ [obj]) w)
  end.

Definition fakeUpdate (k : ResourceKind) (obj : objType k) (w : Store)
    : result (objType k) * Store :=
  let key := ObjectKeyFromObject k obj in
  match List.find (hasKey k key) (bucket k w) with
  | Some _ =>
      (Ok obj,
       setBucket k (map (fun o => if hasKey k key o then obj else o) (bucket k w)) w)
  | None => (Err (StatusError StatusReasonNotFound "not found"), w)
  end.

Definition fakeDelete (k : ResourceKind) (obj : objType k) (w : Store)
    : option error * Store :=
  let key := ObjectKeyFromObject k obj in
  match List.find (hasKey k key) (bucket k w) with
  | Some _ =>
      (None, setBucket k (List.filter (fun o => negb (hasKey k key o)) (bucket k w)) w)
  | None => (Some (StatusError StatusReasonNotFound "not found"), w)
  end.

Definition fakeClient : Client Store :=
  mkClient Store fakeGet fakeCreate fakeUpdate fakeDelete.

(** A client whose every call fails with the same error. *)
Definition failingClient (err : error) : Client unit :=
  mkClient unit
    (fun k _ _ => Err err)
    (fun k _ w => (Err err, w))
    (fun k _ w => (Err err, w))
    (fun k _ w => (Some err, w)).

(** Concrete objects: a store named [store] in namespace [default] whose
    claim template asks for a shared block volume, with no gateway port. *)
Definition sampleTemplate : PersistentVolumeClaim :=
  {| PVC_TypeMeta := zeroTypeMeta;
     PVC_ObjectMeta := zeroObjectMeta;
     PVC_Spec :=
       {| AccessModes := [ ReadWriteMany; ReadOnlyMany ];
          PVC_Selector := None;
          Resources := mkResourceRequirements ∅ {[ "storage" := "10Gi" ]};
          VolumeName := "";
          StorageClassName := Some "fast";
          VolumeMode := Some PersistentVolumeBlock;
          DataSource := None |} |}.

Definition sampleObjectStore : ObjectStore :=
  {| ObjectStore_TypeMeta := mkTypeMeta "ObjectStore" "object.rook-s3-nano/v1alpha1";
     ObjectStore_ObjectMeta :=
       mkObjectMeta "store" "default" "uid-1" ∅ [] [] None;
     Spec := mkObjectStoreSpec "quay.io/ceph/ceph:v17" (mkGatewaySpec 0)
               (Some sampleTemplate);
     Status := mkObjectStoreStatus "" |}.

Definition sampleRequest : Request :=
  mkRequest (mkNamespacedName "default" "store").

Definition sampleReconciler : ObjectStoreReconciler :=
  mkObjectStoreReconciler
    (mkScheme [ mkGroupVersionKind "object.rook-s3-nano" "v1alpha1" "ObjectStore" ]).

(** The same object once its deletion has been requested, still holding the
    finalizer token next to a foreign one. *)
Definition deletingObjectStore : ObjectStore :=
  setMeta KObjectStore
    (mkObjectMeta "store" "default" "uid-1" ∅ []
       [ "keep.example.com"; "objectstore.object.rook-s3-nano/v1alpha1" ]
       (Some 1700000000))
    sampleObjectStore.

Definition initialState {W : Type} (w : W) : State W := mkState w [].

(** The calls of a trace that change the store. *)
Definition mutations (cs : list Call) : list Call := List.filter isMutation cs.

(** The name of the flag: the key normalized, underscores turned to hyphens. *)
Definition flagName (key : string) : string :=
  GoStrings.Replace (normalizeKey key) "_" "-".

(** The one port entry of the converged service. *)
Definition httpPort : ServicePort :=
  {| ServicePort_Name := "http";
     Protocol := ProtocolTCP;
     Port := 8080;
     TargetPort := FromInt 7480;
     NodePort := 0 |}.

(** The port list of the service a call sends to the store. *)
Definition sentServicePorts (c : Call) : option (list ServicePort) :=
  match c with
  | CallCreate (ObjService svc) | CallUpdate (ObjService svc) =>
      Some (Ports (Service_Spec svc))
  | _ => None
  end.

(** One invocation for the sample request on the in-memory store. *)
Definition activeRun (w : Store) : Outcome Store (Result * option error * ObjectStore) :=
  Reconcile (client := fakeClient) (fun s => s) sampleReconciler sampleRequest
    (initialState w).

(** ** Vocabulary of the further properties *)

(** A separator byte of a key becomes a hyphen, any other byte stays. *)
Definition hyphenate (c : ascii) : ascii :=
  if Ascii.eqb c " " || Ascii.eqb c "-" || Ascii.eqb c "_" then "-"%char else c.

Definition isSeparator (c : ascii) : Prop :=
  c = " "%char \/ c = "-"%char \/ c = "_"%char.

(** The bytes [encoding/hex] writes. *)
Definition hexDigits : list ascii := list_ascii_of_string Hex.hextable.

#[global] Instance ResourceKind_eq_dec : EqDecision ResourceKind.
Proof. solve_decision. Defined.

Definition objectKind (o : Object) : ResourceKind :=
  match o with
  | ObjObjectStore _ => KObjectStore
  | ObjPersistentVolumeClaim _ => KPersistentVolumeClaim
  | ObjService _ => KService
  | ObjDeployment _ => KDeployment
  end.

(** The kind of object a call reads or writes. *)
Definition callKind (c : Call) : ResourceKind :=
  match c with
  | CallGet k _ => k
  | CallCreate o | CallUpdate o | CallDelete o => objectKind o
  end.

(** The state in which an invocation ends, returning or panicking. *)
Definition finalState {W A : Type} (o : Outcome W A) : State W :=
  match o with
  | Returns _ s => s
  | Panics _ s => s
  end.

(** The in-memory store behind a client that serves reads and refuses every
    write with the same error. *)
Definition readOnlyClient (err : error) : Client Store :=
  mkClient Store fakeGet
    (fun k _ w => (Err err, w))
    (fun k _ w => (Err err, w))
    (fun k _ w => (Some err, w)).

(** The owner reference [SetControllerReference] builds for an ObjectStore
    registered under [gvk]. *)
Definition controllerRef (gvk : GroupVersionKind) (owner : ObjectStore)
    : OwnerReference :=
  {| Owner_APIVersion :=
       GroupVersion_String (mkGroupVersion (GVK_Group gvk) (GVK_Version gvk));
     Owner_Kind := GVK_Kind gvk;
     Owner_Name := Name (ObjectStore_ObjectMeta owner);
     Owner_UID := UID (ObjectStore_ObjectMeta owner);
     Owner_Controller := Some true;
     Owner_BlockOwnerDeletion := Some true |}.

(** The key under which the three dependent objects of an ObjectStore live. *)
Definition dependentKey (objectStore : ObjectStore) : NamespacedName :=
  mkNamespacedName (Namespace (ObjectStore_ObjectMeta objectStore))
    (instanceName (Name (ObjectStore_ObjectMeta objectStore))
                  (Namespace (ObjectStore_ObjectMeta objectStore))).

(** A write of an object of kind [k]: a create or an update. *)
Definition writeOf (k : ResourceKind) (c : Call) : Prop :=
  exists o : objType k, c = CallCreate (toObject k o) \/ c = CallUpdate (toObject k o).

(** The calls of one create-or-update of kind [k]: a read, then at most one
    write. *)
Definition convergeCalls (k : ResourceKind) (added : list Call) : Prop :=
  exists key : NamespacedName,
    added = [ CallGet k key ]
    \/ exists c : Call, added = [ CallGet k key; c ] /\ writeOf k c.

(** The ObjectStore as Reconcile holds it once the finalizer is ensured. *)
Definition withFinalizer (objectStore : ObjectStore) (finalizerName : string)
    : ObjectStore :=
  if negb (ContainsFinalizer objectStore finalizerName)
  then AddFinalizer objectStore finalizerName
  else objectStore.

(** An ObjectStore that carries no claim template. *)
Definition untemplatedObjectStore : ObjectStore :=
  mkObjectStore (ObjectStore_TypeMeta sampleObjectStore)
    (ObjectStore_ObjectMeta sampleObjectStore)
    (mkObjectStoreSpec "quay.io/ceph/ceph:v17" (mkGatewaySpec 8080) None)
    (mkObjectStoreStatus "").

(** A store has converged for an ObjectStore when it holds, under the shared
    key, a claim, a service that the service's mutate function leaves as it
    is, and a deployment that the deployment's mutate function leaves as it
    is. *)
Definition converged (objectStore : ObjectStore) (w : Store) : Prop :=
  (exists pvc : PersistentVolumeClaim,
     fakeGet KPersistentVolumeClaim (dependentKey objectStore) w = Ok pvc)
  /\ (exists svc : Service,
        fakeGet KService (dependentKey objectStore) w = Ok svc
        /\ fst (reconcileService_mutateFunc objectStore svc) = svc)
  /\ (exists dep : Deployment,
        fakeGet KDeployment (dependentKey objectStore) w = Ok dep
        /\ fst (createOrUpdateDeployment_mutateFunc objectStore dep) = dep).

(** The store in which the sample invocation ends. *)
Definition convergedStore : Store :=
  world (finalState (activeRun (mkStore [ sampleObjectStore ] [] [] []))).

(** ** controllers/objectstore_bucket_controller.go: the event filter

    [predicate.Funcs] holds one optional function per event type; an event
    whose function is nil passes. *)
Inductive Event : Type :=
| CreateEvent (object : Object)
| UpdateEvent (objectOld objectNew : Object)
| DeleteEvent (object : Object)
| GenericEvent (object : Object).

Record Funcs := mkFuncs
  { CreateFunc : option (Object -> bool);
    DeleteFunc : option (Object -> bool);
    UpdateFunc : option (Object -> Object -> bool);
    GenericFunc : option (Object -> bool) }.

(** The methods [Create], [Update], [Delete] and [Generic] of [Funcs], by the
    type of the event. *)
Definition admits (p : Funcs) (e : Event) : bool :=
  match e with
  | CreateEvent o => match CreateFunc p with Some f => f o | None => true end
  | UpdateEvent o n => match UpdateFunc p with Some f => f o n | None => true end
  | DeleteEvent o => match DeleteFunc p with Some f => f o | None => true end
  | GenericEvent o => match GenericFunc p with Some f => f o | None => true end
  end.

Definition predicateController : Funcs :=
  {| CreateFunc := Some (fun _ => true);
     DeleteFunc := None;
     UpdateFunc := None;
     GenericFunc := None |}.

(** The spec of the service, and of the deployment, that a call writes. *)
Definition writtenServiceSpec (c : Call) : option ServiceSpec :=
  match c with
  | CallCreate (ObjService svc) | CallUpdate (ObjService svc) => Some (Service_Spec svc)
  | _ => None
  end.

Definition writtenDeploymentSpec (c : Call) : option DeploymentSpec :=
  match c with
  | CallCreate (ObjDeployment dep) | CallUpdate (ObjDeployment dep) =>
      Some (Deployment_Spec dep)
  | _ => None
  end.

(** ** Properties *)

Example sha256_abc :
  Hex.EncodeToString (Sha256.Sum256 (GoStrings.bytes "abc"))
  = "ba7816bf8f01cfea414140de5dae2223b00361a396177a9cb410ff61f20015ad".
Proof. vm_compute. reflexivity. Qed.

Example sha256_constants :
  length Sha256._K = 64%nat
  /\ nth_error Sha256._K 0 = Some 0x428a2f98
  /\ nth_error Sha256._K 63 = Some 0xc67178f2
  /\ Sha256.h0 Sha256.init = 0x6a09e667
  /\ Sha256.h7 Sha256.init = 0x5be0cd19.
Proof. vm_compute. repeat split. Qed.

(** *** createPVC *)

(** C1: whatever the template of the ObjectStore asks for, the claim that
    createPVC hands to the store's Create has access modes [ReadWriteOnce]
    and volume mode Filesystem, and every other field of its spec is the
    template's. *)
Theorem createPVC_forces_modes {W : Type} `{client : Client W}
    (objectStore : ObjectStore) (template : PersistentVolumeClaim) (s : State W) :
  VolumeClaimTemplate (Spec objectStore) = Some template ->
  exists (pvc : PersistentVolumeClaim) (err : option error) (s' : State W),
    createPVC objectStore s = Returns err s'
    /\ calls s' = calls s ++ [ CallCreate (ObjPersistentVolumeClaim pvc) ]
    /\ AccessModes (PVC_Spec pvc) = [ ReadWriteOnce ]
    /\ VolumeMode (PVC_Spec pvc) = Some PersistentVolumeFilesystem
    /\ PVC_Selector (PVC_Spec pvc) = PVC_Selector (PVC_Spec template)
    /\ Resources (PVC_Spec pvc) = Resources (PVC_Spec template)
    /\ VolumeName (PVC_Spec pvc) = VolumeName (PVC_Spec template)
    /\ StorageClassName (PVC_Spec pvc) = StorageClassName (PVC_Spec template)
    /\ DataSource (PVC_Spec pvc) = DataSource (PVC_Spec template).
Proof.
  intros Htemplate.
  unfold createPVC. rewrite Htemplate.
  unfold bind, Create.
  destruct (clientCreate KPersistentVolumeClaim _ (world s)) as [created w'] eqn:Hcreate.
  eexists _.
  destruct created as [stored | err].
  - eexists None, _. split; [reflexivity |]. simpl. repeat split.
  - destruct (IsAlreadyExists err).
    + eexists None, _. split; [reflexivity |]. simpl. repeat split.
    + eexists (Some _), _. split; [reflexivity |]. simpl. repeat split.
Qed.

Lemma createPVC_forces_modes_witness :
  exists (pvc : PersistentVolumeClaim) (err : option error) (s' : State Store),
    createPVC (client := fakeClient) sampleObjectStore (initialState emptyStore)
      = Returns err s'
    /\ calls s' = calls (initialState emptyStore)
                  ++ [ CallCreate (ObjPersistentVolumeClaim pvc) ]
    /\ AccessModes (PVC_Spec pvc) = [ ReadWriteOnce ]
    /\ VolumeMode (PVC_Spec pvc) = Some PersistentVolumeFilesystem
    /\ PVC_Selector (PVC_Spec pvc) = PVC_Selector (PVC_Spec sampleTemplate)
    /\ Resources (PVC_Spec pvc) = Resources (PVC_Spec sampleTemplate)
    /\ VolumeName (PVC_Spec pvc) = VolumeName (PVC_Spec sampleTemplate)
    /\ StorageClassName (PVC_Spec pvc) = StorageClassName (PVC_Spec sampleTemplate)
    /\ DataSource (PVC_Spec pvc) = DataSource (PVC_Spec sampleTemplate).
Proof.
  apply (createPVC_forces_modes (client := fakeClient) sampleObjectStore
           sampleTemplate (initialState emptyStore)).
  reflexivity.
Defined.

Example createPVC_sample_store :
  match createPVC (client := fakeClient) sampleObjectStore (initialState emptyStore) with
  | Returns err s' =>
      err = None
      /\ map (fun c => (Name (PVC_ObjectMeta c), AccessModes (PVC_Spec c),
                         VolumeMode (PVC_Spec c), StorageClassName (PVC_Spec c),
                         Requests (Resources (PVC_Spec c)) !! "storage"))
             (claims (world s'))
         = [ ("rgw-store-default", [ "ReadWriteOnce" ], Some "Filesystem",
              Some "fast", Some "10Gi") ]
  | Panics _ _ => False
  end.
Proof. vm_compute. split; reflexivity. Qed.

Example createPVC_nil_template_panics :
  createPVC (client := fakeClient) zeroObjectStore (initialState emptyStore)
  = Panics "invalid memory address or nil pointer dereference"
           (initialState emptyStore).
Proof. reflexivity. Qed.

(** *** hash and the id flag *)

Lemma bigEndian_length (n : nat) (x : Z) : length (Sha256.bigEndian n x) = n.
Proof. induction n as [| n IH]; simpl; [reflexivity | now rewrite IH]. Qed.

Lemma Sum256_length (data : list Z) : length (Sha256.Sum256 data) = 32%nat.
Proof.
  unfold Sha256.Sum256. cbv zeta.
  repeat rewrite length_app. repeat rewrite bigEndian_length. reflexivity.
Qed.

Lemma EncodeToString_length (src : list Z) :
  String.length (Hex.EncodeToString src) = (2 * length src)%nat.
Proof.
  induction src as [| v r IH]; simpl; [reflexivity |].
  rewrite IH. lia.
Qed.

Lemma hash_length (s : string) : String.length (hash s) = 32%nat.
Proof.
  unfold hash. cbv zeta. rewrite EncodeToString_length.
  rewrite length_firstn, Sum256_length. reflexivity.
Qed.

(** C2: [hash] of the unexpanded reference [$(POD_NAME)] is the hex text of
    the first 16 bytes of the SHA-256 digest of these eleven bytes, 32
    characters, the first 32 of the digest's hex text; and the id flag of the
    daemon container is built from this constant for every ObjectStore, so it
    never depends on a pod name. *)
Theorem hash_of_pod_name_reference :
  ContainerEnvVarReference podNameEnvVar = "$(POD_NAME)"
  /\ hash "$(POD_NAME)"
     = Hex.EncodeToString (firstn 16 (Sha256.Sum256 (GoStrings.bytes "$(POD_NAME)")))
  /\ String.length (hash "$(POD_NAME)") = 32%nat
  /\ Hex.EncodeToString (Sha256.Sum256 (GoStrings.bytes "$(POD_NAME)"))
     = "3b5dd2b313abb4941d0de8ecdd7b2fb2c73002d47145669a6c4cf8a047adc82f"
  /\ hash "$(POD_NAME)" = "3b5dd2b313abb4941d0de8ecdd7b2fb2"
  /\ (forall objectStore : ObjectStore,
        nth_error (Args (makeDaemonContainer objectStore)) 3
        = Some ("--id=" +:+ hash (ContainerEnvVarReference podNameEnvVar)))
  /\ (forall a b : ObjectStore,
        nth_error (Args (makeDaemonContainer a)) 3
        = nth_error (Args (makeDaemonContainer b)) 3).
Proof.
  split; [reflexivity |].
  split; [reflexivity |].
  split; [apply hash_length |].
  split; [vm_compute; reflexivity |].
  split; [vm_compute; reflexivity |].
  split; intros; reflexivity.
Qed.

(** *** Reconcile: the fetch *)

(** C3: when the fetch of the requested ObjectStore fails, Reconcile returns
    the zero result (no requeue); the error is nil if the failure is
    not-found, and otherwise the failure wrapped; the store is left as it was
    and the only call made is the Get, so no call that changes the store. *)
Theorem Reconcile_fetch_failure {W : Type} `{client : Client W}
    (mapUnicodeLower : string -> string) (r : ObjectStoreReconciler)
    (req : Request) (s : State W) (err : error) :
  clientGet KObjectStore (Request_NamespacedName req) (world s) = Err err ->
  exists s' : State W,
    Reconcile mapUnicodeLower r req s
    = Returns (mkResult false 0,
               (if IsNotFound err then None
                else Some (wrapError "failed to get ObjectStore: %w" [] err)),
               zeroObjectStore) s'
    /\ world s' = world s
    /\ calls s' = calls s ++ [ CallGet KObjectStore (Request_NamespacedName req) ]
    /\ mutations (calls s') = mutations (calls s).
Proof.
  intros Hget.
  unfold Reconcile, bind, Get. rewrite Hget.
  eexists. split.
  - destruct (IsNotFound err); reflexivity.
  - simpl. repeat split.
    unfold mutations. rewrite List.filter_app. simpl. apply app_nil_r.
Qed.

Lemma Reconcile_fetch_failure_witness :
  (exists s' : State Store,
     Reconcile (client := fakeClient) (fun s => s) sampleReconciler sampleRequest
       (initialState emptyStore)
     = Returns (mkResult false 0, None, zeroObjectStore) s'
     /\ world s' = emptyStore
     /\ calls s' = [ CallGet KObjectStore (mkNamespacedName "default" "store") ]
     /\ mutations (calls s') = [])
  /\ (exists s' : State unit,
        Reconcile (client := failingClient (errorString "connection refused"))
          (fun s => s) sampleReconciler sampleRequest (initialState tt)
        = Returns (mkResult false 0,
                   Some (wrapError "failed to get ObjectStore: %w" []
                           (errorString "connection refused")),
                   zeroObjectStore) s'
        /\ world s' = tt
        /\ calls s' = [ CallGet KObjectStore (mkNamespacedName "default" "store") ]
        /\ mutations (calls s') = []).
Proof.
  split.
  - apply (Reconcile_fetch_failure (client := fakeClient) (fun s => s)
             sampleReconciler sampleRequest (initialState emptyStore)
             (StatusError StatusReasonNotFound "not found")).
    reflexivity.
  - apply (Reconcile_fetch_failure
             (client := failingClient (errorString "connection refused"))
             (fun s => s) sampleReconciler sampleRequest (initialState tt)
             (errorString "connection refused")).
    reflexivity.
Defined.

(** *** Reconcile: the deletion branch *)

Lemma RemoveFinalizer_absent (o : ObjectStore) (finalizer : string) :
  ~ In finalizer (Finalizers (ObjectStore_ObjectMeta (RemoveFinalizer o finalizer))).
Proof.
  unfold RemoveFinalizer. simpl. intros Hin.
  apply List.filter_In in Hin. destruct Hin as [_ Hkeep].
  rewrite bool_decide_eq_true_2 in Hkeep by reflexivity. discriminate.
Qed.

Lemma RemoveFinalizer_others (o : ObjectStore) (finalizer f : string) :
  f <> finalizer ->
  In f (Finalizers (ObjectStore_ObjectMeta (RemoveFinalizer o finalizer)))
  <-> In f (Finalizers (ObjectStore_ObjectMeta o)).
Proof.
  intros Hne. unfold RemoveFinalizer. simpl.
  rewrite List.filter_In. rewrite bool_decide_eq_false_2 by assumption.
  simpl. tauto.
Qed.

(** C4: when the fetched ObjectStore has its deletion timestamp set,
    Reconcile takes the finalizer token off the object it holds, leaving the
    other finalizers, and returns the zero result with a nil error; the only
    call on the client is the Get: no delete, no create, no update, and the
    store is as it was. *)
Theorem Reconcile_deletion_branch {W : Type} `{client : Client W}
    (mapUnicodeLower : string -> string) (r : ObjectStoreReconciler)
    (req : Request) (s : State W) (objectStore : ObjectStore) :
  clientGet KObjectStore (Request_NamespacedName req) (world s) = Ok objectStore ->
  IsZero (DeletionTimestamp (ObjectStore_ObjectMeta objectStore)) = false ->
  let token :=
    buildFinalizerName mapUnicodeLower (Kind (ObjectStore_TypeMeta objectStore)) in
  exists (final : ObjectStore) (s' : State W),
    Reconcile mapUnicodeLower r req s = Returns (mkResult false 0, None, final) s'
    /\ final = RemoveFinalizer objectStore token
    /\ ~ In token (Finalizers (ObjectStore_ObjectMeta final))
    /\ (forall f : string, f <> token ->
          In f (Finalizers (ObjectStore_ObjectMeta final))
          <-> In f (Finalizers (ObjectStore_ObjectMeta objectStore)))
    /\ world s' = world s
    /\ calls s' = calls s ++ [ CallGet KObjectStore (Request_NamespacedName req) ]
    /\ mutations (calls s') = mutations (calls s)
    /\ List.filter isDelete (calls s') = List.filter isDelete (calls s).
Proof.
  intros Hget Hdeleting token.
  unfold Reconcile, bind, Get. rewrite Hget. rewrite Hdeleting. simpl.
  eexists _, _. split; [reflexivity |].
  split; [reflexivity |].
  split; [apply RemoveFinalizer_absent |].
  split; [intros f Hne; apply RemoveFinalizer_others; exact Hne |].
  simpl. repeat split.
  - unfold mutations. rewrite List.filter_app. simpl. apply app_nil_r.
  - rewrite List.filter_app. simpl. apply app_nil_r.
Qed.

Lemma Reconcile_deletion_branch_witness :
  exists (final : ObjectStore) (s' : State Store),
    Reconcile (client := fakeClient) (fun s => s) sampleReconciler sampleRequest
      (initialState (mkStore [ deletingObjectStore ] [] [] []))
    = Returns (mkResult false 0, None, final) s'
    /\ final = RemoveFinalizer deletingObjectStore
                 "objectstore.object.rook-s3-nano/v1alpha1"
    /\ ~ In "objectstore.object.rook-s3-nano/v1alpha1"
            (Finalizers (ObjectStore_ObjectMeta final))
    /\ (forall f : string, f <> "objectstore.object.rook-s3-nano/v1alpha1" ->
          In f (Finalizers (ObjectStore_ObjectMeta final))
          <-> In f (Finalizers (ObjectStore_ObjectMeta deletingObjectStore)))
    /\ world s' = mkStore [ deletingObjectStore ] [] [] []
    /\ calls s' = [ CallGet KObjectStore (mkNamespacedName "default" "store") ]
    /\ mutations (calls s') = []
    /\ List.filter isDelete (calls s') = [].
Proof.
  apply (Reconcile_deletion_branch (client := fakeClient) (fun s => s)
           sampleReconciler sampleRequest
           (initialState (mkStore [ deletingObjectStore ] [] [] []))
           deletingObjectStore).
  - vm_compute. reflexivity.
  - reflexivity.
Defined.

Example Reconcile_deletion_sample :
  match Reconcile (client := fakeClient) (fun s => s) sampleReconciler sampleRequest
          (initialState (mkStore [ deletingObjectStore ] [] [] [])) with
  | Returns (res, err, final) s' =>
      res = zeroResult /\ err = None
      /\ Finalizers (ObjectStore_ObjectMeta final) = [ "keep.example.com" ]
      /\ world s' = mkStore [ deletingObjectStore ] [] [] []
  | Panics _ _ => False
  end.
Proof. vm_compute. repeat split. Qed.

(** *** buildFinalizerName *)

(** C5, as the claim states it, fails: the finalizer of kind [ObjectStore]
    ends in the group and the version, not in the group alone. *)
Lemma buildFinalizerName_not_group_only :
  buildFinalizerName (fun s => s) "ObjectStore"
  = "objectstore.object.rook-s3-nano/v1alpha1"
  /\ buildFinalizerName (fun s => s) "ObjectStore"
     <> GoStrings.ToLower (fun s => s) "ObjectStore" +:+ "." +:+ Group GroupVersion.
Proof. split; [vm_compute; reflexivity | vm_compute; discriminate]. Qed.

(** C5, amended: for every kind, buildFinalizerName is the lowercased kind, a
    dot, and the text of the group-version, that is the API group, a slash
    and the API version. *)
Theorem buildFinalizerName_form (mapUnicodeLower : string -> string) (kind : string) :
  buildFinalizerName mapUnicodeLower kind
  = GoStrings.ToLower mapUnicodeLower kind
    +:+ "." +:+ Group GroupVersion +:+ "/" +:+ Version GroupVersion
  /\ buildFinalizerName mapUnicodeLower "ObjectStore"
     = "objectstore.object.rook-s3-nano/v1alpha1"
  /\ String.length (buildFinalizerName mapUnicodeLower kind)
     = (String.length (GoStrings.ToLower mapUnicodeLower kind) + 29)%nat.
Proof.
  split; [reflexivity |].
  split; [reflexivity |].
  unfold buildFinalizerName.
  generalize (GoStrings.ToLower mapUnicodeLower kind) as lowered.
  induction lowered as [| c lowered IH]; [reflexivity |].
  simpl. simpl in IH. now rewrite IH.
Qed.

(** *** NewFlag *)

Lemma Replace_append (a b : string) (old new : ascii) :
  GoStrings.Replace (a +:+ b) old new
  = GoStrings.Replace a old new +:+ GoStrings.Replace b old new.
Proof.
  induction a as [| c a IH]; simpl; [reflexivity |].
  now rewrite IH.
Qed.

Lemma flagName_append (a b : string) :
  flagName (a +:+ b) = flagName a +:+ flagName b.
Proof.
  unfold flagName, normalizeKey. now rewrite !Replace_append.
Qed.

Lemma flagName_Join (elems : list string) (sep sep' : string) :
  flagName sep = flagName sep' ->
  flagName (GoStrings.Join elems sep) = flagName (GoStrings.Join elems sep').
Proof.
  intros Hsep.
  induction elems as [| e rest IH]; [reflexivity |].
  destruct rest as [| e' rest]; [reflexivity |].
  change (GoStrings.Join (e :: e' :: rest) sep)
    with (e +:+ sep +:+ GoStrings.Join (e' :: rest) sep).
  change (GoStrings.Join (e :: e' :: rest) sep')
    with (e +:+ sep' +:+ GoStrings.Join (e' :: rest) sep').
  rewrite !flagName_append. now rewrite IH, Hsep.
Qed.

Lemma NewFlag_flagName (key value : string) :
  NewFlag key value = "--" +:+ flagName key +:+ "=" +:+ value.
Proof. reflexivity. Qed.

(** C6: for every sequence of words and every value, the key spelled with
    spaces, with hyphens and with underscores between the words gives one and
    the same flag; and the three flags of the spec come out as it says. *)
Theorem NewFlag_three_spellings (elems : list string) (value : string) :
  NewFlag (GoStrings.Join elems " ") value = NewFlag (GoStrings.Join elems "-") value
  /\ NewFlag (GoStrings.Join elems "-") value = NewFlag (GoStrings.Join elems "_") value
  /\ NewFlag "debug rgw" "15" = "--debug-rgw=15"
  /\ NewFlag "some-config-key" "x" = "--some-config-key=x"
  /\ NewFlag "some_config_key" "x" = "--some-config-key=x"
  /\ NewFlag "some config key" "x" = "--some-config-key=x".
Proof.
  rewrite !NewFlag_flagName.
  rewrite (flagName_Join elems " " "-") by reflexivity.
  rewrite (flagName_Join elems "-" "_") by reflexivity.
  repeat split.
Qed.

(** *** makeDaemonContainer *)

(** C7, on the code: the command is the daemon binary and the arguments are
    seven, the derived four as the claim lists them, but the third fixed one
    carries a trailing space, so the list differs from the claimed one. *)
Theorem makeDaemonContainer_arguments (objectStore : ObjectStore) :
  Command (makeDaemonContainer objectStore) = [ "radosgw-sqlite" ]
  /\ Args (makeDaemonContainer objectStore)
     = [ "-d"; "--no-mon-config"; "--nolockdep ";
         "--id=3b5dd2b313abb4941d0de8ecdd7b2fb2";
         "--host=$(POD_NAME)";
         "--librados-sqlite-data-dir=/var/lib/ceph/radosgw/data";
         "--debug-rgw=15" ]
  /\ Args (makeDaemonContainer objectStore)
     <> [ "-d"; "--no-mon-config"; "--nolockdep";
          "--id=" +:+ hash "$(POD_NAME)";
          "--host=$(POD_NAME)";
          "--librados-sqlite-data-dir=" +:+ objectStoreDataDirectory;
          "--debug-rgw=15" ].
Proof.
  split; [reflexivity |].
  split; [vm_compute; reflexivity |].
  vm_compute. discriminate.
Qed.

(** *** makeRGWPodSpec *)

Lemma makeDaemonContainer_not_zero (objectStore : ObjectStore) :
  makeDaemonContainer objectStore <> zeroContainer.
Proof.
  intros Heq. apply (f_equal Container_Name) in Heq. discriminate Heq.
Qed.

Lemma makeRGWPodSpec_Ok (objectStore : ObjectStore) :
  exists pod : PodTemplateSpec,
    makeRGWPodSpec objectStore = Ok pod
    /\ Containers (Template_Spec pod) = [ makeDaemonContainer objectStore ].
Proof.
  unfold makeRGWPodSpec. cbv zeta.
  rewrite bool_decide_eq_false_2 by apply makeDaemonContainer_not_zero.
  eexists. split; reflexivity.
Qed.

(** C10: for every ObjectStore, the one with an empty image among them, the
    daemon container is named [rgw] and differs from the zero container, so
    makeRGWPodSpec never returns its error and always returns a pod template,
    whose only container is that daemon container. *)
Theorem makeRGWPodSpec_always_succeeds (objectStore : ObjectStore) :
  Container_Name (makeDaemonContainer objectStore) = "rgw"
  /\ makeDaemonContainer objectStore <> zeroContainer
  /\ (forall err : error, makeRGWPodSpec objectStore <> Err err)
  /\ (exists pod : PodTemplateSpec,
        makeRGWPodSpec objectStore = Ok pod
        /\ Containers (Template_Spec pod) = [ makeDaemonContainer objectStore ])
  /\ ObjectStore_Image (Spec zeroObjectStore) = ""
  /\ Container_Name (makeDaemonContainer zeroObjectStore) = "rgw"
  /\ (exists pod : PodTemplateSpec, makeRGWPodSpec zeroObjectStore = Ok pod).
Proof.
  split; [reflexivity |].
  split; [apply makeDaemonContainer_not_zero |].
  split.
  { intros err Herr. destruct (makeRGWPodSpec_Ok objectStore) as [pod [Hpod _]].
    rewrite Hpod in Herr. discriminate Herr. }
  split; [apply makeRGWPodSpec_Ok |].
  split; [reflexivity |].
  split; [reflexivity |].
  destruct (makeRGWPodSpec_Ok zeroObjectStore) as [pod [Hpod _]].
  exists pod. exact Hpod.
Qed.

(** *** The service: addPort and the mutate function *)

Lemma addPort_Ports (service : Service) (name : string) (port destPort : Z) :
  Ports (Service_Spec (addPort service name port destPort))
  = if (port =? 0) || (destPort =? 0) then Ports (Service_Spec service)
    else Ports (Service_Spec service)
         ++ [ mkServicePort name ProtocolTCP port (FromInt destPort) 0 ].
Proof.
  unfold addPort. destruct ((port =? 0) || (destPort =? 0)); reflexivity.
Qed.

Lemma mutateFunc_Ports (objectStore : ObjectStore) (service : Service) :
  Ports (Service_Spec (fst (reconcileService_mutateFunc objectStore service)))
  = [ httpPort ].
Proof. reflexivity. Qed.

Lemma mutate_service (objectStore : ObjectStore) (key : NamespacedName)
    (service : Service) :
  fst (mutate KService (reconcileService_mutateFunc objectStore) key service)
  = fst (reconcileService_mutateFunc objectStore service).
Proof.
  unfold mutate.
  destruct (reconcileService_mutateFunc objectStore service) as [svc [err |]];
    [reflexivity |].
  destruct (bool_decide _); reflexivity.
Qed.

(** Whatever the store answers, reconcileService returns, and each object it
    sends in a create or update carries exactly the http entry. *)
Lemma reconcileService_sends_http_port {W : Type} `{client : Client W}
    (r : ObjectStoreReconciler) (objectStore : ObjectStore) (s : State W) :
  exists (res : string * option error) (s' : State W) (added : list Call),
    reconcileService r objectStore s = Returns res s'
    /\ calls s' = calls s ++ added
    /\ Forall (fun c => isMutation c = true ->
                        sentServicePorts c = Some [ httpPort ]) added.
Proof.
  unfold reconcileService.
  destruct (SetControllerReference objectStore KService _ _) as [service [err |]].
  { eexists _, _, []. split; [reflexivity |]. split; [symmetry; apply app_nil_r |].
    constructor. }
  unfold CreateOrUpdate, bind, Get.
  destruct (clientGet KService _ (world s)) as [existing | err].
  - pose proof (mutate_service objectStore (ObjectKeyFromObject KService service)
                  existing) as Hfst.
    destruct (mutate KService _ _ existing) as [obj' [err |]]; simpl in Hfst.
    + eexists _, _, [ _ ]. split; [reflexivity |]. split; [reflexivity |].
      repeat constructor. discriminate.
    + destruct (bool_decide (existing = obj')).
      * eexists _, _, [ _ ]. split; [reflexivity |]. split; [reflexivity |].
        repeat constructor. discriminate.
      * unfold Update. simpl.
        destruct (clientUpdate KService obj' (world s)) as [[stored | err] w'];
          (eexists _, _, [ _; _ ]; split; [reflexivity |];
           split; [simpl; rewrite <- app_assoc; reflexivity |];
           repeat constructor; [discriminate |];
           intros _; simpl; rewrite Hfst; reflexivity).
  - destruct (IsNotFound err); simpl.
    + pose proof (mutate_service objectStore (ObjectKeyFromObject KService service)
                    service) as Hfst.
      destruct (mutate KService _ _ service) as [obj' [err' |]]; simpl in Hfst.
      * eexists _, _, [ _ ]. split; [reflexivity |]. split; [reflexivity |].
        repeat constructor. discriminate.
      * unfold Create. simpl.
        destruct (clientCreate KService obj' (world s)) as [[stored | err'] w'];
          (eexists _, _, [ _; _ ]; split; [reflexivity |];
           split; [simpl; rewrite <- app_assoc; reflexivity |];
           repeat constructor; [discriminate |];
           intros _; simpl; rewrite Hfst; reflexivity).
    + eexists _, _, [ _ ]. split; [reflexivity |]. split; [reflexivity |].
      repeat constructor. discriminate.
Qed.

(** C8, as the claim states it, fails: the sample ObjectStore has gateway
    port zero, and the service that reconcileService creates in an empty
    store has the http entry all the same. *)
Lemma service_port_with_zero_gateway_port :
  Gateway_Port (Gateway (Spec sampleObjectStore)) = 0
  /\ match reconcileService (client := fakeClient) sampleReconciler
             sampleObjectStore (initialState emptyStore) with
     | Returns _ s' =>
         map (fun svc => Ports (Service_Spec svc)) (services (world s'))
         = [ [ httpPort ] ]
         /\ ~ (forall svc : Service, In svc (services (world s')) ->
                 Ports (Service_Spec svc) = [])
     | Panics _ _ => False
     end.
Proof.
  split; [reflexivity |].
  vm_compute. split; [reflexivity |].
  intros Hnone. specialize (Hnone _ (or_introl eq_refl)). discriminate Hnone.
Qed.

(** C8, amended: addPort adds an entry only when both ports it is given are
    non-zero, and then exactly one, TCP, from the first port to the second;
    the service step always gives it 8080 and 7480 and never reads the
    gateway port, so for every ObjectStore the mutate function leaves exactly
    the one http entry, and every service that reconcileService sends to the
    store carries exactly that entry. *)
Theorem service_port_entry {W : Type} `{client : Client W}
    (r : ObjectStoreReconciler) (objectStore : ObjectStore)
    (service : Service) (name : string) (port destPort : Z) (s : State W) :
  Ports (Service_Spec (addPort service name port destPort))
  = (if (port =? 0) || (destPort =? 0) then Ports (Service_Spec service)
     else Ports (Service_Spec service)
          ++ [ mkServicePort name ProtocolTCP port (FromInt destPort) 0 ])
  /\ Ports (Service_Spec (fst (reconcileService_mutateFunc objectStore service)))
     = [ mkServicePort "http" ProtocolTCP 8080 (FromInt 7480) 0 ]
  /\ exists (res : string * option error) (s' : State W) (added : list Call),
       reconcileService r objectStore s = Returns res s'
       /\ calls s' = calls s ++ added
       /\ Forall (fun c => isMutation c = true ->
                    sentServicePorts c
                    = Some [ mkServicePort "http" ProtocolTCP 8080 (FromInt 7480) 0 ])
                 added.
Proof.
  split; [apply addPort_Ports |].
  split; [apply mutateFunc_Ports |].
  apply reconcileService_sends_http_port.
Qed.

(** *** The mutate functions *)

Lemma service_mutateFunc_again (objectStore : ObjectStore) (service : Service) :
  reconcileService_mutateFunc objectStore
    (fst (reconcileService_mutateFunc objectStore service))
  = reconcileService_mutateFunc objectStore service.
Proof. reflexivity. Qed.

Lemma deployment_mutateFunc_Ok (objectStore : ObjectStore) (deploy : Deployment) :
  snd (createOrUpdateDeployment_mutateFunc objectStore deploy) = None.
Proof.
  unfold createOrUpdateDeployment_mutateFunc.
  destruct (makeRGWPodSpec_Ok objectStore) as [pod [Hpod _]].
  rewrite Hpod. reflexivity.
Qed.

Lemma deployment_mutateFunc_again (objectStore : ObjectStore) (deploy : Deployment) :
  createOrUpdateDeployment_mutateFunc objectStore
    (fst (createOrUpdateDeployment_mutateFunc objectStore deploy))
  = createOrUpdateDeployment_mutateFunc objectStore deploy.
Proof.
  unfold createOrUpdateDeployment_mutateFunc.
  destruct (makeRGWPodSpec_Ok objectStore) as [pod [Hpod _]].
  rewrite Hpod. reflexivity.
Qed.

Lemma iter_idempotent {A : Type} (f : A -> A) (a : A) (n : nat) :
  (forall x : A, f (f x) = f x) -> Nat.iter (S n) f a = f a.
Proof.
  intros Hf. induction n as [| n IH]; [reflexivity |].
  change (Nat.iter (S (S n)) f a) with (f (Nat.iter (S n) f a)).
  rewrite IH. apply Hf.
Qed.

(** C9: each of the two mutate functions sets the whole spec anew, so run
    on its own result it returns that same object with a nil error, and so
    does any number of further runs; the ports of the service stay the one
    entry and do not pile up. *)
Theorem mutate_functions_idempotent (objectStore : ObjectStore)
    (service : Service) (deploy : Deployment) (n : nat) :
  let serviceOnce := fst (reconcileService_mutateFunc objectStore service) in
  let deployOnce := fst (createOrUpdateDeployment_mutateFunc objectStore deploy) in
  reconcileService_mutateFunc objectStore serviceOnce = (serviceOnce, None)
  /\ createOrUpdateDeployment_mutateFunc objectStore deployOnce = (deployOnce, None)
  /\ Nat.iter (S n) (fun svc => fst (reconcileService_mutateFunc objectStore svc))
       service = serviceOnce
  /\ Nat.iter (S n)
       (fun d => fst (createOrUpdateDeployment_mutateFunc objectStore d)) deploy
     = deployOnce
  /\ length (Ports (Service_Spec
       (Nat.iter (S n) (fun svc => fst (reconcileService_mutateFunc objectStore svc))
          service))) = 1%nat.
Proof.
  intros serviceOnce deployOnce.
  assert (Hsvc : Nat.iter (S n)
            (fun svc => fst (reconcileService_mutateFunc objectStore svc)) service
          = serviceOnce).
  { apply iter_idempotent. intros x. now rewrite service_mutateFunc_again. }
  split; [reflexivity |].
  split.
  { unfold deployOnce. rewrite deployment_mutateFunc_again.
    rewrite (surjective_pairing (createOrUpdateDeployment_mutateFunc objectStore deploy))
      at 1.
    now rewrite deployment_mutateFunc_Ok. }
  split; [exact Hsvc |].
  split.
  { apply iter_idempotent. intros x. now rewrite deployment_mutateFunc_again. }
  rewrite Hsvc. reflexivity.
Qed.

(** *** The engine on the in-memory store *)

Example Reconcile_active_sample :
  match activeRun (mkStore [ sampleObjectStore ] [] [] []) with
  | Returns (res, err, final) s' =>
      res = zeroResult /\ err = None
      /\ Finalizers (ObjectStore_ObjectMeta final)
         = [ "objectstore.object.rook-s3-nano/v1alpha1" ]
      /\ objectStores (world s') = [ sampleObjectStore ]
      /\ map (fun c => Name (PVC_ObjectMeta c)) (claims (world s'))
         = [ "rgw-store-default" ]
      /\ map (fun c => Ports (Service_Spec c)) (services (world s')) = [ [ httpPort ] ]
      /\ map (fun c => Replicas (Deployment_Spec c)) (deployments (world s'))
         = [ Some 1 ]
      /\ length (mutations (calls s')) = 3%nat
  | Panics _ _ => False
  end.
Proof. vm_compute. repeat split. Qed.

Example Reconcile_active_twice :
  match activeRun (mkStore [ sampleObjectStore ] [] [] []) with
  | Returns _ s1 =>
      match activeRun (world s1) with
      | Returns (res, err, _) s2 =>
          res = zeroResult /\ err = None
          /\ services (world s2) = services (world s1)
          /\ deployments (world s2) = deployments (world s1)
          /\ claims (world s2) = claims (world s1)
          /\ List.filter (fun c => match c with
                                   | CallUpdate _ | CallDelete _ => true
                                   | _ => false
                                   end) (calls s2) = []
      | Panics _ _ => False
      end
  | Panics _ _ => False
  end.
Proof. vm_compute. repeat split. Qed.

(** * Further properties of the builder and the engine *)

(** ** normalizeKey and NewFlag *)

Lemma Replace_length (s : string) (old new : ascii) :
  String.length (GoStrings.Replace s old new) = String.length s.
Proof. induction s as [| c s IH]; simpl; [reflexivity | now rewrite IH]. Qed.

Lemma Replace_absent (s : string) (old new : ascii) :
  old <> new -> ~ In old (list_ascii_of_string (GoStrings.Replace s old new)).
Proof.
  intros Hne. induction s as [| c s IH]; simpl; [tauto |].
  intros [Hhead | Htail]; [| now apply IH].
  destruct (Ascii.eqb c old) eqn:Hc.
  - now apply Hne.
  - apply Ascii.eqb_neq in Hc. now apply Hc.
Qed.

Lemma Replace_keeps_absent (s : string) (old new c : ascii) :
  c <> new -> ~ In c (list_ascii_of_string s) ->
  ~ In c (list_ascii_of_string (GoStrings.Replace s old new)).
Proof.
  intros Hne. induction s as [| d s IH]; simpl; [tauto |].
  intros Habsent [Hhead | Htail].
  - destruct (Ascii.eqb d old); [now apply Hne | apply Habsent; now left].
  - apply IH; [| exact Htail]. intros Hin. apply Habsent. now right.
Qed.

Lemma Replace_id (s : string) (old new : ascii) :
  ~ In old (list_ascii_of_string s) -> GoStrings.Replace s old new = s.
Proof.
  induction s as [| c s IH]; simpl; [reflexivity |].
  intros Habsent. rewrite IH by (intros Hin; apply Habsent; now right).
  destruct (Ascii.eqb c old) eqn:Hc; [| reflexivity].
  apply Ascii.eqb_eq in Hc. exfalso. apply Habsent. now left.
Qed.

Lemma normalizeKey_no_space (key : string) :
  ~ In " "%char (list_ascii_of_string (normalizeKey key)).
Proof.
  unfold normalizeKey. apply Replace_keeps_absent; [discriminate |].
  apply Replace_absent. discriminate.
Qed.

(** X1: normalizeKey keeps the length of the key, leaves no space and no
    hyphen in it, and applied to its own result changes nothing. *)
Theorem normalizeKey_normal_form (key : string) :
  String.length (normalizeKey key) = String.length key
  /\ ~ In " "%char (list_ascii_of_string (normalizeKey key))
  /\ ~ In "-"%char (list_ascii_of_string (normalizeKey key))
  /\ normalizeKey (normalizeKey key) = normalizeKey key.
Proof.
  assert (Hspace : ~ In " "%char (list_ascii_of_string (normalizeKey key))).
  { unfold normalizeKey. apply Replace_keeps_absent; [discriminate |].
    apply Replace_absent. discriminate. }
  assert (Hhyphen : ~ In "-"%char (list_ascii_of_string (normalizeKey key))).
  { unfold normalizeKey. apply Replace_absent. discriminate. }
  split; [unfold normalizeKey; now rewrite !Replace_length |].
  split; [exact Hspace |]. split; [exact Hhyphen |].
  unfold normalizeKey at 1.
  rewrite (Replace_id (normalizeKey key) " " "_") by exact Hspace.
  now apply Replace_id.
Qed.

Lemma flagName_hyphenate (key : string) :
  list_ascii_of_string (flagName key) = map hyphenate (list_ascii_of_string key).
Proof.
  unfold flagName, normalizeKey.
  induction key as [| c key IH]; simpl; [reflexivity |].
  rewrite IH. f_equal.
  unfold hyphenate.
  destruct (Ascii.eqb c " ") eqn:Hs; simpl.
  - reflexivity.
  - destruct (Ascii.eqb c "-") eqn:Hh; simpl; [reflexivity |].
    destruct (Ascii.eqb c "_"); reflexivity.
Qed.

Lemma append_inv_head (a b c : string) : a +:+ b = a +:+ c -> b = c.
Proof.
  induction a as [| x a IH]; simpl; [tauto |].
  intros Heq. injection Heq as Heq. now apply IH.
Qed.

(** X2: the flag is two hyphens, the flag name, an equals sign and the value
    as it was given; the flag name is the key with each space, hyphen and
    underscore turned into a hyphen and every other byte kept, so it has the
    key's length and neither space nor underscore; and two values that give
    the same flag for a key are the same value. *)
Theorem NewFlag_shape (key value : string) :
  NewFlag key value = "--" +:+ flagName key +:+ "=" +:+ value
  /\ list_ascii_of_string (flagName key) = map hyphenate (list_ascii_of_string key)
  /\ String.length (flagName key) = String.length key
  /\ ~ In " "%char (list_ascii_of_string (flagName key))
  /\ ~ In "_"%char (list_ascii_of_string (flagName key))
  /\ (forall value' : string, NewFlag key value = NewFlag key value' -> value = value').
Proof.
  split; [reflexivity |].
  split; [apply flagName_hyphenate |].
  split; [unfold flagName, normalizeKey; now rewrite !Replace_length |].
  split.
  { unfold flagName. apply Replace_keeps_absent; [discriminate |].
    apply normalizeKey_no_space. }
  split.
  { unfold flagName. apply Replace_absent. discriminate. }
  intros value' Heq. rewrite !NewFlag_flagName in Heq.
  apply (append_inv_head "--") in Heq.
  apply (append_inv_head (flagName key)) in Heq.
  now apply (append_inv_head "=") in Heq.
Qed.

(** ** hash *)

Lemma bigEndian_bytes (n : nat) (x : Z) :
  Forall (fun b => 0 <= b < 256) (Sha256.bigEndian n x).
Proof.
  induction n as [| n IH]; simpl; constructor; [| exact IH].
  change 255 with (Z.ones 8). rewrite Z.land_ones by lia.
  change (2 ^ 8) with 256. apply Z.mod_pos_bound. lia.
Qed.

Lemma Sum256_bytes (data : list Z) :
  Forall (fun b => 0 <= b < 256) (Sha256.Sum256 data).
Proof.
  unfold Sha256.Sum256. cbv zeta.
  repeat (apply Forall_app; split); apply bigEndian_bytes.
Qed.

Lemma digit_hex (v : Z) : 0 <= v < 16 -> In (Hex.digit v) hexDigits.
Proof.
  intros Hv.
  assert (Hcases : v = 0 \/ v = 1 \/ v = 2 \/ v = 3 \/ v = 4 \/ v = 5 \/ v = 6
                   \/ v = 7 \/ v = 8 \/ v = 9 \/ v = 10 \/ v = 11 \/ v = 12
                   \/ v = 13 \/ v = 14 \/ v = 15) by lia.
  repeat (destruct Hcases as [-> | Hcases]; [vm_compute; tauto |]).
  subst v. vm_compute. tauto.
Qed.

Lemma EncodeToString_hex (src : list Z) :
  Forall (fun b => 0 <= b < 256) src ->
  Forall (fun c => In c hexDigits) (list_ascii_of_string (Hex.EncodeToString src)).
Proof.
  induction 1 as [| b src Hb _ IH]; simpl; [constructor |].
  constructor; [| constructor; [| exact IH]].
  - apply digit_hex. rewrite Z.shiftr_div_pow2 by lia.
    change (2 ^ 4) with 16. split.
    + apply Z.div_pos; lia.
    + apply Z.div_lt_upper_bound; lia.
  - apply digit_hex. change 15 with (Z.ones 4). rewrite Z.land_ones by lia.
    change (2 ^ 4) with 16. apply Z.mod_pos_bound. lia.
Qed.

(** X3: whatever the seed, hash is 32 characters long and each of them is
    one of the sixteen lower-case hex digits. *)
Theorem hash_is_hex (s : string) :
  String.length (hash s) = 32%nat
  /\ Forall (fun c => In c hexDigits) (list_ascii_of_string (hash s)).
Proof.
  split; [apply hash_length |].
  unfold hash. cbv zeta. apply EncodeToString_hex.
  apply Forall_take. apply Sum256_bytes.
Qed.

(** ** instanceName and the keys of the dependent objects *)

Arguments hash : simpl never.

Lemma append_length (a b : string) :
  String.length (a +:+ b) = (String.length a + String.length b)%nat.
Proof. induction a as [| x a IH]; simpl; [reflexivity | now rewrite IH]. Qed.

Lemma append_assoc (a b c : string) : (a +:+ b) +:+ c = a +:+ (b +:+ c).
Proof.
  induction a as [| x a IH]; [reflexivity |].
  change (String x ((a +:+ b) +:+ c) = String x (a +:+ (b +:+ c))).
  now rewrite IH.
Qed.

Lemma append_inv_tail (a b c : string) : a +:+ c = b +:+ c -> a = b.
Proof.
  revert b. induction a as [| x a IH]; intros [| y b] Heq.
  - reflexivity.
  - apply (f_equal String.length) in Heq.
    rewrite !append_length in Heq. simpl in Heq. lia.
  - apply (f_equal String.length) in Heq.
    rewrite !append_length in Heq. simpl in Heq. lia.
  - change (String x (a +:+ c) = String y (b +:+ c)) in Heq.
    injection Heq as -> Heq. f_equal. now apply IH.
Qed.

(** X4: the shared name does not tell the name and the namespace apart: a
    hyphen may belong to either, so two different pairs get one name. *)
Theorem instanceName_collides (name middle namespace : string) :
  instanceName (name +:+ "-" +:+ middle) namespace
  = instanceName name (middle +:+ "-" +:+ namespace)
  /\ name +:+ "-" +:+ middle <> name.
Proof.
  split.
  - unfold instanceName. now rewrite !append_assoc.
  - intros Heq. apply (f_equal String.length) in Heq.
    rewrite append_length in Heq. simpl in Heq. lia.
Qed.

(** X5: the key of the dependent objects, namespace and shared name, does
    tell ObjectStores apart: two ObjectStores whose services have the same
    key have the same name and the same namespace. *)
Theorem dependent_key_injective (a b : ObjectStore) :
  ObjectKeyFromObject KService (generateService a)
  = ObjectKeyFromObject KService (generateService b) ->
  Name (ObjectStore_ObjectMeta a) = Name (ObjectStore_ObjectMeta b)
  /\ Namespace (ObjectStore_ObjectMeta a) = Namespace (ObjectStore_ObjectMeta b).
Proof.
  unfold ObjectKeyFromObject, generateService. simpl.
  intros Heq. injection Heq as Hns Hname.
  split; [| exact Hns].
  rewrite Hns in Hname.
  exact (append_inv_tail (Name (ObjectStore_ObjectMeta a))
           (Name (ObjectStore_ObjectMeta b))
           ("-" +:+ Namespace (ObjectStore_ObjectMeta b)) Hname).
Qed.

Lemma dependent_key_injective_witness :
  Name (ObjectStore_ObjectMeta sampleObjectStore)
  = Name (ObjectStore_ObjectMeta deletingObjectStore)
  /\ Namespace (ObjectStore_ObjectMeta sampleObjectStore)
     = Namespace (ObjectStore_ObjectMeta deletingObjectStore).
Proof.
  apply (dependent_key_injective sampleObjectStore deletingObjectStore).
  reflexivity.
Defined.

(** ** The pod template *)

(** X6: in the pod template of every ObjectStore, each volume mount of the
    init and of the daemon container names a volume of the pod and mounts it
    at the data directory; the one volume is bound to the claim of the shared
    name; both containers run the ObjectStore's image; the daemon container
    defines the POD_NAME variable its host flag refers to and is pointed at
    the mounted directory; the init container alone is privileged. *)
Theorem pod_template_wiring (objectStore : ObjectStore) :
  exists pod : PodTemplateSpec,
    makeRGWPodSpec objectStore = Ok pod
    /\ (forall (c : Container) (m : VolumeMount),
          In c (InitContainers (Template_Spec pod) ++ Containers (Template_Spec pod)) ->
          In m (VolumeMounts c) ->
          In (VolumeMount_Name m) (map Volume_Name (Volumes (Template_Spec pod)))
          /\ MountPath m = objectStoreDataDirectory)
    /\ map (fun v => VolumeSource_PersistentVolumeClaim (Volume_VolumeSource v))
           (Volumes (Template_Spec pod))
       = [ Some (mkPersistentVolumeClaimVolumeSource
                   (Key_Name (dependentKey objectStore))) ]
    /\ (forall c : Container,
          In c (InitContainers (Template_Spec pod) ++ Containers (Template_Spec pod)) ->
          Image c = ObjectStore_Image (Spec objectStore))
    /\ (forall c : Container, In c (Containers (Template_Spec pod)) ->
          In (mkEnvVar podNameEnvVar ""
                (Some (mkEnvVarSource (Some (mkObjectFieldSelector "metadata.name")))))
             (Env c)
          /\ In ("--host=" +:+ ContainerEnvVarReference podNameEnvVar) (Args c)
          /\ In ("--librados-sqlite-data-dir=" +:+ objectStoreDataDirectory) (Args c)
          /\ Container_SecurityContext c = None)
    /\ map Container_SecurityContext (InitContainers (Template_Spec pod))
       = [ Some (mkSecurityContext (Some true) (Some 0)) ]
    /\ Pod_SecurityContext (Template_Spec pod)
       = Some (mkPodSecurityContext (Some 167) (Some 167) (Some 167)).
Proof.
  unfold makeRGWPodSpec. cbv zeta.
  rewrite bool_decide_eq_false_2 by apply makeDaemonContainer_not_zero.
  eexists. split; [reflexivity |].
  cbn [Template_Spec InitContainers Containers Volumes Pod_SecurityContext app].
  split.
  { intros c m [<- | [<- | []]] [<- | []]; split; try reflexivity; now left. }
  split; [reflexivity |].
  split.
  { intros c [<- | [<- | []]]; reflexivity. }
  split.
  { intros c [<- | []].
    split; [right; left; reflexivity |].
    split; [| split; [| reflexivity]].
    - do 4 right. left. reflexivity.
    - do 5 right. left. reflexivity. }
  split; reflexivity.
Qed.

(** ** Selectors and labels *)

(** X7: after the two mutate functions have run, the selector of the
    service, the selector of the deployment and the labels of the pod
    template are one and the same map, whose only entry sends object_store
    to the name of the ObjectStore; so the deployment selects its own pods and
    the service routes to them. *)
Theorem selectors_match_pod_labels (objectStore : ObjectStore)
    (service : Service) (deploy : Deployment) :
  let svc := fst (reconcileService_mutateFunc objectStore service) in
  let dep := fst (createOrUpdateDeployment_mutateFunc objectStore deploy) in
  let podLabels := Labels (Template_ObjectMeta (Template (Deployment_Spec dep))) in
  Service_Selector (Service_Spec svc) = podLabels
  /\ Deployment_Selector (Deployment_Spec dep) = Some (mkLabelSelector podLabels)
  /\ podLabels !! "object_store" = Some (Name (ObjectStore_ObjectMeta objectStore))
  /\ (forall key : string, key <> "object_store" -> podLabels !! key = None)
  /\ Replicas (Deployment_Spec dep) = Some 1
  /\ Strategy (Deployment_Spec dep)
     = mkDeploymentStrategy "RollingUpdate"
         (Some (mkRollingUpdateDeployment (Some (mkIntOrString 0 1 ""))
                                          (Some (mkIntOrString 0 0 "")))).
Proof.
  unfold createOrUpdateDeployment_mutateFunc, makeRGWPodSpec. cbv zeta.
  rewrite bool_decide_eq_false_2 by apply makeDaemonContainer_not_zero.
  cbn [fst Deployment_Spec Template Template_ObjectMeta Labels Deployment_Selector
       Replicas Strategy].
  split; [reflexivity |]. split; [reflexivity |].
  unfold getLabels.
  split; [apply lookup_singleton_eq |].
  split; [intros key Hne; now apply lookup_singleton_ne |].
  split; reflexivity.
Qed.

(** X8: neither mutate function touches the type or the metadata of the
    object, name and namespace least of all, so the check that
    CreateOrUpdate makes after a mutate function never rejects theirs. *)
Theorem mutate_functions_keep_metadata (objectStore : ObjectStore)
    (service : Service) (deploy : Deployment) :
  Service_ObjectMeta (fst (reconcileService_mutateFunc objectStore service))
  = Service_ObjectMeta service
  /\ Service_TypeMeta (fst (reconcileService_mutateFunc objectStore service))
     = Service_TypeMeta service
  /\ Deployment_ObjectMeta (fst (createOrUpdateDeployment_mutateFunc objectStore deploy))
     = Deployment_ObjectMeta deploy
  /\ Deployment_TypeMeta (fst (createOrUpdateDeployment_mutateFunc objectStore deploy))
     = Deployment_TypeMeta deploy
  /\ snd (mutate KService (reconcileService_mutateFunc objectStore)
            (ObjectKeyFromObject KService service) service) = None
  /\ snd (mutate KDeployment (createOrUpdateDeployment_mutateFunc objectStore)
            (ObjectKeyFromObject KDeployment deploy) deploy) = None.
Proof.
  assert (Hdep : exists spec,
            createOrUpdateDeployment_mutateFunc objectStore deploy
            = (mkDeployment (Deployment_TypeMeta deploy)
                 (Deployment_ObjectMeta deploy) spec, None)).
  { unfold createOrUpdateDeployment_mutateFunc.
    destruct (makeRGWPodSpec_Ok objectStore) as [pod [Hpod _]].
    rewrite Hpod. eexists. reflexivity. }
  destruct Hdep as [spec Hdep].
  split; [reflexivity |]. split; [reflexivity |].
  split; [now rewrite Hdep |]. split; [now rewrite Hdep |].
  split.
  - unfold mutate. cbn [reconcileService_mutateFunc].
    unfold reconcileService_mutateFunc, addPort. simpl.
    rewrite bool_decide_eq_false_2; [reflexivity |]. intros Hne. now apply Hne.
  - unfold mutate. rewrite Hdep.
    rewrite bool_decide_eq_false_2; [reflexivity |]. intros Hne. now apply Hne.
Qed.

(** ** The calls of the engine *)

Lemma CreateOrUpdate_calls {W : Type} `{client : Client W} (k : ResourceKind)
    (obj : objType k) (f : objType k -> objType k * option error) (s : State W) :
  exists (res : OperationResult * option error * objType k) (s' : State W)
         (added : list Call),
    CreateOrUpdate k obj f s = Returns res s'
    /\ calls s' = calls s ++ added
    /\ convergeCalls k added.
Proof.
  unfold CreateOrUpdate, bind, Get.
  destruct (clientGet k _ (world s)) as [existing | err].
  - destruct (mutate k f _ existing) as [obj' [err |]].
    + eexists _, _, _. split; [reflexivity |]. split; [reflexivity |].
      eexists. left. reflexivity.
    + destruct (bool_decide (existing = obj')).
      * eexists _, _, _. split; [reflexivity |]. split; [reflexivity |].
        eexists. left. reflexivity.
      * unfold Update. simpl.
        destruct (clientUpdate k obj' (world s)) as [[stored | err] w'];
          (eexists _, _, _; split; [reflexivity |];
           split; [simpl; rewrite <- app_assoc; reflexivity |];
           eexists; right; eexists; split; [reflexivity |];
           exists obj'; right; reflexivity).
  - destruct (IsNotFound err); simpl.
    + destruct (mutate k f _ obj) as [obj' [err' |]].
      * eexists _, _, _. split; [reflexivity |]. split; [reflexivity |].
        eexists. left. reflexivity.
      * unfold Create. simpl.
        destruct (clientCreate k obj' (world s)) as [[stored | err'] w'];
          (eexists _, _, _; split; [reflexivity |];
           split; [simpl; rewrite <- app_assoc; reflexivity |];
           eexists; right; eexists; split; [reflexivity |];
           exists obj'; left; reflexivity).
    + eexists _, _, _. split; [reflexivity |]. split; [reflexivity |].
      eexists. left. reflexivity.
Qed.

Lemma reconcileService_calls {W : Type} `{client : Client W}
    (r : ObjectStoreReconciler) (objectStore : ObjectStore) (s : State W) :
  exists (res : string * option error) (s' : State W) (added : list Call),
    reconcileService r objectStore s = Returns res s'
    /\ calls s' = calls s ++ added
    /\ (added = [] \/ convergeCalls KService added).
Proof.
  unfold reconcileService.
  destruct (SetControllerReference objectStore KService _ _) as [service [err |]].
  { eexists _, _, []. split; [reflexivity |].
    split; [symmetry; apply app_nil_r | now left]. }
  unfold bind.
  destruct (CreateOrUpdate_calls KService service
              (reconcileService_mutateFunc objectStore) s)
    as (res & s' & added & Hrun & Hcalls & Hshape).
  rewrite Hrun. destruct res as [[opResult [err |]] svc];
    (eexists _, _, added; split; [reflexivity |]; split; [exact Hcalls | now right]).
Qed.

Lemma createOrUpdateDeployment_calls {W : Type} `{client : Client W}
    (r : ObjectStoreReconciler) (objectStore : ObjectStore) (s : State W) :
  exists (res : OperationResult * option error) (s' : State W) (added : list Call),
    createOrUpdateDeployment r objectStore s = Returns res s'
    /\ calls s' = calls s ++ added
    /\ (added = [] \/ convergeCalls KDeployment added).
Proof.
  unfold createOrUpdateDeployment.
  destruct (SetControllerReference objectStore KDeployment _ _) as [deploy [err |]].
  { eexists _, _, []. split; [reflexivity |].
    split; [symmetry; apply app_nil_r | now left]. }
  unfold bind.
  destruct (CreateOrUpdate_calls KDeployment deploy
              (createOrUpdateDeployment_mutateFunc objectStore) s)
    as (res & s' & added & Hrun & Hcalls & Hshape).
  rewrite Hrun. destruct res as [[opResult err] dep].
  eexists _, _, added. split; [reflexivity |]. split; [exact Hcalls | now right].
Qed.

Lemma createPVC_calls {W : Type} `{client : Client W}
    (objectStore : ObjectStore) (s : State W) :
  (exists msg : string, createPVC objectStore s = Panics msg s)
  \/ (exists (err : option error) (s' : State W) (pvc : PersistentVolumeClaim),
        createPVC objectStore s = Returns err s'
        /\ calls s' = calls s ++ [ CallCreate (ObjPersistentVolumeClaim pvc) ]).
Proof.
  unfold createPVC.
  destruct (VolumeClaimTemplate (Spec objectStore)) as [template |].
  - right. unfold bind, Create.
    destruct (clientCreate KPersistentVolumeClaim _ (world s)) as [[stored | err] w'].
    + eexists _, _, _. split; reflexivity.
    + destruct (IsAlreadyExists err); eexists _, _, _; split; reflexivity.
  - left. eexists. reflexivity.
Qed.

(** The outcomes of the active branch, with the calls of its three steps. *)
Lemma Reconcile_active {W : Type} `{client : Client W}
    (mapUnicodeLower : string -> string) (r : ObjectStoreReconciler)
    (req : Request) (s : State W) (objectStore : ObjectStore) :
  clientGet KObjectStore (Request_NamespacedName req) (world s) = Ok objectStore ->
  IsZero (DeletionTimestamp (ObjectStore_ObjectMeta objectStore)) = true ->
  exists claimCalls serviceCalls deploymentCalls : list Call,
    calls (finalState (Reconcile mapUnicodeLower r req s))
    = calls s ++ CallGet KObjectStore (Request_NamespacedName req)
        :: claimCalls ++ serviceCalls ++ deploymentCalls
    /\ (claimCalls = []
        \/ exists pvc, claimCalls = [ CallCreate (ObjPersistentVolumeClaim pvc) ])
    /\ (serviceCalls = [] \/ convergeCalls KService serviceCalls)
    /\ (deploymentCalls = [] \/ convergeCalls KDeployment deploymentCalls)
    /\ ((exists msg s', Reconcile mapUnicodeLower r req s = Panics msg s')
        \/ exists err s',
             Reconcile mapUnicodeLower r req s
             = Returns (zeroResult, err,
                        withFinalizer objectStore
                          (buildFinalizerName mapUnicodeLower
                             (Kind (ObjectStore_TypeMeta objectStore)))) s').
Proof.
  intros Hget Hactive.
  remember (Reconcile mapUnicodeLower r req s) as out eqn:Hout.
  unfold Reconcile in Hout. unfold bind at 1 in Hout. unfold Get at 1 in Hout.
  rewrite Hget, Hactive in Hout. cbn [negb] in Hout.
  fold (withFinalizer objectStore
          (buildFinalizerName mapUnicodeLower (Kind (ObjectStore_TypeMeta objectStore))))
    in Hout.
  set (held := withFinalizer objectStore _) in *.
  set (s0 := mkState (world s) _) in Hout.
  unfold bind at 1 in Hout.
  destruct (createPVC_calls held s0) as [[msg Hpanic] | (err & s1 & pvc & Hpvc & Hc1)].
  { rewrite Hpanic in Hout. subst out. exists [], [], []. simpl.
    split; [reflexivity |]. split; [now left |]. split; [now left |].
    split; [now left |]. left. eauto. }
  rewrite Hpvc in Hout. destruct err as [err |].
  { subst out. exists [ CallCreate (ObjPersistentVolumeClaim pvc) ], [], []. simpl.
    split; [rewrite Hc1; simpl; now rewrite <- app_assoc |].
    split; [right; eauto |]. split; [now left |]. split; [now left |].
    right. eauto. }
  unfold bind at 1 in Hout.
  destruct (reconcileService_calls r held s1) as (svc & s2 & added2 & Hsvc & Hc2 & Hs2).
  rewrite Hsvc in Hout. destruct (snd svc) as [err |].
  { subst out. exists [ CallCreate (ObjPersistentVolumeClaim pvc) ], added2, []. simpl.
    split; [rewrite Hc2, Hc1; simpl; rewrite app_nil_r, <- !app_assoc; reflexivity |].
    split; [right; eauto |]. split; [exact Hs2 |]. split; [now left |].
    right. eauto. }
  unfold bind at 1 in Hout.
  destruct (createOrUpdateDeployment_calls r held s2)
    as (dep & s3 & added3 & Hdep & Hc3 & Hs3).
  rewrite Hdep in Hout.
  exists [ CallCreate (ObjPersistentVolumeClaim pvc) ], added2, added3.
  split.
  { subst out. destruct (snd dep); simpl; rewrite Hc3, Hc2, Hc1; simpl;
      rewrite <- !app_assoc; reflexivity. }
  split; [right; eauto |]. split; [exact Hs2 |]. split; [exact Hs3 |].
  right. subst out. destruct (snd dep); eauto.
Qed.

Lemma callKind_write (k : ResourceKind) (c : Call) :
  writeOf k c -> callKind c = k /\ isMutation c = true /\ isDelete c = false.
Proof.
  intros [o [-> | ->]]; destruct k; repeat split.
Qed.

Lemma convergeCalls_kinds (k : ResourceKind) (added : list Call) :
  convergeCalls k added ->
  Forall (fun c => isDelete c = false /\ callKind c = k) added
  /\ (map callKind (mutations added) = [] \/ map callKind (mutations added) = [ k ]).
Proof.
  intros [key [-> | [c [-> Hwrite]]]].
  - split; [repeat constructor | now left].
  - destruct (callKind_write k c Hwrite) as (Hkind & Hmut & Hdel).
    split; [repeat constructor; assumption |].
    right. unfold mutations. simpl. rewrite Hmut. simpl. now rewrite Hkind.
Qed.

Lemma mutations_app (a b : list Call) :
  mutations (a ++ b) = mutations a ++ mutations b.
Proof. unfold mutations. apply List.filter_app. Qed.

(** X9: whatever the client answers and however the invocation ends,
    Reconcile first reads the ObjectStore and after that never deletes
    anything and never reads or writes an ObjectStore again, so neither
    finalizer change reaches the store; the objects it writes are, in this
    order and each at most once, the claim, the service and the deployment;
    and when it returns, the result is the zero result: it never asks for a
    requeue. *)
Theorem Reconcile_call_discipline {W : Type} `{client : Client W}
    (mapUnicodeLower : string -> string) (r : ObjectStoreReconciler)
    (req : Request) (s : State W) :
  exists added : list Call,
    calls (finalState (Reconcile mapUnicodeLower r req s))
    = calls s ++ CallGet KObjectStore (Request_NamespacedName req) :: added
    /\ Forall (fun c => isDelete c = false /\ callKind c <> KObjectStore) added
    /\ sublist (map callKind (mutations added))
               [ KPersistentVolumeClaim; KService; KDeployment ]
    /\ (forall res err final s',
          Reconcile mapUnicodeLower r req s = Returns (res, err, final) s' ->
          res = mkResult false 0).
Proof.
  destruct (clientGet KObjectStore (Request_NamespacedName req) (world s))
    as [objectStore | err] eqn:Hget.
  2: { exists []. unfold Reconcile, bind, Get. rewrite Hget.
       destruct (IsNotFound err); simpl;
         (split; [reflexivity |]; split; [constructor |];
          split; [repeat constructor |];
          intros res e final s' Heq; now injection Heq as <- _ _ _). }
  destruct (IsZero (DeletionTimestamp (ObjectStore_ObjectMeta objectStore)))
    eqn:Hactive.
  2: { exists []. unfold Reconcile, bind, Get. rewrite Hget, Hactive. simpl.
       split; [reflexivity |]. split; [constructor |].
       split; [repeat constructor |].
       intros res e final s' Heq. now injection Heq as <- _ _ _. }
  destruct (Reconcile_active mapUnicodeLower r req s objectStore Hget Hactive)
    as (cc & sc & dc & Hcalls & Hcc & Hsc & Hdc & Hout).
  exists (cc ++ sc ++ dc). split; [exact Hcalls |].
  assert (Hc : Forall (fun c => isDelete c = false /\ callKind c <> KObjectStore) cc
               /\ (map callKind (mutations cc) = []
                   \/ map callKind (mutations cc) = [ KPersistentVolumeClaim ])).
  { destruct Hcc as [-> | [pvc ->]].
    - split; [constructor | now left].
    - split; [repeat constructor; discriminate | now right]. }
  assert (Hs : Forall (fun c => isDelete c = false /\ callKind c <> KObjectStore) sc
               /\ (map callKind (mutations sc) = []
                   \/ map callKind (mutations sc) = [ KService ])).
  { destruct Hsc as [-> | Hsc]; [split; [constructor | now left] |].
    destruct (convergeCalls_kinds _ _ Hsc) as [Hall Hkinds].
    split; [| exact Hkinds].
    eapply Forall_impl; [exact Hall |]. intros c [Hdel Hkind].
    split; [exact Hdel |]. rewrite Hkind. discriminate. }
  assert (Hd : Forall (fun c => isDelete c = false /\ callKind c <> KObjectStore) dc
               /\ (map callKind (mutations dc) = []
                   \/ map callKind (mutations dc) = [ KDeployment ])).
  { destruct Hdc as [-> | Hdc]; [split; [constructor | now left] |].
    destruct (convergeCalls_kinds _ _ Hdc) as [Hall Hkinds].
    split; [| exact Hkinds].
    eapply Forall_impl; [exact Hall |]. intros c [Hdel Hkind].
    split; [exact Hdel |]. rewrite Hkind. discriminate. }
  destruct Hc as [Hcall Hckind], Hs as [Hsall Hskind], Hd as [Hdall Hdkind].
  split; [repeat (apply Forall_app; split); assumption |].
  split.
  { rewrite !mutations_app, !map_app.
    destruct Hckind as [-> | ->], Hskind as [-> | ->], Hdkind as [-> | ->]; simpl;
      repeat first [ apply sublist_nil | apply sublist_skip | apply sublist_cons ]. }
  intros res e final s' Heq.
  destruct Hout as [(msg & s1 & Hpanic) | (e1 & s1 & Hret)].
  - rewrite Hpanic in Heq. discriminate Heq.
  - rewrite Hret in Heq. now injection Heq as <- _ _ _.
Qed.

(** ** Reconcile: the active branch *)

Lemma withFinalizer_Finalizers (o : ObjectStore) (finalizer : string) :
  Finalizers (ObjectStore_ObjectMeta (withFinalizer o finalizer))
  = if ContainsFinalizer o finalizer
    then Finalizers (ObjectStore_ObjectMeta o)
    else Finalizers (ObjectStore_ObjectMeta o) ++ [ finalizer ].
Proof.
  unfold withFinalizer, AddFinalizer, ContainsFinalizer.
  destruct (existsb _ _); reflexivity.
Qed.

Lemma ContainsFinalizer_In (o : ObjectStore) (finalizer : string) :
  ContainsFinalizer o finalizer = true
  <-> In finalizer (Finalizers (ObjectStore_ObjectMeta o)).
Proof.
  unfold ContainsFinalizer. rewrite existsb_exists. split.
  - intros [f [Hin Heq]]. apply bool_decide_eq_true_1 in Heq. now subst f.
  - intros Hin. exists finalizer. split; [exact Hin |].
    now apply bool_decide_eq_true_2.
Qed.

Lemma withFinalizer_Spec (o : ObjectStore) (finalizer : string) :
  Spec (withFinalizer o finalizer) = Spec o
  /\ ObjectStore_TypeMeta (withFinalizer o finalizer) = ObjectStore_TypeMeta o
  /\ Name (ObjectStore_ObjectMeta (withFinalizer o finalizer))
     = Name (ObjectStore_ObjectMeta o)
  /\ Namespace (ObjectStore_ObjectMeta (withFinalizer o finalizer))
     = Namespace (ObjectStore_ObjectMeta o)
  /\ UID (ObjectStore_ObjectMeta (withFinalizer o finalizer))
     = UID (ObjectStore_ObjectMeta o).
Proof.
  unfold withFinalizer, AddFinalizer, ContainsFinalizer.
  destruct (existsb _ _); repeat split.
Qed.

(** X10: when the fetched ObjectStore is not being deleted, Reconcile either
    panics or returns holding that ObjectStore with the finalizer token in
    its list: appended at the end if it was absent, the list untouched if it
    was present, the other finalizers and the spec kept either way. *)
Theorem Reconcile_ensures_finalizer {W : Type} `{client : Client W}
    (mapUnicodeLower : string -> string) (r : ObjectStoreReconciler)
    (req : Request) (s : State W) (objectStore : ObjectStore) :
  clientGet KObjectStore (Request_NamespacedName req) (world s) = Ok objectStore ->
  IsZero (DeletionTimestamp (ObjectStore_ObjectMeta objectStore)) = true ->
  let token :=
    buildFinalizerName mapUnicodeLower (Kind (ObjectStore_TypeMeta objectStore)) in
  let old := Finalizers (ObjectStore_ObjectMeta objectStore) in
  (exists msg s', Reconcile mapUnicodeLower r req s = Panics msg s')
  \/ exists (err : option error) (final : ObjectStore) (s' : State W),
       Reconcile mapUnicodeLower r req s = Returns (mkResult false 0, err, final) s'
       /\ In token (Finalizers (ObjectStore_ObjectMeta final))
       /\ (In token old -> Finalizers (ObjectStore_ObjectMeta final) = old)
       /\ (~ In token old ->
           Finalizers (ObjectStore_ObjectMeta final) = old ++ [ token ])
       /\ Spec final = Spec objectStore.
Proof.
  intros Hget Hactive token old.
  destruct (Reconcile_active mapUnicodeLower r req s objectStore Hget Hactive)
    as (_ & _ & _ & _ & _ & _ & _ & [Hpanic | (err & s' & Hret)]);
    [now left | right].
  exists err, (withFinalizer objectStore token), s'.
  split; [exact Hret |].
  rewrite withFinalizer_Finalizers.
  destruct (ContainsFinalizer objectStore token) eqn:Hc.
  - apply ContainsFinalizer_In in Hc.
    split; [exact Hc |]. split; [reflexivity |].
    split; [intros Habsent; now destruct Habsent | apply withFinalizer_Spec].
  - assert (Habsent : ~ In token old).
    { intros Hin. apply ContainsFinalizer_In in Hin. congruence. }
    split; [apply in_or_app; right; now left |].
    split; [intros Hin; now destruct Habsent |].
    split; [reflexivity | apply withFinalizer_Spec].
Qed.

Lemma Reconcile_ensures_finalizer_witness :
  let token := buildFinalizerName (fun s => s) "ObjectStore" in
  (exists msg s',
     Reconcile (client := fakeClient) (fun s => s) sampleReconciler sampleRequest
       (initialState (mkStore [ sampleObjectStore ] [] [] [])) = Panics msg s')
  \/ exists (err : option error) (final : ObjectStore) (s' : State Store),
       Reconcile (client := fakeClient) (fun s => s) sampleReconciler sampleRequest
         (initialState (mkStore [ sampleObjectStore ] [] [] []))
       = Returns (mkResult false 0, err, final) s'
       /\ In token (Finalizers (ObjectStore_ObjectMeta final))
       /\ (In token [] -> Finalizers (ObjectStore_ObjectMeta final) = [])
       /\ (~ In token [] ->
           Finalizers (ObjectStore_ObjectMeta final) = [] ++ [ token ])
       /\ Spec final = Spec sampleObjectStore.
Proof.
  apply (Reconcile_ensures_finalizer (client := fakeClient) (fun s => s)
           sampleReconciler sampleRequest
           (initialState (mkStore [ sampleObjectStore ] [] [] []))
           sampleObjectStore).
  - vm_compute. reflexivity.
  - reflexivity.
Defined.

(** X11: an ObjectStore without a claim template, which its schema allows,
    makes Reconcile panic on the nil template as soon as it has read the
    object: the read is the only call and the store is untouched. *)
Theorem Reconcile_panics_without_template {W : Type} `{client : Client W}
    (mapUnicodeLower : string -> string) (r : ObjectStoreReconciler)
    (req : Request) (s : State W) (objectStore : ObjectStore) :
  clientGet KObjectStore (Request_NamespacedName req) (world s) = Ok objectStore ->
  IsZero (DeletionTimestamp (ObjectStore_ObjectMeta objectStore)) = true ->
  VolumeClaimTemplate (Spec objectStore) = None ->
  Reconcile mapUnicodeLower r req s
  = Panics "invalid memory address or nil pointer dereference"
      (mkState (world s)
         (calls s ++ [ CallGet KObjectStore (Request_NamespacedName req) ])).
Proof.
  intros Hget Hactive Hnil.
  unfold Reconcile. unfold bind at 1. unfold Get at 1. rewrite Hget, Hactive.
  cbn [negb].
  fold (withFinalizer objectStore
          (buildFinalizerName mapUnicodeLower (Kind (ObjectStore_TypeMeta objectStore)))).
  unfold bind at 1. unfold createPVC.
  destruct (withFinalizer_Spec objectStore
              (buildFinalizerName mapUnicodeLower
                 (Kind (ObjectStore_TypeMeta objectStore)))) as [-> _].
  rewrite Hnil. reflexivity.
Qed.

Lemma Reconcile_panics_without_template_witness :
  Reconcile (client := fakeClient) (fun s => s) sampleReconciler sampleRequest
    (initialState (mkStore [ untemplatedObjectStore ] [] [] []))
  = Panics "invalid memory address or nil pointer dereference"
      (mkState (mkStore [ untemplatedObjectStore ] [] [] [])
         ([] ++ [ CallGet KObjectStore (mkNamespacedName "default" "store") ])).
Proof.
  apply (Reconcile_panics_without_template (client := fakeClient) (fun s => s)
           sampleReconciler sampleRequest
           (initialState (mkStore [ untemplatedObjectStore ] [] [] []))
           untemplatedObjectStore).
  - vm_compute. reflexivity.
  - reflexivity.
  - reflexivity.
Defined.

(** ** createPVC: the claim and the errors *)

(** X12: the claim that createPVC sends is named by the shared name, lies in
    the ObjectStore's namespace, and carries no owner reference, no label and
    no finalizer; the volume of the pod template is bound to a claim of just
    that name. *)
Theorem createPVC_claim_metadata {W : Type} `{client : Client W}
    (objectStore : ObjectStore) (template : PersistentVolumeClaim) (s : State W) :
  VolumeClaimTemplate (Spec objectStore) = Some template ->
  exists (pvc : PersistentVolumeClaim) (err : option error) (s' : State W),
    createPVC objectStore s = Returns err s'
    /\ calls s' = calls s ++ [ CallCreate (ObjPersistentVolumeClaim pvc) ]
    /\ ObjectKeyFromObject KPersistentVolumeClaim pvc = dependentKey objectStore
    /\ OwnerReferences (PVC_ObjectMeta pvc) = []
    /\ Labels (PVC_ObjectMeta pvc) = ∅
    /\ Finalizers (PVC_ObjectMeta pvc) = []
    /\ (forall pod : PodTemplateSpec, makeRGWPodSpec objectStore = Ok pod ->
          map (fun v => VolumeSource_PersistentVolumeClaim (Volume_VolumeSource v))
              (Volumes (Template_Spec pod))
          = [ Some (mkPersistentVolumeClaimVolumeSource (Name (PVC_ObjectMeta pvc))) ]).
Proof.
  intros Htemplate.
  unfold createPVC. rewrite Htemplate. unfold bind, Create.
  destruct (clientCreate KPersistentVolumeClaim _ (world s)) as [created w'].
  eexists _.
  assert (Hpod : forall pod : PodTemplateSpec, makeRGWPodSpec objectStore = Ok pod ->
            map (fun v => VolumeSource_PersistentVolumeClaim (Volume_VolumeSource v))
                (Volumes (Template_Spec pod))
            = [ Some (mkPersistentVolumeClaimVolumeSource
                        (instanceName (Name (ObjectStore_ObjectMeta objectStore))
                           (Namespace (ObjectStore_ObjectMeta objectStore)))) ]).
  { intros pod. unfold makeRGWPodSpec. cbv zeta.
    rewrite bool_decide_eq_false_2 by apply makeDaemonContainer_not_zero.
    intros Heq. injection Heq as <-. reflexivity. }
  destruct created as [stored | err]; [| destruct (IsAlreadyExists err)];
    (eexists _, _; split; [reflexivity |]; repeat split; exact Hpod).
Qed.

Lemma createPVC_claim_metadata_witness :
  exists (pvc : PersistentVolumeClaim) (err : option error) (s' : State Store),
    createPVC (client := fakeClient) sampleObjectStore (initialState emptyStore)
    = Returns err s'
    /\ calls s' = calls (initialState emptyStore)
                  ++ [ CallCreate (ObjPersistentVolumeClaim pvc) ]
    /\ ObjectKeyFromObject KPersistentVolumeClaim pvc = dependentKey sampleObjectStore
    /\ OwnerReferences (PVC_ObjectMeta pvc) = []
    /\ Labels (PVC_ObjectMeta pvc) = ∅
    /\ Finalizers (PVC_ObjectMeta pvc) = []
    /\ (forall pod : PodTemplateSpec, makeRGWPodSpec sampleObjectStore = Ok pod ->
          map (fun v => VolumeSource_PersistentVolumeClaim (Volume_VolumeSource v))
              (Volumes (Template_Spec pod))
          = [ Some (mkPersistentVolumeClaimVolumeSource (Name (PVC_ObjectMeta pvc))) ]).
Proof.
  apply (createPVC_claim_metadata (client := fakeClient) sampleObjectStore
           sampleTemplate (initialState emptyStore)).
  reflexivity.
Defined.

Lemma IsAlreadyExists_reason (err : error) :
  IsAlreadyExists err = true <-> ReasonForError err = StatusReasonAlreadyExists.
Proof.
  unfold IsAlreadyExists. split.
  - apply bool_decide_eq_true_1.
  - apply bool_decide_eq_true_2.
Qed.

(** X13: createPVC makes the one Create call and leaves the store as that
    call left it. It returns a nil error exactly when the call succeeded or
    failed with the already-exists reason, also under wrapping; any other
    failure comes back wrapped once, with the claim's name, and keeps its
    reason. *)
Theorem createPVC_error_handling {W : Type} `{client : Client W}
    (objectStore : ObjectStore) (template : PersistentVolumeClaim) (s : State W) :
  VolumeClaimTemplate (Spec objectStore) = Some template ->
  exists (pvc : PersistentVolumeClaim) (err : option error) (s' : State W),
    createPVC objectStore s = Returns err s'
    /\ calls s' = calls s ++ [ CallCreate (ObjPersistentVolumeClaim pvc) ]
    /\ world s' = snd (clientCreate KPersistentVolumeClaim pvc (world s))
    /\ (err = None <->
        (exists stored, fst (clientCreate KPersistentVolumeClaim pvc (world s))
                        = Ok stored)
        \/ (exists e, fst (clientCreate KPersistentVolumeClaim pvc (world s)) = Err e
                      /\ ReasonForError e = StatusReasonAlreadyExists))
    /\ (forall e : error,
          fst (clientCreate KPersistentVolumeClaim pvc (world s)) = Err e ->
          ReasonForError e <> StatusReasonAlreadyExists ->
          err = Some (wrapError "failed to create PVC %q: %w"
                        [ Key_Name (dependentKey objectStore) ] e)
          /\ forall e', err = Some e' -> ReasonForError e' = ReasonForError e).
Proof.
  intros Htemplate.
  unfold createPVC. rewrite Htemplate. unfold bind, Create.
  match goal with
  | |- context [clientCreate KPersistentVolumeClaim ?p (world s)] => set (pvc := p)
  end.
  exists pvc.
  destruct (clientCreate KPersistentVolumeClaim pvc (world s)) as [created w'].
  destruct created as [stored | err].
  - eexists _, _. split; [reflexivity |]. split; [reflexivity |].
    split; [reflexivity |]. simpl. split.
    + split; [intros _; left; eauto | reflexivity].
    + intros e He. discriminate He.
  - destruct (IsAlreadyExists err) eqn:Hexists.
    + apply IsAlreadyExists_reason in Hexists.
      eexists _, _. split; [reflexivity |]. split; [reflexivity |].
      split; [reflexivity |]. simpl. split.
      * split; [intros _; right; eauto | reflexivity].
      * intros e He Hreason. injection He as <-. contradiction.
    + eexists _, _. split; [reflexivity |]. split; [reflexivity |].
      split; [reflexivity |]. simpl. split.
      * split; [discriminate |].
        intros [[stored Hok] | [e [He Hreason]]]; [discriminate Hok |].
        injection He as <-. apply IsAlreadyExists_reason in Hreason. congruence.
      * intros e He _. injection He as <-. split; [reflexivity |].
        intros e' He'. injection He' as <-. reflexivity.
Qed.

Lemma createPVC_error_handling_witness :
  exists (pvc : PersistentVolumeClaim) (err : option error) (s' : State Store),
    createPVC (client := readOnlyClient (StatusError "Forbidden" "read-only"))
      sampleObjectStore (initialState emptyStore) = Returns err s'
    /\ calls s' = calls (initialState emptyStore)
                  ++ [ CallCreate (ObjPersistentVolumeClaim pvc) ]
    /\ world s'
       = snd (clientCreate (Client := readOnlyClient (StatusError "Forbidden" "read-only"))
                KPersistentVolumeClaim pvc (world (initialState emptyStore)))
    /\ (err = None <->
        (exists stored,
           fst (clientCreate (Client := readOnlyClient (StatusError "Forbidden" "read-only"))
                  KPersistentVolumeClaim pvc (world (initialState emptyStore)))
           = Ok stored)
        \/ (exists e,
              fst (clientCreate (Client := readOnlyClient (StatusError "Forbidden" "read-only"))
                     KPersistentVolumeClaim pvc (world (initialState emptyStore)))
              = Err e
              /\ ReasonForError e = StatusReasonAlreadyExists))
    /\ (forall e : error,
          fst (clientCreate (Client := readOnlyClient (StatusError "Forbidden" "read-only"))
                 KPersistentVolumeClaim pvc (world (initialState emptyStore)))
          = Err e ->
          ReasonForError e <> StatusReasonAlreadyExists ->
          err = Some (wrapError "failed to create PVC %q: %w"
                        [ Key_Name (dependentKey sampleObjectStore) ] e)
          /\ forall e', err = Some e' -> ReasonForError e' = ReasonForError e).
Proof.
  apply (createPVC_error_handling
           (client := readOnlyClient (StatusError "Forbidden" "read-only"))
           sampleObjectStore sampleTemplate (initialState emptyStore)).
  reflexivity.
Defined.

Example createPVC_read_only_store :
  createPVC (client := readOnlyClient (StatusError "Forbidden" "read-only"))
    sampleObjectStore (initialState emptyStore)
  = Returns (Some (wrapError "failed to create PVC %q: %w" [ "rgw-store-default" ]
                     (StatusError "Forbidden" "read-only")))
      (finalState (createPVC (client := readOnlyClient (StatusError "Forbidden" "read-only"))
                     sampleObjectStore (initialState emptyStore))).
Proof. vm_compute. reflexivity. Qed.

(** X14: when the store refuses the claim for a reason other than
    already-exists, Reconcile stops there: it returns that error wrapped
    twice, its reason still readable, and has made no call for the service
    or the deployment. *)
Theorem Reconcile_stops_at_claim_failure {W : Type} `{client : Client W}
    (mapUnicodeLower : string -> string) (r : ObjectStoreReconciler)
    (req : Request) (s : State W) (objectStore : ObjectStore)
    (template : PersistentVolumeClaim) (e : error) :
  clientGet KObjectStore (Request_NamespacedName req) (world s) = Ok objectStore ->
  IsZero (DeletionTimestamp (ObjectStore_ObjectMeta objectStore)) = true ->
  VolumeClaimTemplate (Spec objectStore) = Some template ->
  (forall pvc, fst (clientCreate KPersistentVolumeClaim pvc (world s)) = Err e) ->
  IsAlreadyExists e = false ->
  exists (pvc : PersistentVolumeClaim) (returned : error) (final : ObjectStore)
         (s' : State W),
    Reconcile mapUnicodeLower r req s
    = Returns (mkResult false 0, Some returned, final) s'
    /\ returned = wrapError "failed to create PVC: %w" []
                    (wrapError "failed to create PVC %q: %w"
                       [ Key_Name (dependentKey objectStore) ] e)
    /\ ReasonForError returned = ReasonForError e
    /\ calls s' = calls s ++ [ CallGet KObjectStore (Request_NamespacedName req);
                               CallCreate (ObjPersistentVolumeClaim pvc) ].
Proof.
  intros Hget Hactive Htemplate Hrefuse Hother.
  unfold Reconcile. unfold bind at 1. unfold Get at 1. rewrite Hget, Hactive.
  cbn [negb].
  fold (withFinalizer objectStore
          (buildFinalizerName mapUnicodeLower (Kind (ObjectStore_TypeMeta objectStore)))).
  set (held := withFinalizer objectStore _).
  unfold bind at 1. unfold createPVC.
  destruct (withFinalizer_Spec objectStore
              (buildFinalizerName mapUnicodeLower
                 (Kind (ObjectStore_TypeMeta objectStore))))
    as (Hspec & _ & Hname & Hns & _).
  fold held in Hspec, Hname, Hns. rewrite Hspec, Hname, Hns, Htemplate.
  unfold bind at 1. unfold Create. cbn [world calls].
  match goal with
  | |- context [clientCreate KPersistentVolumeClaim ?p (world s)] =>
      pose proof (Hrefuse p) as Hfail;
      destruct (clientCreate KPersistentVolumeClaim p (world s)) as [created w']
  end.
  simpl in Hfail. subst created. rewrite Hother.
  eexists _, _, _, _. split; [reflexivity |]. split; [reflexivity |].
  split; [reflexivity |]. simpl. now rewrite <- app_assoc.
Qed.

Lemma Reconcile_stops_at_claim_failure_witness :
  exists (pvc : PersistentVolumeClaim) (returned : error) (final : ObjectStore)
         (s' : State Store),
    Reconcile (client := readOnlyClient (StatusError "Forbidden" "read-only"))
      (fun s => s) sampleReconciler sampleRequest
      (initialState (mkStore [ sampleObjectStore ] [] [] []))
    = Returns (mkResult false 0, Some returned, final) s'
    /\ returned = wrapError "failed to create PVC: %w" []
                    (wrapError "failed to create PVC %q: %w"
                       [ Key_Name (dependentKey sampleObjectStore) ]
                       (StatusError "Forbidden" "read-only"))
    /\ ReasonForError returned = ReasonForError (StatusError "Forbidden" "read-only")
    /\ calls s'
       = calls (initialState (mkStore [ sampleObjectStore ] [] [] []))
         ++ [ CallGet KObjectStore (Request_NamespacedName sampleRequest);
              CallCreate (ObjPersistentVolumeClaim pvc) ].
Proof.
  apply (Reconcile_stops_at_claim_failure
           (client := readOnlyClient (StatusError "Forbidden" "read-only"))
           (fun s => s) sampleReconciler sampleRequest
           (initialState (mkStore [ sampleObjectStore ] [] [] []))
           sampleObjectStore sampleTemplate (StatusError "Forbidden" "read-only")).
  - vm_compute. reflexivity.
  - reflexivity.
  - reflexivity.
  - intros pvc. reflexivity.
  - reflexivity.
Defined.

(** ** The service and the deployment: ownership and the first creation *)

Lemma SetControllerReference_fresh (owner : ObjectStore) (k : ResourceKind)
    (controlled : objType k) (scheme : Scheme) (gvk : GroupVersionKind) :
  ObjectStoreKinds scheme = [ gvk ] ->
  Namespace (metaOf k controlled) = Namespace (ObjectStore_ObjectMeta owner) ->
  OwnerReferences (metaOf k controlled) = [] ->
  SetControllerReference owner k controlled scheme
  = (setMeta k (setOwnerReferences (metaOf k controlled) [ controllerRef gvk owner ])
       controlled, None).
Proof.
  intros Hkinds Hns Hfresh.
  unfold SetControllerReference, validateOwner, GVKForObject, GetControllerOf,
    upsertOwnerRef.
  rewrite Hns, Hkinds, Hfresh. cbn [List.find upsert].
  destruct (bool_decide (Namespace (ObjectStore_ObjectMeta owner) = "")) eqn:Hempty;
    cbn [negb].
  - reflexivity.
  - rewrite bool_decide_eq_true_2 by reflexivity. reflexivity.
Qed.

Lemma SetControllerReference_unregistered (owner : ObjectStore) (k : ResourceKind)
    (controlled : objType k) (scheme : Scheme) :
  Namespace (metaOf k controlled) = Namespace (ObjectStore_ObjectMeta owner) ->
  length (ObjectStoreKinds scheme) <> 1%nat ->
  exists err : error,
    SetControllerReference owner k controlled scheme = (controlled, Some err).
Proof.
  intros Hns Hkinds.
  unfold SetControllerReference, validateOwner, GVKForObject.
  rewrite Hns.
  assert (Hvalid : (if negb (bool_decide (Namespace (ObjectStore_ObjectMeta owner) = ""))
                    then if bool_decide (Namespace (ObjectStore_ObjectMeta owner) = "")
                         then Some (errorString
                           "cluster-scoped resource must not have a namespace-scoped owner")
                         else if negb (bool_decide
                                   (Namespace (ObjectStore_ObjectMeta owner)
                                    = Namespace (ObjectStore_ObjectMeta owner)))
                              then Some (errorString
                                "cross-namespace owner references are disallowed")
                              else None
                    else None) = None).
  { destruct (bool_decide (Namespace (ObjectStore_ObjectMeta owner) = "")) eqn:Hempty;
      cbn [negb]; [reflexivity |].
    rewrite bool_decide_eq_true_2 by reflexivity. reflexivity. }
  rewrite Hvalid.
  destruct (ObjectStoreKinds scheme) as [| gvk [| gvk' rest]];
    [eexists; reflexivity | now destruct Hkinds | eexists; reflexivity].
Qed.

Lemma mutate_service_Ok (objectStore : ObjectStore) (service : Service) :
  mutate KService (reconcileService_mutateFunc objectStore)
    (ObjectKeyFromObject KService service) service
  = (fst (reconcileService_mutateFunc objectStore service), None).
Proof.
  unfold mutate, reconcileService_mutateFunc, addPort. simpl.
  rewrite bool_decide_eq_false_2; [reflexivity |]. intros Hne. now apply Hne.
Qed.

Lemma deployment_mutateFunc_shape (objectStore : ObjectStore) (deploy : Deployment) :
  exists pod : PodTemplateSpec,
    makeRGWPodSpec objectStore = Ok pod
    /\ createOrUpdateDeployment_mutateFunc objectStore deploy
       = (mkDeployment (Deployment_TypeMeta deploy) (Deployment_ObjectMeta deploy)
            (mkDeploymentSpec (Some 1)
               (Some (mkLabelSelector
                        (getLabels (Name (ObjectStore_ObjectMeta objectStore))
                           (Namespace (ObjectStore_ObjectMeta objectStore)) false)))
               pod
               (mkDeploymentStrategy RollingUpdateDeploymentStrategyType
                  (Some (mkRollingUpdateDeployment (Some (mkIntOrString 0 1 ""))
                                                   (Some (mkIntOrString 0 0 "")))))),
          None).
Proof.
  destruct (makeRGWPodSpec_Ok objectStore) as [pod [Hpod _]].
  exists pod. split; [exact Hpod |].
  unfold createOrUpdateDeployment_mutateFunc. rewrite Hpod. reflexivity.
Qed.

Lemma mutate_deployment_Ok (objectStore : ObjectStore) (deploy : Deployment) :
  mutate KDeployment (createOrUpdateDeployment_mutateFunc objectStore)
    (ObjectKeyFromObject KDeployment deploy) deploy
  = (fst (createOrUpdateDeployment_mutateFunc objectStore deploy), None).
Proof.
  destruct (deployment_mutateFunc_shape objectStore deploy) as (pod & _ & Hshape).
  unfold mutate. rewrite Hshape. cbn [fst].
  rewrite bool_decide_eq_false_2; [reflexivity |]. intros Hne. now apply Hne.
Qed.

(** X15: with the ObjectStore's kind registered once in the scheme and no
    service yet under the shared key, reconcileService reads that key and
    creates one service: under that key, labelled and selecting by
    object_store, with the single http port, and owned by the ObjectStore
    through one controller reference that blocks owner deletion. If the store
    accepts it, the address the store assigned is returned. *)
Theorem reconcileService_creates_owned_service {W : Type} `{client : Client W}
    (r : ObjectStoreReconciler) (objectStore : ObjectStore) (s : State W)
    (gvk : GroupVersionKind) (e : error) :
  ObjectStoreKinds (Reconciler_Scheme r) = [ gvk ] ->
  clientGet KService (dependentKey objectStore) (world s) = Err e ->
  IsNotFound e = true ->
  exists (svc : Service) (res : string * option error) (s' : State W),
    reconcileService r objectStore s = Returns res s'
    /\ calls s' = calls s ++ [ CallGet KService (dependentKey objectStore);
                               CallCreate (ObjService svc) ]
    /\ ObjectKeyFromObject KService svc = dependentKey objectStore
    /\ OwnerReferences (Service_ObjectMeta svc) = [ controllerRef gvk objectStore ]
    /\ Owner_Controller (controllerRef gvk objectStore) = Some true
    /\ Owner_UID (controllerRef gvk objectStore) = UID (ObjectStore_ObjectMeta objectStore)
    /\ Labels (Service_ObjectMeta svc)
       = {[ "object_store" := Name (ObjectStore_ObjectMeta objectStore) ]}
    /\ Service_Spec svc
       = mkServiceSpec [ httpPort ]
           {[ "object_store" := Name (ObjectStore_ObjectMeta objectStore) ]} "" ""
    /\ (forall stored : Service,
          fst (clientCreate KService svc (world s)) = Ok stored ->
          res = (ClusterIP (Service_Spec stored), None))
    /\ (forall e' : error,
          fst (clientCreate KService svc (world s)) = Err e' ->
          fst res = "" /\ exists wrapped, snd res = Some wrapped
                          /\ ReasonForError wrapped = ReasonForError e').
Proof.
  intros Hkinds Hget Hnf.
  unfold reconcileService.
  rewrite (SetControllerReference_fresh objectStore KService
             (generateService objectStore) _ gvk Hkinds eq_refl eq_refl).
  unfold bind at 1. unfold CreateOrUpdate. unfold bind at 1. unfold Get at 1.
  change (ObjectKeyFromObject KService
            (setMeta KService
               (setOwnerReferences (metaOf KService (generateService objectStore))
                  [ controllerRef gvk objectStore ]) (generateService objectStore)))
    with (dependentKey objectStore).
  rewrite Hget, Hnf. cbn [negb].
  match goal with
  | |- context [mutate KService ?f (dependentKey objectStore) ?o] =>
      change (mutate KService f (dependentKey objectStore) o)
        with (mutate KService f (ObjectKeyFromObject KService o) o);
      rewrite (mutate_service_Ok objectStore o);
      set (svc := fst (reconcileService_mutateFunc objectStore o))
  end.
  exists svc. unfold bind, Create. cbn [world calls].
  destruct (clientCreate KService svc (world s)) as [[stored | e'] w'];
    (eexists _, _; split; [reflexivity |];
     split; [simpl; now rewrite <- app_assoc |];
     repeat (split; [reflexivity |]); cbn [fst]; split).
  - intros stored' Heq. injection Heq as <-. reflexivity.
  - intros e' Heq. discriminate Heq.
  - intros stored Heq. discriminate Heq.
  - intros e'' Heq. injection Heq as <-. split; [reflexivity |].
    eexists. split; reflexivity.
Qed.

Lemma reconcileService_creates_owned_service_witness :
  exists (svc : Service) (res : string * option error) (s' : State Store),
    reconcileService (client := fakeClient) sampleReconciler sampleObjectStore
      (initialState emptyStore) = Returns res s'
    /\ calls s' = calls (initialState emptyStore)
                  ++ [ CallGet KService (dependentKey sampleObjectStore);
                       CallCreate (ObjService svc) ]
    /\ ObjectKeyFromObject KService svc = dependentKey sampleObjectStore
    /\ OwnerReferences (Service_ObjectMeta svc)
       = [ controllerRef
             (mkGroupVersionKind "object.rook-s3-nano" "v1alpha1" "ObjectStore")
             sampleObjectStore ]
    /\ Owner_Controller
         (controllerRef
            (mkGroupVersionKind "object.rook-s3-nano" "v1alpha1" "ObjectStore")
            sampleObjectStore) = Some true
    /\ Owner_UID
         (controllerRef
            (mkGroupVersionKind "object.rook-s3-nano" "v1alpha1" "ObjectStore")
            sampleObjectStore) = UID (ObjectStore_ObjectMeta sampleObjectStore)
    /\ Labels (Service_ObjectMeta svc)
       = {[ "object_store" := Name (ObjectStore_ObjectMeta sampleObjectStore) ]}
    /\ Service_Spec svc
       = mkServiceSpec [ httpPort ]
           {[ "object_store" := Name (ObjectStore_ObjectMeta sampleObjectStore) ]} "" ""
    /\ (forall stored : Service,
          fst (clientCreate (Client := fakeClient) KService svc
                 (world (initialState emptyStore))) = Ok stored ->
          res = (ClusterIP (Service_Spec stored), None))
    /\ (forall e' : error,
          fst (clientCreate (Client := fakeClient) KService svc
                 (world (initialState emptyStore))) = Err e' ->
          fst res = "" /\ exists wrapped, snd res = Some wrapped
                          /\ ReasonForError wrapped = ReasonForError e').
Proof.
  apply (reconcileService_creates_owned_service (client := fakeClient)
           sampleReconciler sampleObjectStore (initialState emptyStore)
           (mkGroupVersionKind "object.rook-s3-nano" "v1alpha1" "ObjectStore")
           (StatusError StatusReasonNotFound "not found")).
  - reflexivity.
  - reflexivity.
  - reflexivity.
Defined.

(** X16: with the kind registered once and no deployment yet under the
    shared key, createOrUpdateDeployment reads that key and creates one
    deployment: under that key, owned by the ObjectStore through one
    controller reference, with one replica, the rolling-update strategy that
    takes the old pod down first, the selector on object_store and the pod
    template of makeRGWPodSpec. It reports [created] if the store accepts it
    and otherwise hands the store's error back as it is, not wrapped. *)
Theorem createOrUpdateDeployment_creates_owned_deployment
    {W : Type} `{client : Client W}
    (r : ObjectStoreReconciler) (objectStore : ObjectStore) (s : State W)
    (gvk : GroupVersionKind) (e : error) :
  ObjectStoreKinds (Reconciler_Scheme r) = [ gvk ] ->
  clientGet KDeployment (dependentKey objectStore) (world s) = Err e ->
  IsNotFound e = true ->
  exists (dep : Deployment) (pod : PodTemplateSpec)
         (res : OperationResult * option error) (s' : State W),
    createOrUpdateDeployment r objectStore s = Returns res s'
    /\ calls s' = calls s ++ [ CallGet KDeployment (dependentKey objectStore);
                               CallCreate (ObjDeployment dep) ]
    /\ ObjectKeyFromObject KDeployment dep = dependentKey objectStore
    /\ OwnerReferences (Deployment_ObjectMeta dep) = [ controllerRef gvk objectStore ]
    /\ makeRGWPodSpec objectStore = Ok pod
    /\ Deployment_Spec dep
       = mkDeploymentSpec (Some 1)
           (Some (mkLabelSelector
                    {[ "object_store" := Name (ObjectStore_ObjectMeta objectStore) ]}))
           pod
           (mkDeploymentStrategy "RollingUpdate"
              (Some (mkRollingUpdateDeployment (Some (mkIntOrString 0 1 ""))
                                               (Some (mkIntOrString 0 0 "")))))
    /\ (forall stored : Deployment,
          fst (clientCreate KDeployment dep (world s)) = Ok stored ->
          res = ("created", None))
    /\ (forall e' : error,
          fst (clientCreate KDeployment dep (world s)) = Err e' ->
          res = ("unchanged", Some e')).
Proof.
  intros Hkinds Hget Hnf.
  unfold createOrUpdateDeployment.
  match goal with
  | |- context [SetControllerReference objectStore KDeployment ?d _] =>
      rewrite (SetControllerReference_fresh objectStore KDeployment d _ gvk
                 Hkinds eq_refl eq_refl);
      set (fresh := d)
  end.
  unfold bind at 1. unfold CreateOrUpdate. unfold bind at 1. unfold Get at 1.
  change (ObjectKeyFromObject KDeployment
            (setMeta KDeployment
               (setOwnerReferences (metaOf KDeployment fresh)
                  [ controllerRef gvk objectStore ]) fresh))
    with (dependentKey objectStore).
  rewrite Hget, Hnf. cbn [negb].
  match goal with
  | |- context [mutate KDeployment ?f (dependentKey objectStore) ?o] =>
      change (mutate KDeployment f (dependentKey objectStore) o)
        with (mutate KDeployment f (ObjectKeyFromObject KDeployment o) o);
      rewrite (mutate_deployment_Ok objectStore o);
      destruct (deployment_mutateFunc_shape objectStore o) as (pod & Hpod & Hshape);
      rewrite Hshape
  end.
  cbn [fst].
  match goal with
  | |- context [Create KDeployment ?d] => set (dep := d)
  end.
  exists dep, pod. unfold bind, Create. cbn [world calls].
  destruct (clientCreate KDeployment dep (world s)) as [[stored | e'] w'];
    (eexists _, _; split; [reflexivity |];
     split; [simpl; now rewrite <- app_assoc |];
     split; [reflexivity |]; split; [reflexivity |]; split; [exact Hpod |];
     split; [reflexivity |]; cbn [fst]; split).
  - intros stored' _. reflexivity.
  - intros e' Heq. cbn [fst] in Heq. discriminate Heq.
  - intros stored Heq. cbn [fst] in Heq. discriminate Heq.
  - intros e'' Heq. cbn [fst] in Heq. injection Heq as <-. reflexivity.
Qed.

Lemma createOrUpdateDeployment_creates_owned_deployment_witness :
  exists (dep : Deployment) (pod : PodTemplateSpec)
         (res : OperationResult * option error) (s' : State Store),
    createOrUpdateDeployment (client := fakeClient) sampleReconciler sampleObjectStore
      (initialState emptyStore) = Returns res s'
    /\ calls s' = calls (initialState emptyStore)
                  ++ [ CallGet KDeployment (dependentKey sampleObjectStore);
                       CallCreate (ObjDeployment dep) ]
    /\ ObjectKeyFromObject KDeployment dep = dependentKey sampleObjectStore
    /\ OwnerReferences (Deployment_ObjectMeta dep)
       = [ controllerRef
             (mkGroupVersionKind "object.rook-s3-nano" "v1alpha1" "ObjectStore")
             sampleObjectStore ]
    /\ makeRGWPodSpec sampleObjectStore = Ok pod
    /\ Deployment_Spec dep
       = mkDeploymentSpec (Some 1)
           (Some (mkLabelSelector
                    {[ "object_store" := Name (ObjectStore_ObjectMeta sampleObjectStore) ]}))
           pod
           (mkDeploymentStrategy "RollingUpdate"
              (Some (mkRollingUpdateDeployment (Some (mkIntOrString 0 1 ""))
                                               (Some (mkIntOrString 0 0 "")))))
    /\ (forall stored : Deployment,
          fst (clientCreate (Client := fakeClient) KDeployment dep
                 (world (initialState emptyStore))) = Ok stored ->
          res = ("created", None))
    /\ (forall e' : error,
          fst (clientCreate (Client := fakeClient) KDeployment dep
                 (world (initialState emptyStore))) = Err e' ->
          res = ("unchanged", Some e')).
Proof.
  apply (createOrUpdateDeployment_creates_owned_deployment (client := fakeClient)
           sampleReconciler sampleObjectStore (initialState emptyStore)
           (mkGroupVersionKind "object.rook-s3-nano" "v1alpha1" "ObjectStore")
           (StatusError StatusReasonNotFound "not found")).
  - reflexivity.
  - reflexivity.
  - reflexivity.
Defined.

(** X17: when the scheme does not hold exactly one kind for the ObjectStore
    type, neither step reaches the store: reconcileService and
    createOrUpdateDeployment each return at once, in the state they were
    called in, with the owner-reference error wrapped under the shared name;
    the operation result of the deployment step is then the empty string,
    none of the three results. *)
Theorem unregistered_kind_stops_before_the_store {W : Type} `{client : Client W}
    (r : ObjectStoreReconciler) (objectStore : ObjectStore) (s : State W) :
  length (ObjectStoreKinds (Reconciler_Scheme r)) <> 1%nat ->
  exists e1 e2 : error,
    reconcileService r objectStore s
    = Returns ("", Some (wrapError "failed to set owner reference to service %q: %w"
                           [ Key_Name (dependentKey objectStore) ] e1)) s
    /\ createOrUpdateDeployment r objectStore s
       = Returns ("", Some (wrapError
                              "failed to set owner reference to deployment %q: %w"
                              [ Key_Name (dependentKey objectStore) ] e2)) s.
Proof.
  intros Hkinds.
  unfold reconcileService, createOrUpdateDeployment.
  destruct (SetControllerReference_unregistered objectStore KService
              (generateService objectStore) (Reconciler_Scheme r) eq_refl Hkinds)
    as [e1 He1].
  rewrite He1.
  match goal with
  | |- context [SetControllerReference objectStore KDeployment ?d _] =>
      destruct (SetControllerReference_unregistered objectStore KDeployment d
                  (Reconciler_Scheme r) eq_refl Hkinds) as [e2 He2];
      rewrite He2
  end.
  exists e1, e2. split; reflexivity.
Qed.

Lemma unregistered_kind_stops_before_the_store_witness :
  exists e1 e2 : error,
    reconcileService (client := fakeClient)
      (mkObjectStoreReconciler (mkScheme [])) sampleObjectStore (initialState emptyStore)
    = Returns ("", Some (wrapError "failed to set owner reference to service %q: %w"
                           [ Key_Name (dependentKey sampleObjectStore) ] e1))
        (initialState emptyStore)
    /\ createOrUpdateDeployment (client := fakeClient)
         (mkObjectStoreReconciler (mkScheme [])) sampleObjectStore
         (initialState emptyStore)
       = Returns ("", Some (wrapError
                              "failed to set owner reference to deployment %q: %w"
                              [ Key_Name (dependentKey sampleObjectStore) ] e2))
           (initialState emptyStore).
Proof.
  apply (unregistered_kind_stops_before_the_store (client := fakeClient)
           (mkObjectStoreReconciler (mkScheme [])) sampleObjectStore
           (initialState emptyStore)).
  simpl. lia.
Defined.

(** ** The engine on the in-memory store: convergence *)

Lemma bucket_setBucket (k : ResourceKind) (l : list (objType k)) (w : Store) :
  bucket k (setBucket k l w) = l.
Proof. destruct k; reflexivity. Qed.

Lemma bucket_setBucket_other (k k' : ResourceKind) (l : list (objType k)) (w : Store) :
  k' <> k -> bucket k' (setBucket k l w) = bucket k' w.
Proof. destruct k, k'; intros Hne; try reflexivity; now destruct Hne. Qed.

Lemma hasKey_true (k : ResourceKind) (key : NamespacedName) (o : objType k) :
  hasKey k key o = true <-> ObjectKeyFromObject k o = key.
Proof.
  unfold hasKey. split; [apply bool_decide_eq_true_1 | apply bool_decide_eq_true_2].
Qed.

Lemma find_app_new {A : Type} (p : A -> bool) (l : list A) (x : A) :
  List.find p l = None -> p x = true -> List.find p (l ++ [ x ]) = Some x.
Proof.
  intros Hnone Hx. induction l as [| y l IH]; simpl in *.
  - now rewrite Hx.
  - destruct (p y); [discriminate | now apply IH].
Qed.

Lemma find_map_replace {A : Type} (p : A -> bool) (l : list A) (e x : A) :
  List.find p l = Some e -> p x = true ->
  List.find p (map (fun o => if p o then x else o) l) = Some x.
Proof.
  intros Hfind Hx. induction l as [| y l IH]; simpl in *; [discriminate |].
  destruct (p y) eqn:Hy.
  - now rewrite Hx.
  - rewrite Hy. now apply IH.
Qed.

(** A create-or-update against the in-memory store, with a mutate function
    [f] that acts as [g] and keeps the key: it succeeds, and afterwards the
    store holds under the key an object that [g] produced; the objects of
    other kinds are as they were. *)
Lemma fake_CreateOrUpdate_converges (k : ResourceKind) (obj : objType k)
    (f : objType k -> objType k * option error) (g : objType k -> objType k)
    (w : Store) (cs : list Call) :
  (forall x, mutate k f (ObjectKeyFromObject k x) x = (g x, None)) ->
  (forall x, ObjectKeyFromObject k (g x) = ObjectKeyFromObject k x) ->
  exists (op : OperationResult) (st : objType k) (s' : State Store) (base : objType k),
    CreateOrUpdate (client := fakeClient) k obj f (mkState w cs) = Returns (op, None, st) s'
    /\ List.find (hasKey k (ObjectKeyFromObject k obj)) (bucket k (world s')) = Some st
    /\ st = g base
    /\ (forall k', k' <> k -> bucket k' (world s') = bucket k' w).
Proof.
  intros Hmut Hkey.
  set (key := ObjectKeyFromObject k obj).
  unfold CreateOrUpdate, bind, Get. fold key.
  cbn [world calls clientGet fakeClient].
  unfold fakeGet.
  destruct (List.find (hasKey k key) (bucket k w)) as [existing |] eqn:Hfind.
  - assert (Hek : ObjectKeyFromObject k existing = key).
    { apply List.find_some in Hfind. now apply hasKey_true. }
    assert (Hm : mutate k f key existing = (g existing, None))
      by (rewrite <- Hek; apply Hmut).
    rewrite Hm.
    destruct (bool_decide (existing = g existing)) eqn:Hsame.
    + apply bool_decide_eq_true_1 in Hsame.
      eexists _, _, _, existing. split; [reflexivity |].
      split; [simpl; now rewrite <- Hsame |]. split; [reflexivity |].
      intros k' _. reflexivity.
    + unfold Update. cbn [world calls clientUpdate fakeClient].
      unfold fakeUpdate. rewrite Hkey, Hek, Hfind.
      eexists _, _, _, existing. split; [reflexivity |].
      split.
      { cbn [world]. rewrite bucket_setBucket.
        apply (find_map_replace _ _ existing); [exact Hfind |].
        apply hasKey_true. now rewrite Hkey. }
      split; [reflexivity |].
      intros k' Hne. cbn [world]. now apply bucket_setBucket_other.
  - change (IsNotFound (StatusError StatusReasonNotFound "not found")) with true.
    cbn [negb].
    assert (Hm : mutate k f key obj = (g obj, None)) by apply Hmut.
    rewrite Hm. unfold Create. cbn [world calls clientCreate fakeClient].
    unfold fakeCreate. rewrite Hkey. fold key. rewrite Hfind.
    eexists _, _, _, obj. split; [reflexivity |].
    split.
    { cbn [world]. rewrite bucket_setBucket.
      apply find_app_new; [exact Hfind |].
      apply hasKey_true. now rewrite Hkey. }
    split; [reflexivity |].
    intros k' Hne. cbn [world]. now apply bucket_setBucket_other.
Qed.

(** Once the store holds under the key an object that [g] leaves as it is,
    a create-or-update reads it and writes nothing. *)
Lemma fake_CreateOrUpdate_stable (k : ResourceKind) (obj st : objType k)
    (f : objType k -> objType k * option error) (g : objType k -> objType k)
    (w : Store) (cs : list Call) :
  (forall x, mutate k f (ObjectKeyFromObject k x) x = (g x, None)) ->
  List.find (hasKey k (ObjectKeyFromObject k obj)) (bucket k w) = Some st ->
  g st = st ->
  CreateOrUpdate (client := fakeClient) k obj f (mkState w cs)
  = Returns (OperationResultNone, None, st)
      (mkState w (cs ++ [ CallGet k (ObjectKeyFromObject k obj) ])).
Proof.
  intros Hmut Hfind Hfix.
  set (key := ObjectKeyFromObject k obj) in *.
  unfold CreateOrUpdate, bind, Get. fold key.
  cbn [world calls clientGet fakeClient].
  unfold fakeGet. rewrite Hfind.
  assert (Hek : ObjectKeyFromObject k st = key).
  { apply List.find_some in Hfind. now apply hasKey_true. }
  assert (Hm : mutate k f key st = (st, None)).
  { rewrite <- Hek. rewrite Hmut. now rewrite Hfix. }
  rewrite Hm.
  rewrite bool_decide_eq_true_2 by reflexivity. reflexivity.
Qed.

Lemma fakeGet_find (k : ResourceKind) (key : NamespacedName) (w : Store)
    (o : objType k) :
  fakeGet k key w = Ok o <-> List.find (hasKey k key) (bucket k w) = Some o.
Proof.
  unfold fakeGet. destruct (List.find _ _); split; intros Heq;
    try discriminate; now injection Heq as ->.
Qed.

Lemma fake_createPVC (objectStore : ObjectStore) (template : PersistentVolumeClaim)
    (w : Store) (cs : list Call) :
  VolumeClaimTemplate (Spec objectStore) = Some template ->
  exists (s' : State Store) (sent stored : PersistentVolumeClaim),
    createPVC (client := fakeClient) objectStore (mkState w cs) = Returns None s'
    /\ calls s' = cs ++ [ CallCreate (ObjPersistentVolumeClaim sent) ]
    /\ fakeGet KPersistentVolumeClaim (dependentKey objectStore) (world s') = Ok stored
    /\ (forall p, fakeGet KPersistentVolumeClaim (dependentKey objectStore) w = Ok p ->
          world s' = w)
    /\ (forall k', k' <> KPersistentVolumeClaim -> bucket k' (world s') = bucket k' w).
Proof.
  intros Htemplate.
  unfold createPVC. rewrite Htemplate. unfold bind, Create.
  cbn [world calls clientCreate fakeClient]. unfold fakeCreate.
  match goal with
  | |- context [List.find (hasKey KPersistentVolumeClaim (ObjectKeyFromObject _ ?p)) _] =>
      set (pvc := p);
      change (ObjectKeyFromObject KPersistentVolumeClaim pvc)
        with (dependentKey objectStore)
  end.
  destruct (List.find (hasKey KPersistentVolumeClaim (dependentKey objectStore))
              (bucket KPersistentVolumeClaim w)) as [existing |] eqn:Hfind.
  - change (IsAlreadyExists (StatusError StatusReasonAlreadyExists "already exists"))
      with true.
    exists (mkState w (cs ++ [ CallCreate (ObjPersistentVolumeClaim pvc) ])), pvc, existing.
    split; [reflexivity |]. split; [reflexivity |].
    split; [now apply fakeGet_find |]. split; [reflexivity |]. reflexivity.
  - eexists _, pvc, pvc. split; [reflexivity |]. split; [reflexivity |].
    cbn [world]. split.
    { apply fakeGet_find. rewrite bucket_setBucket.
      apply find_app_new; [exact Hfind |]. now apply hasKey_true. }
    split.
    { intros p Hget. apply fakeGet_find in Hget. congruence. }
    intros k' Hne. now apply bucket_setBucket_other.
Qed.

Lemma fake_reconcileService (r : ObjectStoreReconciler) (objectStore : ObjectStore)
    (gvk : GroupVersionKind) (w : Store) (cs : list Call) :
  ObjectStoreKinds (Reconciler_Scheme r) = [ gvk ] ->
  exists (ip : string) (s' : State Store) (svc : Service),
    reconcileService (client := fakeClient) r objectStore (mkState w cs)
    = Returns (ip, None) s'
    /\ fakeGet KService (dependentKey objectStore) (world s') = Ok svc
    /\ fst (reconcileService_mutateFunc objectStore svc) = svc
    /\ (forall k', k' <> KService -> bucket k' (world s') = bucket k' w).
Proof.
  intros Hkinds. unfold reconcileService.
  rewrite (SetControllerReference_fresh objectStore KService
             (generateService objectStore) _ gvk Hkinds eq_refl eq_refl).
  match goal with
  | |- context [CreateOrUpdate KService ?o ?f] =>
      destruct (fake_CreateOrUpdate_converges KService o f (fun x => fst (f x)) w cs)
        as (op & st & s' & base & Hrun & Hfind & Hst & Hframe);
      [ intros x; apply mutate_service_Ok | intros x; reflexivity | ]
  end.
  unfold bind. rewrite Hrun.
  eexists _, s', st. split; [reflexivity |].
  split; [apply fakeGet_find; exact Hfind |].
  split; [rewrite Hst; reflexivity | exact Hframe].
Qed.

Lemma fake_reconcileService_stable (r : ObjectStoreReconciler)
    (objectStore : ObjectStore) (gvk : GroupVersionKind) (w : Store)
    (cs : list Call) (svc : Service) :
  ObjectStoreKinds (Reconciler_Scheme r) = [ gvk ] ->
  fakeGet KService (dependentKey objectStore) w = Ok svc ->
  fst (reconcileService_mutateFunc objectStore svc) = svc ->
  reconcileService (client := fakeClient) r objectStore (mkState w cs)
  = Returns (ClusterIP (Service_Spec svc), None)
      (mkState w (cs ++ [ CallGet KService (dependentKey objectStore) ])).
Proof.
  intros Hkinds Hget Hfix. unfold reconcileService.
  rewrite (SetControllerReference_fresh objectStore KService
             (generateService objectStore) _ gvk Hkinds eq_refl eq_refl).
  unfold bind.
  match goal with
  | |- context [CreateOrUpdate KService ?o ?f] =>
      rewrite (fake_CreateOrUpdate_stable KService o svc f (fun x => fst (f x)) w cs)
  end.
  - reflexivity.
  - intros x. apply mutate_service_Ok.
  - apply fakeGet_find. exact Hget.
  - exact Hfix.
Qed.

Lemma deployment_mutateFunc_keeps_key (objectStore : ObjectStore) (deploy : Deployment) :
  ObjectKeyFromObject KDeployment
    (fst (createOrUpdateDeployment_mutateFunc objectStore deploy))
  = ObjectKeyFromObject KDeployment deploy.
Proof.
  destruct (deployment_mutateFunc_shape objectStore deploy) as (pod & _ & Hshape).
  now rewrite Hshape.
Qed.

Lemma fake_createOrUpdateDeployment (r : ObjectStoreReconciler)
    (objectStore : ObjectStore) (gvk : GroupVersionKind) (w : Store) (cs : list Call) :
  ObjectStoreKinds (Reconciler_Scheme r) = [ gvk ] ->
  exists (op : OperationResult) (s' : State Store) (dep : Deployment),
    createOrUpdateDeployment (client := fakeClient) r objectStore (mkState w cs)
    = Returns (op, None) s'
    /\ fakeGet KDeployment (dependentKey objectStore) (world s') = Ok dep
    /\ fst (createOrUpdateDeployment_mutateFunc objectStore dep) = dep
    /\ (forall k', k' <> KDeployment -> bucket k' (world s') = bucket k' w).
Proof.
  intros Hkinds. unfold createOrUpdateDeployment.
  match goal with
  | |- context [SetControllerReference objectStore KDeployment ?d _] =>
      rewrite (SetControllerReference_fresh objectStore KDeployment d _ gvk
                 Hkinds eq_refl eq_refl)
  end.
  match goal with
  | |- context [CreateOrUpdate KDeployment ?o ?f] =>
      destruct (fake_CreateOrUpdate_converges KDeployment o f (fun x => fst (f x)) w cs)
        as (op & st & s' & base & Hrun & Hfind & Hst & Hframe);
      [ intros x; apply mutate_deployment_Ok
      | intros x; apply deployment_mutateFunc_keeps_key | ]
  end.
  unfold bind. rewrite Hrun.
  eexists _, s', st. split; [reflexivity |].
  split; [apply fakeGet_find; exact Hfind |].
  split; [| exact Hframe].
  rewrite Hst. now rewrite deployment_mutateFunc_again.
Qed.

Lemma fake_createOrUpdateDeployment_stable (r : ObjectStoreReconciler)
    (objectStore : ObjectStore) (gvk : GroupVersionKind) (w : Store)
    (cs : list Call) (dep : Deployment) :
  ObjectStoreKinds (Reconciler_Scheme r) = [ gvk ] ->
  fakeGet KDeployment (dependentKey objectStore) w = Ok dep ->
  fst (createOrUpdateDeployment_mutateFunc objectStore dep) = dep ->
  createOrUpdateDeployment (client := fakeClient) r objectStore (mkState w cs)
  = Returns (OperationResultNone, None)
      (mkState w (cs ++ [ CallGet KDeployment (dependentKey objectStore) ])).
Proof.
  intros Hkinds Hget Hfix. unfold createOrUpdateDeployment.
  match goal with
  | |- context [SetControllerReference objectStore KDeployment ?d _] =>
      rewrite (SetControllerReference_fresh objectStore KDeployment d _ gvk
                 Hkinds eq_refl eq_refl)
  end.
  unfold bind.
  match goal with
  | |- context [CreateOrUpdate KDeployment ?o ?f] =>
      rewrite (fake_CreateOrUpdate_stable KDeployment o dep f (fun x => fst (f x)) w cs)
  end.
  - reflexivity.
  - intros x. apply mutate_deployment_Ok.
  - apply fakeGet_find. exact Hget.
  - exact Hfix.
Qed.

Lemma fakeGet_bucket (k : ResourceKind) (key : NamespacedName) (w w' : Store) :
  bucket k w' = bucket k w -> fakeGet k key w' = fakeGet k key w.
Proof. intros Heq. unfold fakeGet. now rewrite Heq. Qed.

Lemma withFinalizer_builders (o : ObjectStore) (finalizer : string) :
  dependentKey (withFinalizer o finalizer) = dependentKey o
  /\ (forall x, reconcileService_mutateFunc (withFinalizer o finalizer) x
                = reconcileService_mutateFunc o x)
  /\ (forall x, createOrUpdateDeployment_mutateFunc (withFinalizer o finalizer) x
                = createOrUpdateDeployment_mutateFunc o x)
  /\ makeRGWPodSpec (withFinalizer o finalizer) = makeRGWPodSpec o.
Proof.
  unfold withFinalizer, AddFinalizer, ContainsFinalizer.
  destruct (existsb _ _); cbn [negb]; repeat split.
Qed.

Lemma converged_withFinalizer (o : ObjectStore) (finalizer : string) (w : Store) :
  converged (withFinalizer o finalizer) w <-> converged o w.
Proof.
  destruct (withFinalizer_builders o finalizer) as (Hkey & Hsvc & Hdep & _).
  unfold converged. rewrite Hkey.
  split; intros (Hp & (svc & Hs1 & Hs2) & (dep & Hd1 & Hd2));
    (split; [exact Hp |]; split;
     [exists svc; split; [exact Hs1 |] | exists dep; split; [exact Hd1 |]]);
    congruence.
Qed.

(** X18: against the in-memory store, with the kind registered once, an
    ObjectStore that is found, is not being deleted and carries a claim
    template is reconciled without error from any store whatever, and the
    store has then converged for it: a claim, the service and the deployment
    are found under the shared key, the last two in the state their mutate
    functions produce. The ObjectStore in the store is as it was: the
    finalizer stays in the engine's memory. *)
Theorem Reconcile_converges_in_memory (mapUnicodeLower : string -> string)
    (r : ObjectStoreReconciler) (req : Request) (w : Store) (cs : list Call)
    (objectStore : ObjectStore) (template : PersistentVolumeClaim)
    (gvk : GroupVersionKind) :
  fakeGet KObjectStore (Request_NamespacedName req) w = Ok objectStore ->
  IsZero (DeletionTimestamp (ObjectStore_ObjectMeta objectStore)) = true ->
  VolumeClaimTemplate (Spec objectStore) = Some template ->
  ObjectStoreKinds (Reconciler_Scheme r) = [ gvk ] ->
  exists (final : ObjectStore) (s' : State Store),
    Reconcile (client := fakeClient) mapUnicodeLower r req (mkState w cs)
    = Returns (mkResult false 0, None, final) s'
    /\ converged objectStore (world s')
    /\ objectStores (world s') = objectStores w
    /\ fakeGet KObjectStore (Request_NamespacedName req) (world s') = Ok objectStore.
Proof.
  intros Hget Hactive Htemplate Hkinds.
  unfold Reconcile. unfold bind at 1. unfold Get at 1.
  cbn [world calls clientGet fakeClient]. rewrite Hget, Hactive. cbn [negb].
  fold (withFinalizer objectStore
          (buildFinalizerName mapUnicodeLower (Kind (ObjectStore_TypeMeta objectStore)))).
  set (held := withFinalizer objectStore _).
  assert (Hheld : VolumeClaimTemplate (Spec held) = Some template).
  { unfold held. destruct (withFinalizer_Spec objectStore
      (buildFinalizerName mapUnicodeLower (Kind (ObjectStore_TypeMeta objectStore))))
      as [-> _]. exact Htemplate. }
  destruct (fake_createPVC held template w
              (cs ++ [ CallGet KObjectStore (Request_NamespacedName req) ]) Hheld)
    as ([w1 cs1] & sent & stored & Hpvc & _ & Hclaim & _ & Hframe1).
  unfold bind at 1. rewrite Hpvc.
  destruct (fake_reconcileService r held gvk w1 cs1 Hkinds)
    as (ip & [w2 cs2] & svc & Hsvc & Hservice & Hsfix & Hframe2).
  unfold bind at 1. rewrite Hsvc. cbn [snd].
  destruct (fake_createOrUpdateDeployment r held gvk w2 cs2 Hkinds)
    as (op & [w3 cs3] & dep & Hdep & Hdeployment & Hdfix & Hframe3).
  unfold bind at 1. rewrite Hdep. cbn [snd].
  cbn [world] in *.
  eexists _, _. split; [reflexivity |]. cbn [world].
  assert (Hstores : objectStores w3 = objectStores w).
  { change (bucket KObjectStore w3 = bucket KObjectStore w).
    rewrite Hframe3, Hframe2, Hframe1 by discriminate. reflexivity. }
  split.
  { apply (converged_withFinalizer objectStore
             (buildFinalizerName mapUnicodeLower
                (Kind (ObjectStore_TypeMeta objectStore)))).
    fold held. split; [| split].
    - exists stored. rewrite <- Hclaim. apply fakeGet_bucket.
      rewrite Hframe3, Hframe2 by discriminate. reflexivity.
    - exists svc. split; [| exact Hsfix]. rewrite <- Hservice.
      apply fakeGet_bucket. now rewrite Hframe3 by discriminate.
    - exists dep. split; [exact Hdeployment | exact Hdfix]. }
  split; [exact Hstores |].
  rewrite <- Hget. apply fakeGet_bucket. exact Hstores.
Qed.

Lemma Reconcile_converges_in_memory_witness :
  exists (final : ObjectStore) (s' : State Store),
    Reconcile (client := fakeClient) (fun s => s) sampleReconciler sampleRequest
      (mkState (mkStore [ sampleObjectStore ] [] [] []) [])
    = Returns (mkResult false 0, None, final) s'
    /\ converged sampleObjectStore (world s')
    /\ objectStores (world s') = objectStores (mkStore [ sampleObjectStore ] [] [] [])
    /\ fakeGet KObjectStore (Request_NamespacedName sampleRequest) (world s')
       = Ok sampleObjectStore.
Proof.
  apply (Reconcile_converges_in_memory (fun s => s) sampleReconciler sampleRequest
           (mkStore [ sampleObjectStore ] [] [] []) [] sampleObjectStore
           sampleTemplate
           (mkGroupVersionKind "object.rook-s3-nano" "v1alpha1" "ObjectStore")).
  - vm_compute. reflexivity.
  - reflexivity.
  - reflexivity.
  - reflexivity.
Defined.

(** X19: against the in-memory store, reconciling an ObjectStore for which
    the store has already converged changes nothing: the invocation succeeds
    and makes four calls, the read of the ObjectStore, the Create of the
    claim, which the store refuses as already existing, and the reads of the
    service and of the deployment; no update is sent and the store is left
    exactly as it was. *)
Theorem Reconcile_idempotent_in_memory (mapUnicodeLower : string -> string)
    (r : ObjectStoreReconciler) (req : Request) (w : Store) (cs : list Call)
    (objectStore : ObjectStore) (template : PersistentVolumeClaim)
    (gvk : GroupVersionKind) :
  fakeGet KObjectStore (Request_NamespacedName req) w = Ok objectStore ->
  IsZero (DeletionTimestamp (ObjectStore_ObjectMeta objectStore)) = true ->
  VolumeClaimTemplate (Spec objectStore) = Some template ->
  ObjectStoreKinds (Reconciler_Scheme r) = [ gvk ] ->
  converged objectStore w ->
  exists (final : ObjectStore) (sent : PersistentVolumeClaim),
    Reconcile (client := fakeClient) mapUnicodeLower r req (mkState w cs)
    = Returns (mkResult false 0, None, final)
        (mkState w
           (cs ++ [ CallGet KObjectStore (Request_NamespacedName req);
                    CallCreate (ObjPersistentVolumeClaim sent);
                    CallGet KService (dependentKey objectStore);
                    CallGet KDeployment (dependentKey objectStore) ])).
Proof.
  intros Hget Hactive Htemplate Hkinds Hconv.
  unfold Reconcile. unfold bind at 1. unfold Get at 1.
  cbn [world calls clientGet fakeClient]. rewrite Hget, Hactive. cbn [negb].
  fold (withFinalizer objectStore
          (buildFinalizerName mapUnicodeLower (Kind (ObjectStore_TypeMeta objectStore)))).
  set (held := withFinalizer objectStore _).
  assert (Hheld : VolumeClaimTemplate (Spec held) = Some template).
  { unfold held. destruct (withFinalizer_Spec objectStore
      (buildFinalizerName mapUnicodeLower (Kind (ObjectStore_TypeMeta objectStore))))
      as [-> _]. exact Htemplate. }
  assert (Hkey : dependentKey held = dependentKey objectStore)
    by apply withFinalizer_builders.
  apply (converged_withFinalizer objectStore
           (buildFinalizerName mapUnicodeLower
              (Kind (ObjectStore_TypeMeta objectStore)))) in Hconv.
  fold held in Hconv.
  destruct Hconv as ((pvc & Hp) & (svc & Hs & Hsfix) & (dep & Hd & Hdfix)).
  destruct (fake_createPVC held template w
              (cs ++ [ CallGet KObjectStore (Request_NamespacedName req) ]) Hheld)
    as ([w1 cs1] & sent & stored & Hpvc & Hcalls & _ & Hsame & _).
  cbn [world calls] in Hcalls, Hsame. specialize (Hsame pvc Hp). subst w1 cs1.
  unfold bind at 1. rewrite Hpvc.
  unfold bind at 1.
  rewrite (fake_reconcileService_stable r held gvk w _ svc Hkinds Hs Hsfix).
  cbn [snd]. unfold bind at 1.
  rewrite (fake_createOrUpdateDeployment_stable r held gvk w _ dep Hkinds Hd Hdfix).
  cbn [snd]. rewrite Hkey.
  exists held, sent. unfold ret. f_equal. f_equal.
  now rewrite <- !app_assoc.
Qed.

Lemma Reconcile_idempotent_in_memory_witness :
  exists (final : ObjectStore) (sent : PersistentVolumeClaim),
    Reconcile (client := fakeClient) (fun s => s) sampleReconciler sampleRequest
      (mkState convergedStore [])
    = Returns (mkResult false 0, None, final)
        (mkState convergedStore
           ([] ++ [ CallGet KObjectStore (Request_NamespacedName sampleRequest);
                    CallCreate (ObjPersistentVolumeClaim sent);
                    CallGet KService (dependentKey sampleObjectStore);
                    CallGet KDeployment (dependentKey sampleObjectStore) ])).
Proof.
  apply (Reconcile_idempotent_in_memory (fun s => s) sampleReconciler sampleRequest
           convergedStore [] sampleObjectStore sampleTemplate
           (mkGroupVersionKind "object.rook-s3-nano" "v1alpha1" "ObjectStore")).
  - vm_compute. reflexivity.
  - reflexivity.
  - reflexivity.
  - reflexivity.
  - unfold converged. split; [| split].
    + eexists. vm_compute. reflexivity.
    + eexists. split; vm_compute; reflexivity.
    + eexists. split; vm_compute; reflexivity.
Defined.

(** ** The event filter of the bucket reconciler *)

(** X20: the event filter of the bucket reconciler sets the create function
    only, and that one accepts; the other three are nil and a nil function
    lets the event pass; so the filter admits every event of every type. *)
Theorem predicateController_admits_all (e : Event) :
  admits predicateController e = true
  /\ UpdateFunc predicateController = None
  /\ DeleteFunc predicateController = None
  /\ GenericFunc predicateController = None.
Proof. destruct e; repeat split. Qed.

(** ** buildFinalizerName on ASCII kinds *)

Lemma lowerByte_idempotent (c : ascii) :
  GoStrings.lowerByte (GoStrings.lowerByte c) = GoStrings.lowerByte c.
Proof.
  destruct c as [b0 b1 b2 b3 b4 b5 b6 b7].
  destruct b0, b1, b2, b3, b4, b5, b6, b7; vm_compute; reflexivity.
Qed.

Lemma lowerByte_stays_ASCII (c : ascii) :
  (GoStrings.byteOf c <? 128) = true ->
  (GoStrings.byteOf (GoStrings.lowerByte c) <? 128) = true.
Proof.
  destruct c as [b0 b1 b2 b3 b4 b5 b6 b7].
  destruct b0, b1, b2, b3, b4, b5, b6, b7; vm_compute; auto.
Qed.

Lemma lowerASCII_idempotent (s : string) :
  GoStrings.lowerASCII (GoStrings.lowerASCII s) = GoStrings.lowerASCII s.
Proof.
  induction s as [| c s IH]; [reflexivity |].
  cbn [GoStrings.lowerASCII]. now rewrite lowerByte_idempotent, IH.
Qed.

Lemma lowerASCII_stays_ASCII (s : string) :
  GoStrings.isASCII s = true -> GoStrings.isASCII (GoStrings.lowerASCII s) = true.
Proof.
  induction s as [| c s IH]; [reflexivity |].
  cbn [GoStrings.isASCII GoStrings.lowerASCII].
  intros Hs. apply andb_true_iff in Hs. destruct Hs as [Hc Hs].
  apply andb_true_iff. split; [now apply lowerByte_stays_ASCII | now apply IH].
Qed.

(** X21: on a kind made of ASCII bytes the finalizer name does not depend
    on how the library lowers other runes, it is the kind with its letters
    A to Z lowered followed by the fixed suffix; lowering the kind first
    gives the same name, so kinds that differ only in the case of their
    letters share one finalizer name. *)
Theorem buildFinalizerName_ASCII (mapUnicodeLower mapUnicodeLower' : string -> string)
    (kind kind' : string) :
  GoStrings.isASCII kind = true ->
  GoStrings.isASCII kind' = true ->
  buildFinalizerName mapUnicodeLower kind
  = GoStrings.lowerASCII kind +:+ ".object.rook-s3-nano/v1alpha1"
  /\ buildFinalizerName mapUnicodeLower kind
     = buildFinalizerName mapUnicodeLower' (GoStrings.lowerASCII kind)
  /\ (GoStrings.lowerASCII kind = GoStrings.lowerASCII kind' ->
      buildFinalizerName mapUnicodeLower kind
      = buildFinalizerName mapUnicodeLower' kind').
Proof.
  intros Hkind Hkind'.
  unfold buildFinalizerName, GoStrings.ToLower.
  rewrite Hkind, Hkind', (lowerASCII_stays_ASCII kind Hkind), lowerASCII_idempotent.
  split; [reflexivity |]. split; [reflexivity |].
  intros Heq. now rewrite Heq.
Qed.

Lemma buildFinalizerName_ASCII_witness :
  buildFinalizerName (fun s => s) "ObjectStore"
  = GoStrings.lowerASCII "ObjectStore" +:+ ".object.rook-s3-nano/v1alpha1"
  /\ buildFinalizerName (fun s => s) "ObjectStore"
     = buildFinalizerName (fun _ => "") (GoStrings.lowerASCII "ObjectStore")
  /\ (GoStrings.lowerASCII "ObjectStore" = GoStrings.lowerASCII "OBJECTSTORE" ->
      buildFinalizerName (fun s => s) "ObjectStore"
      = buildFinalizerName (fun _ => "") "OBJECTSTORE").
Proof.
  apply (buildFinalizerName_ASCII (fun s => s) (fun _ => "")
           "ObjectStore" "OBJECTSTORE").
  - reflexivity.
  - reflexivity.
Defined.

(** ** What the two create-or-update steps write *)

Lemma mutate_fst (k : ResourceKind) (f : objType k -> objType k * option error)
    (key : NamespacedName) (x : objType k) :
  fst (mutate k f key x) = fst (f x).
Proof.
  unfold mutate. destruct (f x) as [obj' [err |]]; [reflexivity |].
  destruct (bool_decide _); reflexivity.
Qed.

(** Every object a create-or-update writes is one its mutate function
    returned. *)
Lemma CreateOrUpdate_writes {W : Type} `{client : Client W} (k : ResourceKind)
    (obj : objType k) (f : objType k -> objType k * option error) (s : State W) :
  exists (res : OperationResult * option error * objType k) (s' : State W)
         (added : list Call),
    CreateOrUpdate k obj f s = Returns res s'
    /\ calls s' = calls s ++ added
    /\ Forall (fun c => isMutation c = true ->
                 exists base : objType k,
                   c = CallCreate (toObject k (fst (f base)))
                   \/ c = CallUpdate (toObject k (fst (f base)))) added.
Proof.
  unfold CreateOrUpdate, bind, Get.
  destruct (clientGet k _ (world s)) as [existing | err].
  - pose proof (mutate_fst k f (ObjectKeyFromObject k obj) existing) as Hfst.
    destruct (mutate k f _ existing) as [obj' [err |]]; cbn [fst] in Hfst.
    + eexists _, _, [ _ ]. split; [reflexivity |]. split; [reflexivity |].
      repeat constructor. discriminate.
    + destruct (bool_decide (existing = obj')).
      * eexists _, _, [ _ ]. split; [reflexivity |]. split; [reflexivity |].
        repeat constructor. discriminate.
      * unfold Update. simpl.
        destruct (clientUpdate k obj' (world s)) as [[stored | err] w'];
          (eexists _, _, [ _; _ ]; split; [reflexivity |];
           split; [simpl; rewrite <- app_assoc; reflexivity |];
           repeat constructor; [discriminate |];
           intros _; exists existing; right; now rewrite Hfst).
  - destruct (IsNotFound err); simpl.
    + pose proof (mutate_fst k f (ObjectKeyFromObject k obj) obj) as Hfst.
      destruct (mutate k f _ obj) as [obj' [err' |]]; cbn [fst] in Hfst.
      * eexists _, _, [ _ ]. split; [reflexivity |]. split; [reflexivity |].
        repeat constructor. discriminate.
      * unfold Create. simpl.
        destruct (clientCreate k obj' (world s)) as [[stored | err'] w'];
          (eexists _, _, [ _; _ ]; split; [reflexivity |];
           split; [simpl; rewrite <- app_assoc; reflexivity |];
           repeat constructor; [discriminate |];
           intros _; exists obj; left; now rewrite Hfst).
    + eexists _, _, [ _ ]. split; [reflexivity |]. split; [reflexivity |].
      repeat constructor. discriminate.
Qed.

(** X22: whatever the store holds and answers, every service that
    reconcileService writes, created or updated, has exactly the target
    spec, the http port, the object_store selector, and an empty cluster
    address and type, so an update blanks the address the store had
    assigned; and every deployment that createOrUpdateDeployment writes has
    exactly the target spec around the pod template of makeRGWPodSpec. *)
Theorem steps_write_the_target_spec {W : Type} `{client : Client W}
    (r : ObjectStoreReconciler) (objectStore : ObjectStore) (s : State W) :
  (exists (res : string * option error) (s' : State W) (added : list Call),
     reconcileService r objectStore s = Returns res s'
     /\ calls s' = calls s ++ added
     /\ Forall (fun c => isMutation c = true ->
                  writtenServiceSpec c
                  = Some (mkServiceSpec [ httpPort ]
                            {[ "object_store" := Name (ObjectStore_ObjectMeta objectStore) ]}
                            "" "")) added)
  /\ (exists (pod : PodTemplateSpec) (res : OperationResult * option error)
             (s' : State W) (added : list Call),
        makeRGWPodSpec objectStore = Ok pod
        /\ createOrUpdateDeployment r objectStore s = Returns res s'
        /\ calls s' = calls s ++ added
        /\ Forall (fun c => isMutation c = true ->
                     writtenDeploymentSpec c
                     = Some (mkDeploymentSpec (Some 1)
                               (Some (mkLabelSelector
                                  {[ "object_store" :=
                                       Name (ObjectStore_ObjectMeta objectStore) ]}))
                               pod
                               (mkDeploymentStrategy "RollingUpdate"
                                  (Some (mkRollingUpdateDeployment
                                           (Some (mkIntOrString 0 1 ""))
                                           (Some (mkIntOrString 0 0 ""))))))) added).
Proof.
  split.
  - unfold reconcileService.
    destruct (SetControllerReference objectStore KService _ _) as [service [err |]].
    { eexists _, _, []. split; [reflexivity |].
      split; [symmetry; apply app_nil_r | constructor]. }
    destruct (CreateOrUpdate_writes KService service
                (reconcileService_mutateFunc objectStore) s)
      as (res & s' & added & Hrun & Hcalls & Hwrites).
    unfold bind. rewrite Hrun.
    assert (Hspec : Forall (fun c => isMutation c = true ->
                      writtenServiceSpec c
                      = Some (mkServiceSpec [ httpPort ]
                                {[ "object_store" :=
                                     Name (ObjectStore_ObjectMeta objectStore) ]}
                                "" "")) added).
    { eapply Forall_impl; [exact Hwrites |].
      intros c Hc Hmut. destruct (Hc Hmut) as [base [-> | ->]]; reflexivity. }
    destruct res as [[opResult [err |]] svc];
      (eexists _, _, added; split; [reflexivity |]; split; [exact Hcalls | exact Hspec]).
  - destruct (makeRGWPodSpec_Ok objectStore) as [pod [Hpod _]].
    exists pod. unfold createOrUpdateDeployment.
    destruct (SetControllerReference objectStore KDeployment _ _) as [deploy [err |]].
    { eexists _, _, []. split; [exact Hpod |]. split; [reflexivity |].
      split; [symmetry; apply app_nil_r | constructor]. }
    destruct (CreateOrUpdate_writes KDeployment deploy
                (createOrUpdateDeployment_mutateFunc objectStore) s)
      as (res & s' & added & Hrun & Hcalls & Hwrites).
    unfold bind. rewrite Hrun. destruct res as [[opResult err] dep].
    eexists _, _, added. split; [exact Hpod |]. split; [reflexivity |].
    split; [exact Hcalls |].
    eapply Forall_impl; [exact Hwrites |].
    intros c Hc Hmut. destruct (Hc Hmut) as [base Hbase].
    destruct (deployment_mutateFunc_shape objectStore base) as (pod' & Hpod' & Hshape).
    rewrite Hpod in Hpod'. injection Hpod' as <-.
    rewrite Hshape in Hbase. destruct Hbase as [-> | ->]; reflexivity.
Qed.

Lemma unregistered_reconcileService {W : Type} `{client : Client W}
    (r : ObjectStoreReconciler) (objectStore : ObjectStore) (s : State W) :
  length (ObjectStoreKinds (Reconciler_Scheme r)) <> 1%nat ->
  exists e : error,
    reconcileService r objectStore s
    = Returns ("", Some (wrapError "failed to set owner reference to service %q: %w"
                           [ Key_Name (dependentKey objectStore) ] e)) s.
Proof.
  intros Hkinds. unfold reconcileService.
  destruct (SetControllerReference_unregistered objectStore KService
              (generateService objectStore) (Reconciler_Scheme r) eq_refl Hkinds)
    as [e He].
  rewrite He. exists e. reflexivity.
Qed.

(** X23: while the scheme does not hold exactly one kind for the ObjectStore
    type, reconciling an ObjectStore that is found, not being deleted and
    templated can never succeed, and yet each attempt sends the Create of the
    claim: Reconcile returns an error after exactly two calls, the read of
    the ObjectStore and that Create. *)
Theorem Reconcile_unregistered_kind {W : Type} `{client : Client W}
    (mapUnicodeLower : string -> string) (r : ObjectStoreReconciler)
    (req : Request) (s : State W) (objectStore : ObjectStore)
    (template : PersistentVolumeClaim) :
  clientGet KObjectStore (Request_NamespacedName req) (world s) = Ok objectStore ->
  IsZero (DeletionTimestamp (ObjectStore_ObjectMeta objectStore)) = true ->
  VolumeClaimTemplate (Spec objectStore) = Some template ->
  length (ObjectStoreKinds (Reconciler_Scheme r)) <> 1%nat ->
  exists (pvc : PersistentVolumeClaim) (err : error) (final : ObjectStore)
         (s' : State W),
    Reconcile mapUnicodeLower r req s = Returns (mkResult false 0, Some err, final) s'
    /\ calls s' = calls s ++ [ CallGet KObjectStore (Request_NamespacedName req);
                               CallCreate (ObjPersistentVolumeClaim pvc) ]
    /\ ObjectKeyFromObject KPersistentVolumeClaim pvc = dependentKey objectStore.
Proof.
  intros Hget Hactive Htemplate Hkinds.
  unfold Reconcile. unfold bind at 1. unfold Get at 1. rewrite Hget, Hactive.
  cbn [negb].
  fold (withFinalizer objectStore
          (buildFinalizerName mapUnicodeLower (Kind (ObjectStore_TypeMeta objectStore)))).
  set (held := withFinalizer objectStore _).
  destruct (withFinalizer_Spec objectStore
              (buildFinalizerName mapUnicodeLower
                 (Kind (ObjectStore_TypeMeta objectStore))))
    as (Hspec & _ & Hname & Hns & _).
  fold held in Hspec, Hname, Hns.
  unfold bind at 1. unfold createPVC. rewrite Hspec, Hname, Hns, Htemplate.
  unfold bind at 1. unfold Create. cbn [world calls].
  match goal with
  | |- context [clientCreate KPersistentVolumeClaim ?p (world s)] => set (pvc := p)
  end.
  exists pvc.
  destruct (clientCreate KPersistentVolumeClaim pvc (world s)) as [[stored | e] w'].
  - unfold ret at 1. cbv beta iota. unfold bind at 1.
    match goal with
    | |- context [reconcileService r ?h ?st] =>
        destruct (unregistered_reconcileService r h st Hkinds) as [e1 He1];
        rewrite He1
    end.
    cbn [snd]. eexists _, _, _. split; [reflexivity |].
    split; [cbn [calls]; now rewrite <- app_assoc | reflexivity].
  - destruct (IsAlreadyExists e).
    + unfold ret at 1. cbv beta iota. unfold bind at 1.
      match goal with
      | |- context [reconcileService r ?h ?st] =>
          destruct (unregistered_reconcileService r h st Hkinds) as [e1 He1];
          rewrite He1
      end.
      cbn [snd]. eexists _, _, _. split; [reflexivity |].
      split; [cbn [calls]; now rewrite <- app_assoc | reflexivity].
    + eexists _, _, _. split; [reflexivity |].
      split; [cbn [calls]; now rewrite <- app_assoc | reflexivity].
Qed.

Lemma Reconcile_unregistered_kind_witness :
  exists (pvc : PersistentVolumeClaim) (err : error) (final : ObjectStore)
         (s' : State Store),
    Reconcile (client := fakeClient) (fun s => s)
      (mkObjectStoreReconciler (mkScheme [])) sampleRequest
      (initialState (mkStore [ sampleObjectStore ] [] [] []))
    = Returns (mkResult false 0, Some err, final) s'
    /\ calls s'
       = calls (initialState (mkStore [ sampleObjectStore ] [] [] []))
         ++ [ CallGet KObjectStore (Request_NamespacedName sampleRequest);
              CallCreate (ObjPersistentVolumeClaim pvc) ]
    /\ ObjectKeyFromObject KPersistentVolumeClaim pvc = dependentKey sampleObjectStore.
Proof.
  apply (Reconcile_unregistered_kind (client := fakeClient) (fun s => s)
           (mkObjectStoreReconciler (mkScheme [])) sampleRequest
           (initialState (mkStore [ sampleObjectStore ] [] [] []))
           sampleObjectStore sampleTemplate).
  - vm_compute. reflexivity.
  - reflexivity.
  - reflexivity.
  - simpl. lia.
Defined.
